(** * Deployment scripts of code-canvas-astro: a shallow embedding

    The Python scripts under [src/] are sequential glue around three kinds
    of external calls: sub-processes (docker, aws), HTTP probes and boto3
    API calls.  The embedding keeps the control flow of every modelled
    function as it is written (try/except clauses, early returns, loops)
    and threads an explicit state made of
    - the external world [W], reached only through the operations of the
      interface [Env];
    - the attributes of the deployer object ([self]);
    - a ghost trace of the external calls performed so far, newest first.

    Console output ([print] and the reporter methods) has no influence
    on control flow and is left out; an expression that is evaluated only
    to be printed is kept whenever it can raise.  Exceptions are the
    subclasses of Python's [Exception]; asynchronous [BaseException]s
    (KeyboardInterrupt) are outside the model. *)

From Stdlib Require Import String Ascii List ZArith Lia Bool.
From Stdlib Require Import DecimalString.
Import ListNotations.
Open Scope string_scope.
Open Scope Z_scope.

Set Implicit Arguments.
Set Warnings "-register-all".

(** ** Python values and strings *)

(** Strings are sequences of code points below 256. *)

Definition string_of_Z (z : Z) : string := NilZero.string_of_int (Z.to_int z).

(** [str.isspace] restricted to code points below 256. *)
Definition py_isspace (c : ascii) : bool :=
  let n := nat_of_ascii c in
  (((9 <=? n) && (n <=? 13)) || ((28 <=? n) && (n <=? 32))
   || (n =? 133) || (n =? 160))%nat.

Definition is_empty (s : string) : bool :=
  match s with EmptyString => true | String _ _ => false end.

Fixpoint lstrip_by (p : ascii -> bool) (s : string) : string :=
  match s with
  | EmptyString => EmptyString
  | String c s' => if p c then lstrip_by p s' else s
  end.

Fixpoint rstrip_by (p : ascii -> bool) (s : string) : string :=
  match s with
  | EmptyString => EmptyString
  | String c s' =>
      let r := rstrip_by p s' in
      if is_empty r && p c then EmptyString else String c r
  end.

(** [s.strip()] *)
Definition py_strip (s : string) : string :=
  rstrip_by py_isspace (lstrip_by py_isspace s).

(** [s.rstrip(".")] *)
Definition rstrip_dots (s : string) : string :=
  rstrip_by (fun c => Ascii.eqb c "."%char) s.

(** [s.split(":", 1)]: one or two pieces. *)
Fixpoint split_colon_once (s : string) : list string :=
  match s with
  | EmptyString => [EmptyString]
  | String c s' =>
      if Ascii.eqb c ":"%char then [EmptyString; s']
      else match split_colon_once s' with
           | a :: rest => String c a :: rest
           | [] => [String c EmptyString]
           end
  end.

Fixpoint ends_with_slash (s : string) : bool :=
  match s with
  | EmptyString => false
  | String c EmptyString => Ascii.eqb c "/"%char
  | String _ s' => ends_with_slash s'
  end.

(** [os.path.join(a, b)] for a relative [b]. *)
Definition path_join (a b : string) : string :=
  if is_empty a || ends_with_slash a then a ++ b else a ++ "/" ++ b.

(** Values that travel through dictionaries: parsed JSON and boto3
    responses. *)
Inductive pyval : Type :=
| PNone
| PBool (b : bool)
| PInt (z : Z)
| PStr (s : string)
| PList (l : list pyval)
| PDict (items : list (string * pyval)).

Fixpoint assoc (k : string) (items : list (string * pyval)) : option pyval :=
  match items with
  | [] => None
  | (k', v) :: rest => if String.eqb k k' then Some v else assoc k rest
  end.

(** Truth value of an object, as tested by [if x] and [not x]. *)
Definition truthy (v : pyval) : bool :=
  match v with
  | PNone => false
  | PBool b => b
  | PInt z => negb (z =? 0)
  | PStr s => negb (is_empty s)
  | PList l => match l with [] => false | _ => true end
  | PDict d => match d with [] => false | _ => true end
  end.

(** [v == "literal"] *)
Definition eq_str (v : pyval) (s : string) : bool :=
  match v with PStr s' => String.eqb s' s | _ => false end.

(** ** Exceptions *)

Inductive exn : Type :=
| ClientError (code msg : string)
| WaiterError (msg : string)
| CalledProcessError (returncode : Z) (stdout stderr : option string) (msg : string)
| FileNotFoundError (msg : string)
| OSError (msg : string)
| HTTPError (code : Z) (reason : string)
| URLError (reason : string)
| RequestException (msg : string)
| JSONDecodeError (msg : string)
| ValueError (msg : string)
| KeyError (key : string)
| IndexError (msg : string)
| TypeError (msg : string)
| AttributeError (msg : string)
| Exception (msg : string).

(** [isinstance(e, OSError)]: urllib's and requests' errors derive from it. *)
Definition is_OSError (e : exn) : bool :=
  match e with
  | FileNotFoundError _ | OSError _ | HTTPError _ _ | URLError _
  | RequestException _ => true
  | _ => false
  end.

(** [str(e)] *)
Definition exn_str (e : exn) : string :=
  match e with
  | ClientError _ msg | WaiterError msg | CalledProcessError _ _ _ msg
  | FileNotFoundError msg | OSError msg | RequestException msg
  | JSONDecodeError msg | ValueError msg | IndexError msg | TypeError msg
  | AttributeError msg | Exception msg => msg
  | HTTPError code reason => "HTTP Error " ++ string_of_Z code ++ ": " ++ reason
  | URLError reason => "<urlopen error " ++ reason ++ ">"
  | KeyError key => "'" ++ key ++ "'"
  end.

Inductive outcome (A : Type) : Type :=
| Ret (a : A)
| Raise (e : exn).
Arguments Ret {A} a.
Arguments Raise {A} e.

(** ** Dictionary and attribute access, with the errors Python raises *)

(** [v[k]] for a string key. *)
Definition getitem (v : pyval) (k : string) : outcome pyval :=
  match v with
  | PDict d => match assoc k d with
               | Some x => Ret x
               | None => Raise (KeyError k)
               end
  | _ => Raise (TypeError "object is not subscriptable by a string key")
  end.

(** [v[0]] *)
Definition getitem0 (v : pyval) : outcome pyval :=
  match v with
  | PList (x :: _) => Ret x
  | PList [] => Raise (IndexError "list index out of range")
  | PStr (String c _) => Ret (PStr (String c EmptyString))
  | PStr EmptyString => Raise (IndexError "string index out of range")
  | PDict _ => Raise (KeyError "0")
  | _ => Raise (TypeError "object is not subscriptable")
  end.

(** [v.get(k, default)] *)
Definition dict_get (v : pyval) (k : string) (default : pyval) : outcome pyval :=
  match v with
  | PDict d => Ret (match assoc k d with Some x => x | None => default end)
  | _ => Raise (AttributeError "object has no attribute 'get'")
  end.

(** [v.strip()] *)
Definition str_strip (v : pyval) : outcome string :=
  match v with
  | PStr s => Ret (py_strip s)
  | _ => Raise (AttributeError "object has no attribute 'strip'")
  end.

(** [v.rstrip(".")] *)
Definition str_rstrip_dots (v : pyval) : outcome string :=
  match v with
  | PStr s => Ret (rstrip_dots s)
  | _ => Raise (AttributeError "object has no attribute 'rstrip'")
  end.

(** The items visited by [for x in v]. *)
Definition py_iter (v : pyval) : outcome (list pyval) :=
  match v with
  | PList l => Ret l
  | PDict d => Ret (map (fun kv => PStr (fst kv)) d)
  | PStr s => Ret (map (fun c => PStr (String c EmptyString)) (list_ascii_of_string s))
  | _ => Raise (TypeError "object is not iterable")
  end.

(** [range(lo, hi)] *)
Definition py_range (lo hi : Z) : list Z :=
  map (fun i => lo + Z.of_nat i) (seq 0 (Z.to_nat (hi - lo))).

(** ** The external world *)

Inductive cmdline : Type :=
| Argv (args : list string)
| Shell (line : string).

Inductive event : Type :=
| EvSubprocess (cmd : cmdline)
| EvUrlopen (url : string)
| EvRequestsGet (url : string)
| EvBoto (service op : string) (kwargs : pyval)
| EvWaiter (service waiter : string) (kwargs : pyval)
| EvSleep (secs : Z)
| EvReadJson (path : string).

(** What the scripts reach outside themselves.  Every operation may
    change the world; those that Python lets fail return an [outcome]. *)
Class Env (W : Type) : Type := {
  (** [subprocess.run(cmd, check=True, input=...)]: the captured
      [(stdout, stderr)] of a process that exited with status 0; a
      non-zero status is [CalledProcessError], a command that cannot be
      started an [OSError]. *)
  subprocess_run : cmdline -> option string -> W -> outcome (string * string) * W;
  (** [urllib.request.urlopen(req, timeout=20)] followed by [getcode()]. *)
  urlopen : string -> W -> outcome Z * W;
  (** [requests.get(url, timeout=10, allow_redirects=True).status_code] *)
  requests_get : string -> W -> outcome Z * W;
  (** [boto3.client(service).op(...)] with keyword arguments [kwargs] *)
  boto3_call : string -> string -> pyval -> W -> outcome pyval * W;
  (** [client.get_waiter(name).wait(...)] *)
  boto3_wait : string -> string -> pyval -> W -> outcome unit * W;
  time_sleep : Z -> W -> W;
  (** [int(time.time())] *)
  time_time : W -> Z * W;
  (** [with open(path) as fh: json.load(fh)] *)
  read_json : string -> W -> outcome pyval * W;
  os_path_isfile : string -> W -> bool * W;
  (** [os.path.dirname(os.path.abspath(__file__))] *)
  script_dir : string;
  (** [base64.b64decode(v).decode()] *)
  b64decode_str : pyval -> outcome string;
  (** [bytes.decode()] of a captured stream *)
  bytes_decode : string -> outcome string;
  json_dumps : pyval -> string;
  (** [str(v)] for a value that is not a string *)
  py_repr : pyval -> string
}.

(** ** The state-and-exception monad *)

Record state (W Self : Type) : Type := mkState {
  world : W;
  self : Self;
  trace : list event
}.

Definition M (W Self A : Type) : Type :=
  state W Self -> outcome A * state W Self.

Section Monad.
Context {W Self : Type}.

Definition ret {A} (a : A) : M W Self A := fun s => (Ret a, s).

Definition raise {A} (e : exn) : M W Self A := fun s => (Raise e, s).

Definition bind {A B} (m : M W Self A) (k : A -> M W Self B) : M W Self B :=
  fun s => match m s with
           | (Ret a, s') => k a s'
           | (Raise e, s') => (Raise e, s')
           end.

(** A pure computation that may raise. *)
Definition lift {A} (o : outcome A) : M W Self A := fun s => (o, s).

(** [try: m  except ...: h]; [h e = None] when no clause matches [e],
    which then propagates.  An exception raised by the handler itself
    propagates too. *)
Definition try_except {A} (m : M W Self A) (h : exn -> option (M W Self A))
  : M W Self A :=
  fun s => match m s with
           | (Ret a, s') => (Ret a, s')
           | (Raise e, s') => match h e with
                              | Some k => k s'
                              | None => (Raise e, s')
                              end
           end.

Definition get_self : M W Self Self := fun s => (Ret (self s), s).

Definition set_self (f : Self -> Self) : M W Self unit :=
  fun s => (Ret tt, mkState (world s) (f (self s)) (trace s)).

(** An operation of the world, logged in the trace. *)
Definition external {A} (ev : event) (op : W -> outcome A * W) : M W Self A :=
  fun s => let (o, w') := op (world s) in
           (o, mkState w' (self s) (ev :: trace s)).

Definition external_total {A} (ev : event) (op : W -> A * W) : M W Self A :=
  external ev (fun w => let (a, w') := op w in (Ret a, w')).

Definition unlogged {A} (op : W -> A * W) : M W Self A :=
  fun s => let (a, w') := op (world s) in
           (Ret a, mkState w' (self s) (trace s)).
End Monad.

Declare Scope monad_scope.
Delimit Scope monad_scope with monad.
Notation "x <- m ;; k" := (bind m (fun x => k))
  (at level 61, m at next level, right associativity) : monad_scope.
Notation "' pat <- m ;; k" := (bind m (fun x => match x with pat => k end))
  (at level 61, pat pattern, m at next level, right associativity) : monad_scope.
Notation "m ;; k" := (bind m (fun _ => k))
  (at level 61, right associativity) : monad_scope.
Open Scope monad_scope.

(** A [for] loop whose body may [return]: the body yields [Some r] to
    leave the enclosing function with [r] and [None] to go on. *)
Fixpoint for_each {W Self X R} (xs : list X) (body : X -> M W Self (option R))
  : M W Self (option R) :=
  match xs with
  | [] => ret None
  | x :: rest =>
      r <- body x ;;
      match r with
      | Some v => ret (Some v)
      | None => for_each rest body
      end
  end.

(** The format of a value inside an f-string. *)
Definition py_str {W} `{Env W} (v : pyval) : string :=
  match v with PStr s => s | _ => py_repr v end.

(** Keyword arguments of a boto3 call. *)
Definition kw (items : list (string * pyval)) : pyval := PDict items.

Section Primitives.
Context {W Self : Type} `{Env W}.

Definition do_subprocess (cmd : cmdline) (input : option string)
  : M W Self (string * string) :=
  external (EvSubprocess cmd) (subprocess_run cmd input).

Definition do_urlopen (url : string) : M W Self Z :=
  external (EvUrlopen url) (urlopen url).

Definition do_requests_get (url : string) : M W Self Z :=
  external (EvRequestsGet url) (requests_get url).

Definition boto (service op : string) (kwargs : pyval) : M W Self pyval :=
  external (EvBoto service op kwargs) (boto3_call service op kwargs).

Definition waiter_wait (service name : string) (kwargs : pyval) : M W Self unit :=
  external (EvWaiter service name kwargs) (boto3_wait service name kwargs).

Definition sleep (secs : Z) : M W Self unit :=
  external_total (EvSleep secs) (fun w => (tt, time_sleep secs w)).

Definition now : M W Self Z := unlogged time_time.

Definition load_json (path : string) : M W Self pyval :=
  external (EvReadJson path) (read_json path).

Definition isfile (path : string) : M W Self bool :=
  unlogged (os_path_isfile path).
End Primitives.

(** A value used where the library insists on a [str]. *)
Definition as_str (v : pyval) : outcome string :=
  match v with
  | PStr s => Ret s
  | _ => Raise (TypeError "expected str")
  end.

(** ** The generic stage loop

    [for label, fn in stages: ok = fn(); if not ok: ...; break] of
    [UpdateDeployer.run].  The loop is written over an arbitrary state
    [S]; [calls] is a ghost log of the labels whose action was invoked,
    oldest first, which no action can touch. *)
Section StageLoop.
Variable S : Type.

Definition action : Type := S -> outcome bool * S.

Record loop_result : Type := mkLoop {
  all_passed : bool;
  failed_at : option string
}.

Fixpoint run_stages (stages : list (string * action)) (calls : list string) (s : S)
  : outcome loop_result * list string * S :=
  match stages with
  | [] => (Ret (mkLoop true None), calls, s)
  | (label, fn) :: rest =>
      match fn s with
      | (Ret ok, s') =>
          if ok then run_stages rest (calls ++ [label])%list s'
          else (Ret (mkLoop false (Some label)), (calls ++ [label])%list, s')
      | (Raise e, s') => (Raise e, (calls ++ [label])%list, s')
      end
  end.

(** Every stage of [stages], run in order from [s], returns [True];
    the state reached is the result. *)
Fixpoint all_succeed (stages : list (string * action)) (s : S) : option S :=
  match stages with
  | [] => Some s
  | (_, fn) :: rest =>
      match fn s with
      | (Ret true, s') => all_succeed rest s'
      | _ => None
      end
  end.
End StageLoop.

(** The exit status of the interpreter: the argument of [sys.exit], or 1
    when an exception reaches the top level. *)
Definition exit_status (o : outcome Z) : Z :=
  match o with
  | Ret c => c
  | Raise _ => 1
  end.

(** ** update_aws_deployment.py *)
Module UpdateAwsDeployment.

Definition DOCKERHUB_USERNAME := "faddah".
Definition DOCKER_APP_IMAGE := "code-canvas-astro-app".
Definition DOCKER_DB_INIT_IMAGE := "code-canvas-astro-db-init".
Definition AWS_REGION := "us-west-2".
Definition AWS_ACCOUNT := "415740581749".
Definition ECR_REPO_NAME := "python-repl-container-lambda".
Definition ECR_REPO_URI := AWS_ACCOUNT ++ ".dkr.ecr." ++ AWS_REGION ++ ".amazonaws.com".
Definition ECR_FULL_URI := ECR_REPO_URI ++ "/" ++ ECR_REPO_NAME.
Definition LAMBDA_FUNCTION_NAME := "code-canvas-astro-lambda".
Definition LAMBDA_FUNCTION_URL :=
  "https://jb6uzlmmok5wxyr2nzdci3wdfi0rcush.lambda-url.us-west-2.on.aws/".
Definition LAMBDA_CONFIG_memory := 2048.
Definition LAMBDA_CONFIG_timeout := 900.
Definition LAMBDA_CONFIG_ephemeral_storage := 1024.
Definition S3_BUCKET_NAME := "code-canvas-astro-db".
Definition S3_DB_KEY := "database/taskManagement.db".
Definition API_GATEWAY_ID := "pvh7sgwr49".
Definition CLOUDFRONT_DISTRIBUTION_ID := "E8UQ2BAGKYYM0".
Definition ROUTE53_DOMAIN := "pyrepl.dev".
Definition ROUTE53_HOSTED_ZONE_ID := "Z06161484WRKVMIQUBIG".

(** The attributes of an [UpdateDeployer] that the stages write. *)
Record deployer : Type := mkDeployer {
  version : string;
  image_tag : string;
  ecr_image_uri : string
}.

(** [UpdateDeployer.__init__] *)
Definition init : deployer := mkDeployer "" "" "".

Section WithEnv.
Context {W : Type} `{Env W}.

Local Abbreviation Md := (M W deployer).

Definition PROJECT_ROOT : string := script_dir.
Definition PACKAGE_JSON_PATH : string := path_join PROJECT_ROOT "package.json".

(** [run(cmd)]: only [CalledProcessError] is caught. *)
Definition run {Self} (cmd : list string) : M W Self (bool * string * string) :=
  try_except
    ('(out, err) <- do_subprocess (Argv cmd) None ;;
     ret (true, py_strip out, py_strip err))
    (fun exc =>
       match exc with
       | CalledProcessError _ out err _ =>
           let stdout :=
             match out with
             | Some o => if is_empty o then "" else py_strip o
             | None => ""
             end in
           let stderr :=
             match err with
             | Some e => if is_empty e then exn_str exc else py_strip e
             | None => exn_str exc
             end in
           Some (ret (false, stdout, stderr))
       | _ => None
       end).

Definition preflight_check : Md bool :=
  r <- try_except
         (identity <- boto "sts" "get_caller_identity" (kw []) ;;
          _ <- lift (getitem identity "Account") ;;
          _ <- lift (dict_get identity "Arn" (PStr "unknown")) ;;
          ret None)
         (fun exc =>
            match exc with
            | ClientError _ _ => Some (ret (Some false))
            | _ => None
            end) ;;
  match r with
  | Some b => ret b
  | None =>
      '(ok, _, err) <- run ["docker"; "info"] ;;
      if negb ok then ret false
      else if String.eqb DOCKERHUB_USERNAME "your-dockerhub-username" then ret false
      else
        found <- isfile PACKAGE_JSON_PATH ;;
        if negb found then ret false else ret true
  end.

Definition stage_01_read_version : Md bool :=
  try_except
    (data <- load_json PACKAGE_JSON_PATH ;;
     v <- lift (dict_get data "version" (PStr "")) ;;
     version <- lift (str_strip v) ;;
     if is_empty version then ret false
     else
       set_self (fun d => mkDeployer version ("v" ++ version) (ecr_image_uri d)) ;;
       _ <- lift (dict_get data "name" (PStr "(unknown)")) ;;
       ret true)
    (fun exc =>
       match exc with
       | JSONDecodeError _ => Some (ret false)
       | _ => if is_OSError exc then Some (ret false) else None
       end).

Definition build_cmd (local_tag dockerfile : string) : list string :=
  ["docker"; "buildx"; "build";
   "--platform"; "linux/amd64";
   "--provenance=false";
   "--sbom=false";
   "--load";
   "-t"; local_tag;
   "-f"; path_join PROJECT_ROOT dockerfile;
   PROJECT_ROOT].

Definition stage_02_build_app_container : Md bool :=
  d <- get_self ;;
  let local_tag := DOCKER_APP_IMAGE ++ ":" ++ image_tag d in
  '(ok, stdout, stderr) <- run (build_cmd local_tag "Dockerfile") ;;
  if negb ok then ret false else ret true.

Definition stage_03_build_db_init_container : Md bool :=
  d <- get_self ;;
  let local_tag := DOCKER_DB_INIT_IMAGE ++ ":" ++ image_tag d in
  '(ok, stdout, stderr) <- run (build_cmd local_tag "Dockerfile.db") ;;
  if negb ok then ret false else ret true.

(** [images_to_push] of stage 4: (local tag, hub tag, hub latest tag). *)
Definition images_to_push (tag : string) : list (string * string * string) :=
  [ (DOCKER_APP_IMAGE ++ ":" ++ tag,
     DOCKERHUB_USERNAME ++ "/" ++ DOCKER_APP_IMAGE ++ ":" ++ tag,
     DOCKERHUB_USERNAME ++ "/" ++ DOCKER_APP_IMAGE ++ ":latest");
    (DOCKER_DB_INIT_IMAGE ++ ":" ++ tag,
     DOCKERHUB_USERNAME ++ "/" ++ DOCKER_DB_INIT_IMAGE ++ ":" ++ tag,
     DOCKERHUB_USERNAME ++ "/" ++ DOCKER_DB_INIT_IMAGE ++ ":latest") ].

(** The body of the [for] loop of stage 4. *)
Definition push_image (img : string * string * string) : Md (option bool) :=
  let '(local_tag, hub_tag, hub_latest_tag) := img in
  '(ok, _, err) <- run ["docker"; "tag"; local_tag; hub_tag] ;;
  if negb ok then ret (Some false)
  else
    '(ok, _, err) <- run ["docker"; "tag"; local_tag; hub_latest_tag] ;;
    if negb ok then ret (Some false)
    else
      '(ok, _, err) <- run ["docker"; "push"; hub_tag] ;;
      if negb ok then ret (Some false)
      else
        '(ok, _, err) <- run ["docker"; "push"; hub_latest_tag] ;;
        if negb ok then ret (Some false)
        else ret None.

Definition docker_login_cmd : list string :=
  ["docker"; "login"; "--username"; DOCKERHUB_USERNAME].

Definition stage_04_push_to_dockerhub : Md bool :=
  d <- get_self ;;
  '(login_ok, _, login_err) <- run docker_login_cmd ;;
  r <- for_each (images_to_push (image_tag d)) push_image ;;
  match r with
  | Some b => ret b
  | None => ret true
  end.

Definition stage_05_ecr_auth : Md bool :=
  try_except
    (response <- boto "ecr" "get_authorization_token" (kw []) ;;
     l <- lift (getitem response "authorizationData") ;;
     auth_data <- lift (getitem0 l) ;;
     t <- lift (getitem auth_data "authorizationToken") ;;
     token <- lift (b64decode_str t) ;;
     match split_colon_once token with
     | [_user; password] =>
         ecr_endpoint <- lift (getitem auth_data "proxyEndpoint") ;;
         endpoint <- lift (as_str ecr_endpoint) ;;
         let login_cmd :=
           ["docker"; "login"; "--username"; "AWS"; "--password-stdin"; endpoint] in
         _ <- do_subprocess (Argv login_cmd) (Some password) ;;
         ret true
     | _ => raise (ValueError "not enough values to unpack (expected 2, got 1)")
     end)
    (fun exc =>
       match exc with
       | ClientError _ _ => Some (ret false)
       | CalledProcessError _ _ _ _ => Some (ret false)
       | _ => None
       end).

Definition stage_06_build_and_push_ecr : Md bool :=
  d <- get_self ;;
  let local_tag := ECR_REPO_NAME ++ ":" ++ image_tag d in
  let ecr_tag := ECR_FULL_URI ++ ":" ++ image_tag d in
  let ecr_latest := ECR_FULL_URI ++ ":latest" in
  set_self (fun d => mkDeployer (version d) (image_tag d) ecr_tag) ;;
  '(ok, _, err) <- run (build_cmd local_tag "Dockerfile.lambda") ;;
  if negb ok then ret false
  else
    '(ok, _, err) <- run ["docker"; "tag"; local_tag; ecr_tag] ;;
    if negb ok then ret false
    else
      '(ok, _, err) <- run ["docker"; "tag"; local_tag; ecr_latest] ;;
      if negb ok then ret false
      else
        '(ok, _, err) <- run ["docker"; "push"; ecr_tag] ;;
        if negb ok then ret false
        else
          '(ok, _, err) <- run ["docker"; "push"; ecr_latest] ;;
          if negb ok then ret false
          else ret true.

(** [except ClientError: ...; return False] followed by
    [except Exception: ...; return False]. *)
Definition any_exception_is_false (exc : exn) : option (Md bool) :=
  Some (ret false).

Definition lambda_environment : pyval :=
  PDict [("Variables",
          PDict [("NODE_ENV", PStr "production");
                 ("S3_BUCKET_NAME", PStr S3_BUCKET_NAME);
                 ("S3_DB_KEY", PStr S3_DB_KEY);
                 ("PORT", PStr "8080");
                 ("DATABASE_URL", PStr "file:/tmp/taskManagement.db")])].

Definition function_updated_args : pyval :=
  kw [("FunctionName", PStr LAMBDA_FUNCTION_NAME);
      ("WaiterConfig", PDict [("Delay", PInt 5); ("MaxAttempts", PInt 60)])].

Definition stage_07_update_lambda : Md bool :=
  d <- get_self ;;
  try_except
    (_ <- boto "lambda" "update_function_code"
            (kw [("FunctionName", PStr LAMBDA_FUNCTION_NAME);
                 ("ImageUri", PStr (ecr_image_uri d))]) ;;
     waiter_wait "lambda" "function_updated" function_updated_args ;;
     _ <- boto "lambda" "update_function_configuration"
            (kw [("FunctionName", PStr LAMBDA_FUNCTION_NAME);
                 ("Timeout", PInt LAMBDA_CONFIG_timeout);
                 ("MemorySize", PInt LAMBDA_CONFIG_memory);
                 ("EphemeralStorage", PDict [("Size", PInt LAMBDA_CONFIG_ephemeral_storage)]);
                 ("Environment", lambda_environment)]) ;;
     waiter_wait "lambda" "function_updated" function_updated_args ;;
     fn_info <- boto "lambda" "get_function"
                  (kw [("FunctionName", PStr LAMBDA_FUNCTION_NAME)]) ;;
     code <- lift (dict_get fn_info "Code" (PDict [])) ;;
     uri <- lift (dict_get code "ImageUri" (PStr "")) ;;
     _ <- (if truthy uri then ret uri
           else
             conf <- lift (dict_get fn_info "Configuration" (PDict [])) ;;
             code' <- lift (dict_get conf "Code" (PDict [])) ;;
             lift (dict_get code' "ImageUri" (PStr ""))) ;;
     ret true)
    any_exception_is_false.

Fixpoint stage_names (items : list pyval) : outcome (list pyval) :=
  match items with
  | [] => Ret []
  | s :: rest =>
      match getitem s "stageName" with
      | Ret n => match stage_names rest with
                 | Ret ns => Ret (n :: ns)
                 | Raise e => Raise e
                 end
      | Raise e => Raise e
      end
  end.

Definition stage_08_verify_api_gateway : Md bool :=
  try_except
    (response <- boto "apigateway" "get_rest_api"
                   (kw [("restApiId", PStr API_GATEWAY_ID)]) ;;
     _ <- lift (dict_get response "name" (PStr "(unknown)")) ;;
     _ <- lift (dict_get response "id" (PStr API_GATEWAY_ID)) ;;
     _ <- lift (dict_get response "createdDate" (PStr "")) ;;
     stages <- boto "apigateway" "get_stages"
                 (kw [("restApiId", PStr API_GATEWAY_ID)]) ;;
     item <- lift (dict_get stages "item" (PList [])) ;;
     items <- lift (py_iter item) ;;
     _ <- lift (stage_names items) ;;
     ret true)
    any_exception_is_false.

Definition stage_09_invalidate_cloudfront : Md bool :=
  d <- get_self ;;
  t <- now ;;
  let caller_ref := "update-deploy-" ++ image_tag d ++ "-" ++ string_of_Z t in
  try_except
    (resp <- boto "cloudfront" "create_invalidation"
               (kw [("DistributionId", PStr CLOUDFRONT_DISTRIBUTION_ID);
                    ("InvalidationBatch",
                     PDict [("Paths", PDict [("Quantity", PInt 1);
                                             ("Items", PList [PStr "/*"])]);
                            ("CallerReference", PStr caller_ref)])]) ;;
     inv <- lift (getitem resp "Invalidation") ;;
     invalidation_id <- lift (getitem inv "Id") ;;
     inv' <- lift (getitem resp "Invalidation") ;;
     _ <- lift (getitem inv' "Status") ;;
     waiter_wait "cloudfront" "invalidation_completed"
       (kw [("DistributionId", PStr CLOUDFRONT_DISTRIBUTION_ID);
            ("Id", invalidation_id);
            ("WaiterConfig", PDict [("Delay", PInt 20); ("MaxAttempts", PInt 30)])]) ;;
     ret true)
    any_exception_is_false.
(** The loop over [records] of stage 10: the last matching apex and
    www records, [None] when there is none. *)
Fixpoint scan_records (records : list pyval) (apex www : pyval)
  : outcome (pyval * pyval) :=
  match records with
  | [] => Ret (apex, www)
  | rec :: rest =>
      match getitem rec "Name" with
      | Raise e => Raise e
      | Ret n =>
          match str_rstrip_dots n with
          | Raise e => Raise e
          | Ret rec_name =>
              match getitem rec "Type" with
              | Raise e => Raise e
              | Ret rec_type =>
                  let apex' :=
                    if String.eqb rec_name ROUTE53_DOMAIN && eq_str rec_type "A"
                    then rec else apex in
                  let www' :=
                    if String.eqb rec_name ("www." ++ ROUTE53_DOMAIN) && eq_str rec_type "A"
                    then rec else www in
                  scan_records rest apex' www'
              end
          end
      end
  end.

(** [rec.get("AliasTarget", {}).get("DNSName", "").rstrip(".")] *)
Definition alias_target (rec : pyval) : Md string :=
  a <- lift (dict_get rec "AliasTarget" (PDict [])) ;;
  n <- lift (dict_get a "DNSName" (PStr "")) ;;
  lift (str_rstrip_dots n).

Definition stage_10_verify_route53 : Md bool :=
  try_except
    (hz <- boto "route53" "get_hosted_zone" (kw [("Id", PStr ROUTE53_HOSTED_ZONE_ID)]) ;;
     z <- lift (getitem hz "HostedZone") ;;
     n <- lift (getitem z "Name") ;;
     zone_name <- lift (str_rstrip_dots n) ;;
     z' <- lift (getitem hz "HostedZone") ;;
     zone_count <- lift (dict_get z' "ResourceRecordSetCount" (PStr "?")) ;;
     records_resp <- boto "route53" "list_resource_record_sets"
                       (kw [("HostedZoneId", PStr ROUTE53_HOSTED_ZONE_ID);
                            ("MaxItems", PStr "20")]) ;;
     rs <- lift (dict_get records_resp "ResourceRecordSets" (PList [])) ;;
     records <- lift (py_iter rs) ;;
     '(apex_record, www_record) <- lift (scan_records records PNone PNone) ;;
     _ <- (if truthy apex_record then alias_target apex_record else ret "") ;;
     _ <- (if truthy www_record then alias_target www_record else ret "") ;;
     ret true)
    any_exception_is_false.

(** One probe of stages 11 and 12: [Some true] stands for
    [return True], [None] for falling through to the retry logic. *)
Definition probe_url (url : string) : Md (option bool) :=
  try_except
    (status <- do_urlopen url ;;
     if (status =? 200) || (status =? 301) || (status =? 302)
     then ret (Some true)
     else ret None)
    (fun exc =>
       match exc with
       | HTTPError code _ =>
           if (code =? 400) || (code =? 403) || (code =? 404) || (code =? 405)
           then Some (ret (Some true))
           else Some (ret None)
       | _ => Some (ret None)
       end).

(** The body of [for attempt in range(1, max_retries + 1)]. *)
Definition health_attempt (url : string) (max_retries delay_secs attempt : Z)
  : Md (option bool) :=
  r <- probe_url url ;;
  match r with
  | Some b => ret (Some b)
  | None =>
      (if attempt <? max_retries then sleep delay_secs else ret tt) ;;
      ret None
  end.

(** Stages 11 and 12 have the same body up to the URL and the values
    of the locals [max_retries] and [delay_secs], taken as arguments. *)
Definition health_check (url : string) (max_retries delay_secs : Z) : Md bool :=
  r <- for_each (py_range 1 (max_retries + 1))
         (health_attempt url max_retries delay_secs) ;;
  match r with
  | Some b => ret b
  | None => ret false
  end.

Definition stage_11_health_check_lambda_url : Md bool :=
  health_check LAMBDA_FUNCTION_URL 5 15.

Definition stage_12_health_check_public_domain : Md bool :=
  health_check ("https://" ++ ROUTE53_DOMAIN ++ "/") 5 20.

(** [stages] of [UpdateDeployer.run] *)
Definition stages : list (string * action (state W deployer)) :=
  [ ("Stage 1", stage_01_read_version);
    ("Stage 2", stage_02_build_app_container);
    ("Stage 3", stage_03_build_db_init_container);
    ("Stage 4", stage_04_push_to_dockerhub);
    ("Stage 5", stage_05_ecr_auth);
    ("Stage 6", stage_06_build_and_push_ecr);
    ("Stage 7", stage_07_update_lambda);
    ("Stage 8", stage_08_verify_api_gateway);
    ("Stage 9", stage_09_invalidate_cloudfront);
    ("Stage 10", stage_10_verify_route53);
    ("Stage 11", stage_11_health_check_lambda_url);
    ("Stage 12", stage_12_health_check_public_domain) ].

(** [UpdateDeployer.run]: the value returned is [all_passed]; the
    second component is the ghost log of the stages invoked. *)
Definition UpdateDeployer_run (s : state W deployer)
  : outcome bool * list string * state W deployer :=
  match preflight_check s with
  | (Raise e, s1) => (Raise e, [], s1)
  | (Ret false, s1) => (Ret false, [], s1)
  | (Ret true, s1) =>
      match run_stages stages [] s1 with
      | (Ret r, calls, s2) => (Ret (all_passed r), calls, s2)
      | (Raise e, calls, s2) => (Raise e, calls, s2)
      end
  end.

(** [main]: the argument of [sys.exit]. *)
Definition main (w : W) : outcome Z * state W deployer :=
  match UpdateDeployer_run (mkState w init []) with
  | (Ret success, _, s) => (Ret (if success then 0 else 1), s)
  | (Raise e, _, s) => (Raise e, s)
  end.
End WithEnv.
End UpdateAwsDeployment.

(** ** aws_route53_cloudfront_deploy.py *)
Module Route53CloudfrontDeploy.
Section WithEnv.
Context {W Self : Type} `{Env W}.

(** The [try] statement of one attempt of [verify_deployment]. *)
Definition probe_domain (domain : string) : M W Self (option bool) :=
  try_except
    (status_code <- do_requests_get ("https://" ++ domain) ;;
     if status_code =? 200 then ret (Some true) else ret None)
    (fun exc =>
       match exc with
       | RequestException _ => Some (ret None)
       | _ => None
       end).

Definition verify_attempt (domain : string) (max_retries delay attempt : Z)
  : M W Self (option bool) :=
  r <- probe_domain domain ;;
  match r with
  | Some b => ret (Some b)
  | None =>
      (if attempt <? max_retries then sleep delay else ret tt) ;;
      ret None
  end.

Definition verify_deployment (domain : string) (max_retries delay : Z) : M W Self bool :=
  r <- for_each (py_range 1 (max_retries + 1))
         (verify_attempt domain max_retries delay) ;;
  match r with
  | Some b => ret b
  | None => ret false
  end.
End WithEnv.
End Route53CloudfrontDeploy.

(** ** deploy_to_lambda.py *)
Module DeployToLambda.

Definition AWS_REGION := "us-west-2".
Definition AWS_ACCOUNT := "415740581749".
Definition ECR_REPO_NAME := "python-repl-container-lambda".
Definition LAMBDA_FUNCTION_NAME := "code-canvas-astro-lambda".
Definition S3_BUCKET_NAME := "code-canvas-astro-db".
Definition S3_DB_KEY := "database/taskManagement.db".
Definition IMAGE_TAG := "v1.2".
Definition DOCKER_CONTEXT :=
  "/Users/faddah/Documents/code/code - projects/code-canvas-astro".
Definition LAMBDA_CONFIG_memory := 2048.
Definition LAMBDA_CONFIG_timeout := 900.
Definition LAMBDA_CONFIG_ephemeral_storage := 1024.

(** The dictionary [deployment_result]. *)
Record deployment_result : Type := mkResult {
  success : bool;
  r_s3_bucket : pyval;
  r_ecr_repository : pyval;
  r_image_uri : pyval;
  r_function_arn : pyval;
  r_function_url : pyval;
  failed_step : option string;
  error : option string
}.

Definition initial_result : deployment_result :=
  mkResult false PNone PNone PNone PNone PNone None None.

(** The attributes of a [LambdaDeployer], and with them the dictionary
    [deployment_result] local to [deploy]: the handler of [deploy] sees
    what the [try] block has written into it. *)
Record deployer : Type := mkDeployer {
  ecr_uri : pyval;
  image_uri : pyval;
  s3_bucket_created : bool;
  result : deployment_result
}.

(** [LambdaDeployer.__init__] *)
Definition init : deployer := mkDeployer PNone PNone false initial_result.

Definition set_failed_step (r : deployment_result) (step : string) : deployment_result :=
  mkResult (success r) (r_s3_bucket r) (r_ecr_repository r) (r_image_uri r)
    (r_function_arn r) (r_function_url r) (Some step) (error r).

Definition set_error (r : deployment_result) (msg : string) : deployment_result :=
  mkResult (success r) (r_s3_bucket r) (r_ecr_repository r) (r_image_uri r)
    (r_function_arn r) (r_function_url r) (failed_step r) (Some msg).

Section WithEnv.
Context {W : Type} `{Env W}.

Local Abbreviation Md := (M W deployer).

Definition mark_bucket_created : Md unit :=
  set_self (fun d => mkDeployer (ecr_uri d) (image_uri d) true (result d)).

Definition bucket_arg : string * pyval := ("Bucket", PStr S3_BUCKET_NAME).

Definition create_s3_bucket : Md bool :=
  try_except
    (try_except
       (_ <- boto "s3" "head_bucket" (kw [bucket_arg]) ;;
        mark_bucket_created ;;
        ret true)
       (fun e =>
          match e with
          | ClientError error_code _ =>
              Some
                (if String.eqb error_code "404" then
                   _ <- (if String.eqb AWS_REGION "us-east-1"
                         then boto "s3" "create_bucket" (kw [bucket_arg])
                         else boto "s3" "create_bucket"
                                (kw [bucket_arg;
                                     ("CreateBucketConfiguration",
                                      PDict [("LocationConstraint", PStr AWS_REGION)])])) ;;
                   _ <- boto "s3" "put_bucket_versioning"
                          (kw [bucket_arg;
                               ("VersioningConfiguration", PDict [("Status", PStr "Enabled")])]) ;;
                   _ <- boto "s3" "put_bucket_encryption"
                          (kw [bucket_arg;
                               ("ServerSideEncryptionConfiguration",
                                PDict [("Rules",
                                        PList [PDict [("ApplyServerSideEncryptionByDefault",
                                                       PDict [("SSEAlgorithm", PStr "AES256")])]])])]) ;;
                   _ <- boto "s3" "put_bucket_tagging"
                          (kw [bucket_arg;
                               ("Tagging",
                                PDict [("TagSet",
                                        PList [PDict [("Key", PStr "Project");
                                                      ("Value", PStr "CodeCanvasAstro")];
                                               PDict [("Key", PStr "Purpose");
                                                      ("Value", PStr "SQLiteDatabase")];
                                               PDict [("Key", PStr "ManagedBy");
                                                      ("Value", PStr "LambdaDeploymentScript")]])])]) ;;
                   mark_bucket_created ;;
                   ret true
                 else raise e)
          | _ => None
          end))
    (fun e => Some (ret false)).

Definition create_repository_args (name : string) : pyval :=
  kw [("repositoryName", PStr name);
      ("imageScanningConfiguration", PDict [("scanOnPush", PBool true)]);
      ("imageTagMutability", PStr "MUTABLE")].

Definition describe_repositories_args (name : string) : pyval :=
  kw [("repositoryNames", PList [PStr name])].

Definition set_ecr_uri (u : pyval) : Md unit :=
  set_self (fun d => mkDeployer u (image_uri d) (s3_bucket_created d) (result d)).

Definition create_ecr_repository : Md bool :=
  try_except
    (try_except
       (response <- boto "ecr" "create_repository" (create_repository_args ECR_REPO_NAME) ;;
        r <- lift (getitem response "repository") ;;
        u <- lift (getitem r "repositoryUri") ;;
        set_ecr_uri u)
       (fun e =>
          match e with
          | ClientError code _ =>
              Some
                (if String.eqb code "RepositoryAlreadyExistsException" then
                   response <- boto "ecr" "describe_repositories"
                                 (describe_repositories_args ECR_REPO_NAME) ;;
                   rs <- lift (getitem response "repositories") ;;
                   r <- lift (getitem0 rs) ;;
                   u <- lift (getitem r "repositoryUri") ;;
                   set_ecr_uri u
                 else raise e)
          | _ => None
          end) ;;
     set_self (fun d => mkDeployer (ecr_uri d)
                          (PStr (py_str (ecr_uri d) ++ ":" ++ IMAGE_TAG))
                          (s3_bucket_created d) (result d)) ;;
     ret true)
    (fun e => Some (ret false)).

Definition build_and_push_docker_image : Md bool :=
  try_except
    (let ecr_endpoint := AWS_ACCOUNT ++ ".dkr.ecr." ++ AWS_REGION ++ ".amazonaws.com" in
     let login_cmd :=
       "aws ecr get-login-password --region " ++ AWS_REGION ++ " | " ++
       "docker login --username AWS --password-stdin " ++ ecr_endpoint in
     _ <- do_subprocess (Shell login_cmd) None ;;
     let build_cmd :=
       ["docker"; "buildx"; "build"; "--platform"; "linux/amd64";
        "--provenance=false"; "--sbom=false"; "--load";
        "-t"; ECR_REPO_NAME ++ ":" ++ IMAGE_TAG;
        "-f"; DOCKER_CONTEXT ++ "/Dockerfile.lambda";
        DOCKER_CONTEXT] in
     _ <- do_subprocess (Argv build_cmd) None ;;
     d <- get_self ;;
     uri <- lift (as_str (image_uri d)) ;;
     _ <- do_subprocess (Argv ["docker"; "tag"; ECR_REPO_NAME ++ ":" ++ IMAGE_TAG; uri]) None ;;
     d <- get_self ;;
     uri <- lift (as_str (image_uri d)) ;;
     _ <- do_subprocess (Argv ["docker"; "push"; uri]) None ;;
     ret true)
    (fun e =>
       match e with
       | CalledProcessError _ _ err _ =>
           Some (_ <- (match err with
                       | Some b => if is_empty b then ret (exn_str e)
                                   else lift (bytes_decode b)
                       | None => ret (exn_str e)
                       end) ;;
                 ret false)
       | _ => Some (ret false)
       end).

Definition role_name : string := LAMBDA_FUNCTION_NAME ++ "-role".

Definition trust_policy : pyval :=
  PDict [("Version", PStr "2012-10-17");
         ("Statement",
          PList [PDict [("Effect", PStr "Allow");
                        ("Principal", PDict [("Service", PStr "lambda.amazonaws.com")]);
                        ("Action", PStr "sts:AssumeRole")]])].

Definition s3_policy : pyval :=
  PDict [("Version", PStr "2012-10-17");
         ("Statement",
          PList [PDict [("Effect", PStr "Allow");
                        ("Action", PList [PStr "s3:GetObject"; PStr "s3:PutObject";
                                          PStr "s3:HeadObject"]);
                        ("Resource", PStr ("arn:aws:s3:::" ++ S3_BUCKET_NAME ++ "/*"))];
                 PDict [("Effect", PStr "Allow");
                        ("Action", PList [PStr "s3:ListBucket"]);
                        ("Resource", PStr ("arn:aws:s3:::" ++ S3_BUCKET_NAME))]])].

Definition put_s3_policy : Md pyval :=
  boto "iam" "put_role_policy"
    (kw [("RoleName", PStr role_name);
         ("PolicyName", PStr "S3DatabaseAccessPolicy");
         ("PolicyDocument", PStr (json_dumps s3_policy))]).

(** Returns the role ARN, or [None] after a failure. *)
Definition create_lambda_execution_role : Md pyval :=
  try_except
    (try_except
       (response <- boto "iam" "create_role"
                      (kw [("RoleName", PStr role_name);
                           ("AssumeRolePolicyDocument", PStr (json_dumps trust_policy));
                           ("Description",
                            PStr "Lambda execution role for Code Canvas Astro with S3 database access")]) ;;
        r <- lift (getitem response "Role") ;;
        role_arn <- lift (getitem r "Arn") ;;
        _ <- boto "iam" "attach_role_policy"
               (kw [("RoleName", PStr role_name);
                    ("PolicyArn",
                     PStr "arn:aws:iam::aws:policy/service-role/AWSLambdaBasicExecutionRole")]) ;;
        _ <- put_s3_policy ;;
        sleep 10 ;;
        ret role_arn)
       (fun e =>
          match e with
          | ClientError code _ =>
              Some
                (if String.eqb code "EntityAlreadyExists" then
                   response <- boto "iam" "get_role" (kw [("RoleName", PStr role_name)]) ;;
                   r <- lift (getitem response "Role") ;;
                   role_arn <- lift (getitem r "Arn") ;;
                   _ <- put_s3_policy ;;
                   ret role_arn
                 else raise e)
          | _ => None
          end))
    (fun e => Some (ret PNone)).
Definition function_environment : pyval :=
  PDict [("Variables",
          PDict [("NODE_ENV", PStr "production");
                 ("S3_BUCKET_NAME", PStr S3_BUCKET_NAME);
                 ("S3_DB_KEY", PStr S3_DB_KEY);
                 ("PORT", PStr "8080");
                 ("DATABASE_URL", PStr "file:/tmp/taskManagement.db")])].

Definition function_name_arg : string * pyval :=
  ("FunctionName", PStr LAMBDA_FUNCTION_NAME).

(** Returns the function ARN, or [None] after a failure. *)
Definition create_or_update_lambda_function (role_arn : pyval) : Md pyval :=
  try_except
    (d <- get_self ;;
     let function_config :=
       kw [function_name_arg;
           ("Role", role_arn);
           ("Code", PDict [("ImageUri", image_uri d)]);
           ("PackageType", PStr "Image");
           ("Timeout", PInt LAMBDA_CONFIG_timeout);
           ("MemorySize", PInt LAMBDA_CONFIG_memory);
           ("EphemeralStorage", PDict [("Size", PInt LAMBDA_CONFIG_ephemeral_storage)]);
           ("Environment", function_environment)] in
     function_arn <-
       try_except
         (response <- boto "lambda" "create_function" function_config ;;
          lift (getitem response "FunctionArn"))
         (fun e =>
            match e with
            | ClientError code _ =>
                Some
                  (if String.eqb code "ResourceConflictException" then
                     d <- get_self ;;
                     _ <- boto "lambda" "update_function_code"
                            (kw [function_name_arg; ("ImageUri", image_uri d)]) ;;
                     waiter_wait "lambda" "function_updated" (kw [function_name_arg]) ;;
                     env <- lift (getitem function_config "Environment") ;;
                     _ <- boto "lambda" "update_function_configuration"
                            (kw [function_name_arg;
                                 ("Role", role_arn);
                                 ("Timeout", PInt LAMBDA_CONFIG_timeout);
                                 ("MemorySize", PInt LAMBDA_CONFIG_memory);
                                 ("EphemeralStorage",
                                  PDict [("Size", PInt LAMBDA_CONFIG_ephemeral_storage)]);
                                 ("Environment", env)]) ;;
                     waiter_wait "lambda" "function_updated" (kw [function_name_arg]) ;;
                     response <- boto "lambda" "get_function" (kw [function_name_arg]) ;;
                     c <- lift (getitem response "Configuration") ;;
                     lift (getitem c "FunctionArn")
                   else raise e)
            | _ => None
            end) ;;
     ret function_arn)
    (fun e => Some (ret PNone)).

Definition function_url_cors : pyval :=
  PDict [("AllowOrigins", PList [PStr "*"]);
         ("AllowMethods", PList [PStr "*"]);
         ("AllowHeaders", PList [PStr "*"]);
         ("MaxAge", PInt 86400)].

Definition add_public_permission {Self} : M W Self unit :=
  try_except
    (_ <- boto "lambda" "add_permission"
            (kw [function_name_arg;
                 ("StatementId", PStr "FunctionURLAllowPublicAccess");
                 ("Action", PStr "lambda:InvokeFunctionUrl");
                 ("Principal", PStr "*");
                 ("FunctionUrlAuthType", PStr "NONE")]) ;;
     ret tt)
    (fun e =>
       match e with
       | ClientError code _ =>
           Some (if negb (String.eqb code "ResourceConflictException")
                 then raise e else ret tt)
       | _ => None
       end).

(** Returns the function URL, or [None] after a failure. *)
Definition create_function_url : Md pyval :=
  try_except
    (try_except
       (response <- boto "lambda" "create_function_url_config"
                      (kw [function_name_arg;
                           ("AuthType", PStr "NONE");
                           ("Cors", function_url_cors)]) ;;
        function_url <- lift (getitem response "FunctionUrl") ;;
        add_public_permission ;;
        ret function_url)
       (fun e =>
          match e with
          | ClientError code _ =>
              Some
                (if String.eqb code "ResourceConflictException" then
                   response <- boto "lambda" "get_function_url_config"
                                 (kw [function_name_arg]) ;;
                   lift (getitem response "FunctionUrl")
                 else raise e)
          | _ => None
          end))
    (fun e => Some (ret PNone)).

Definition update_result (f : deployment_result -> deployment_result) : Md unit :=
  set_self (fun d => mkDeployer (ecr_uri d) (image_uri d) (s3_bucket_created d)
                       (f (result d))).

Definition get_result : Md deployment_result :=
  d <- get_self ;; ret (result d).

(** [deployment_result["failed_step"] = step; return deployment_result] *)
Definition fail_at (step : string) : Md deployment_result :=
  update_result (fun r => set_failed_step r step) ;;
  get_result.

(** The assignments to [deployment_result] between the steps. *)
Definition record_s3_bucket : Md unit :=
  update_result (fun r => mkResult (success r) (PStr S3_BUCKET_NAME) (r_ecr_repository r)
                            (r_image_uri r) (r_function_arn r) (r_function_url r)
                            (failed_step r) (error r)).

Definition record_ecr_repository : Md unit :=
  d <- get_self ;;
  update_result (fun r => mkResult (success r) (r_s3_bucket r) (ecr_uri d)
                            (r_image_uri r) (r_function_arn r) (r_function_url r)
                            (failed_step r) (error r)).

Definition record_image_uri : Md unit :=
  d <- get_self ;;
  update_result (fun r => mkResult (success r) (r_s3_bucket r) (r_ecr_repository r)
                            (image_uri d) (r_function_arn r) (r_function_url r)
                            (failed_step r) (error r)).

Definition record_function_arn (function_arn : pyval) : Md unit :=
  update_result (fun r => mkResult (success r) (r_s3_bucket r) (r_ecr_repository r)
                            (r_image_uri r) function_arn (r_function_url r)
                            (failed_step r) (error r)).

Definition record_success (function_url : pyval) : Md unit :=
  update_result (fun r => mkResult true (r_s3_bucket r) (r_ecr_repository r)
                            (r_image_uri r) (r_function_arn r) function_url
                            (failed_step r) (error r)).

(** The [try] block of [deploy]. *)
Definition deploy_steps : Md deployment_result :=
  ok <- create_s3_bucket ;;
  if negb ok then fail_at "S3 Bucket"
  else
    record_s3_bucket ;;
    ok <- create_ecr_repository ;;
    if negb ok then fail_at "ECR Repository"
    else
      record_ecr_repository ;;
      ok <- build_and_push_docker_image ;;
      if negb ok then fail_at "Docker Build"
      else
        record_image_uri ;;
        role_arn <- create_lambda_execution_role ;;
        if negb (truthy role_arn) then fail_at "IAM Role"
        else
          function_arn <- create_or_update_lambda_function role_arn ;;
          if negb (truthy function_arn) then fail_at "Lambda Function"
          else
            record_function_arn function_arn ;;
            function_url <- create_function_url ;;
            if negb (truthy function_url) then fail_at "Function URL"
            else
              record_success function_url ;;
              get_result.

(** [LambdaDeployer.deploy] *)
Definition deploy : Md deployment_result :=
  update_result (fun _ => initial_result) ;;
  try_except deploy_steps
    (fun e => Some (update_result (fun r => set_error r (exn_str e)) ;;
                    get_result)).

(** [main]: the argument of [sys.exit]. *)
Definition main (w : W) : outcome Z * state W deployer :=
  match deploy (mkState w init []) with
  | (Ret result, s) => (Ret (if success result then 0 else 1), s)
  | (Raise e, s) => (Raise e, s)
  end.


(** *** The course of a deployment

    [reached_k s0 ... sk]: started in [s0], the first [k] steps have
    returned a true value and left the state [sk]. *)
Definition reached_1 (s0 s1 : state W deployer) : Prop :=
  create_s3_bucket s0 = (Ret true, s1).

Definition reached_2 (s0 s2 : state W deployer) : Prop :=
  exists s1,
    reached_1 s0 s1
    /\ (record_s3_bucket ;; create_ecr_repository) s1 = (Ret true, s2).

Definition reached_3 (s0 s3 : state W deployer) : Prop :=
  exists s2,
    reached_2 s0 s2
    /\ (record_ecr_repository ;; build_and_push_docker_image) s2 = (Ret true, s3).

Definition reached_4 (s0 : state W deployer) (role_arn : pyval) (s4 : state W deployer)
  : Prop :=
  exists s3,
    reached_3 s0 s3
    /\ (record_image_uri ;; create_lambda_execution_role) s3 = (Ret role_arn, s4)
    /\ truthy role_arn = true.

Definition reached_5 (s0 : state W deployer) (function_arn : pyval)
    (s5 : state W deployer) : Prop :=
  exists role_arn s4,
    reached_4 s0 role_arn s4
    /\ create_or_update_lambda_function role_arn s4 = (Ret function_arn, s5)
    /\ truthy function_arn = true.

Definition reached_6 (s0 : state W deployer) (function_url : pyval)
    (s6 : state W deployer) : Prop :=
  exists function_arn s5,
    reached_5 s0 function_arn s5
    /\ (record_function_arn function_arn ;; create_function_url) s5
       = (Ret function_url, s6)
    /\ truthy function_url = true.

(** All six steps complete. *)
Definition six_steps_succeed (s0 : state W deployer) : Prop :=
  exists function_url s6, reached_6 s0 function_url s6.

(** [step_fails s0 name]: started in [s0], the steps before the one
    that [deploy] calls [name] have returned a true value and that step
    has returned a false one. *)
Inductive step_fails (s0 : state W deployer) : string -> Prop :=
| fails_s3_bucket s1 :
    create_s3_bucket s0 = (Ret false, s1) ->
    step_fails s0 "S3 Bucket"
| fails_ecr_repository s1 s2 :
    reached_1 s0 s1 ->
    (record_s3_bucket ;; create_ecr_repository) s1 = (Ret false, s2) ->
    step_fails s0 "ECR Repository"
| fails_docker_build s2 s3 :
    reached_2 s0 s2 ->
    (record_ecr_repository ;; build_and_push_docker_image) s2 = (Ret false, s3) ->
    step_fails s0 "Docker Build"
| fails_iam_role s3 role_arn s4 :
    reached_3 s0 s3 ->
    (record_image_uri ;; create_lambda_execution_role) s3 = (Ret role_arn, s4) ->
    truthy role_arn = false ->
    step_fails s0 "IAM Role"
| fails_lambda_function role_arn s4 function_arn s5 :
    reached_4 s0 role_arn s4 ->
    create_or_update_lambda_function role_arn s4 = (Ret function_arn, s5) ->
    truthy function_arn = false ->
    step_fails s0 "Lambda Function"
| fails_function_url function_arn s5 function_url s6 :
    reached_5 s0 function_arn s5 ->
    (record_function_arn function_arn ;; create_function_url) s5
    = (Ret function_url, s6) ->
    truthy function_url = false ->
    step_fails s0 "Function URL".

(** The state in which the [try] block of [deploy] starts. *)
Definition at_start (s : state W deployer) : state W deployer :=
  mkState (world s)
    (mkDeployer (ecr_uri (self s)) (image_uri (self s)) (s3_bucket_created (self s))
       initial_result)
    (trace s).
End WithEnv.
End DeployToLambda.

(** ** Further control flow: [finally], [sys.exit], local variables *)

(** How a function that may call [sys.exit] ends.  [SystemExit] is not
    an [Exception]: no [except Exception] clause of the scripts catches
    it, and none of them has a bare [except] or a [finally] on its way.
    It is carried as a value up to the top level. *)
Inductive completion (A : Type) : Type :=
| Done (a : A)
| Exit (code : Z).
Arguments Done {A} a.
Arguments Exit {A} code.

(** The exit status of a script whose [main] ends with [c]. *)
Definition completion_status {A} (c : completion A) : Z :=
  match c with
  | Done _ => 0
  | Exit code => code
  end.

(** The items of a list comprehension [[x[key] for x in items]]. *)
Fixpoint collect (key : string) (items : list pyval) : outcome (list pyval) :=
  match items with
  | [] => Ret []
  | x :: rest =>
      match getitem x key with
      | Ret v => match collect key rest with
                 | Ret vs => Ret (v :: vs)
                 | Raise e => Raise e
                 end
      | Raise e => Raise e
      end
  end.

(** What [deploy_lambda.py] does to the file system. *)
Class Files (W : Type) : Type := {
  os_path_exists : string -> W -> bool * W;
  (** [shutil.copy(src, dst)] *)
  shutil_copy : string -> string -> W -> outcome unit * W;
  os_remove : string -> W -> outcome unit * W
}.

Section MoreControl.
Context {W Self : Type}.

(** [try: m  finally: fin]: the outcome of [m] once [fin] has run,
    unless [fin] raises, whose exception then replaces it. *)
Definition try_finally {A} (m : M W Self A) (fin : M W Self unit) : M W Self A :=
  fun s => match m s with
           | (o, s') => match fin s' with
                        | (Ret _, s'') => (o, s'')
                        | (Raise e, s'') => (Raise e, s'')
                        end
           end.

(** An operation of the world that the trace does not record. *)
Definition silent {A} (op : W -> outcome A * W) : M W Self A :=
  fun s => let (o, w') := op (world s) in
           (o, mkState w' (self s) (trace s)).

Context `{Files W}.

Definition path_exists (path : string) : M W Self bool :=
  unlogged (os_path_exists path).

Definition copy_file (src dst : string) : M W Self unit :=
  silent (shutil_copy src dst).

Definition remove_file (path : string) : M W Self unit :=
  silent (os_remove path).
End MoreControl.

(** A method with a local variable that its [except] clause reads after
    the [try] block has assigned it: the local state [L] travels beside
    the object. *)
Section Frame.
Context {W Self L : Type}.

(** A method of the object, called from the frame. *)
Definition call {A} (m : M W Self A) : M W (Self * L) A :=
  fun s =>
    let (o, s') := m (mkState (world s) (fst (self s)) (trace s)) in
    (o, mkState (world s') (self s', snd (self s)) (trace s')).

Definition get_local : M W (Self * L) L :=
  fun s => (Ret (snd (self s)), s).

Definition set_local (f : L -> L) : M W (Self * L) unit :=
  fun s => (Ret tt, mkState (world s) (fst (self s), f (snd (self s))) (trace s)).
End Frame.

(** ** deploy_lambda.py *)
Module DeployLambda.

Definition AWS_REGION := "us-west-2".
Definition AWS_ACCOUNT := "415740581749".
Definition ECR_REPO_NAME := "python-repl-container-lambda".
Definition LAMBDA_FUNCTION_NAME := "lambda-python-repl".
Definition IMAGE_TAG := "v1.0".

(** The attributes of an [AWSDeployer]. *)
Record deployer : Type := mkDeployer {
  ecr_uri : pyval;
  image_uri : pyval
}.

Definition init : deployer := mkDeployer PNone PNone.

(** [s.replace] of every single quote by a double quote, as applied
    to [str(trust_policy)]. *)
Fixpoint single_to_double_quotes (s : string) : string :=
  match s with
  | EmptyString => EmptyString
  | String c s' =>
      String (if Ascii.eqb c "'"%char then ascii_of_nat 34 else c)
        (single_to_double_quotes s')
  end.

Section WithEnv.
Context {W : Type} `{Env W}.

Local Abbreviation Md := (M W deployer).

Definition set_ecr_uri (u : pyval) : Md unit :=
  set_self (fun d => mkDeployer u (image_uri d)).

(** Returns [self.ecr_uri]. *)
Definition create_ecr_repository : Md pyval :=
  try_except
    (response <- boto "ecr" "create_repository"
                   (DeployToLambda.create_repository_args ECR_REPO_NAME) ;;
     r <- lift (getitem response "repository") ;;
     u <- lift (getitem r "repositoryUri") ;;
     set_ecr_uri u ;;
     r' <- lift (getitem response "repository") ;;
     arn <- lift (getitem r' "repositoryArn") ;;
     _ <- boto "ecr" "tag_resource"
            (kw [("resourceArn", arn);
                 ("tags", PList [PDict [("Key", PStr "Version"); ("Value", PStr IMAGE_TAG)]])]) ;;
     ret tt)
    (fun e =>
       match e with
       | ClientError code _ =>
           Some
             (if String.eqb code "RepositoryAlreadyExistsException" then
                response <- boto "ecr" "describe_repositories"
                              (DeployToLambda.describe_repositories_args ECR_REPO_NAME) ;;
                rs <- lift (getitem response "repositories") ;;
                r <- lift (getitem0 rs) ;;
                u <- lift (getitem r "repositoryUri") ;;
                set_ecr_uri u
              else raise e)
       | _ => None
       end) ;;
  set_self (fun d => mkDeployer (ecr_uri d) (PStr (py_str (ecr_uri d) ++ ":" ++ IMAGE_TAG))) ;;
  d <- get_self ;;
  ret (ecr_uri d).

Definition role_name : string := LAMBDA_FUNCTION_NAME ++ "-role".

Definition trust_policy : pyval :=
  PDict [("Version", PStr "2012-10-17");
         ("Statement",
          PList [PDict [("Effect", PStr "Allow");
                        ("Principal", PDict [("Service", PStr "lambda.amazonaws.com")]);
                        ("Action", PStr "sts:AssumeRole")]])].

Definition create_lambda_execution_role : Md pyval :=
  try_except
    (response <- boto "iam" "create_role"
                   (kw [("RoleName", PStr role_name);
                        ("AssumeRolePolicyDocument",
                         PStr (single_to_double_quotes (py_repr trust_policy)));
                        ("Description", PStr "Execution role for Python REPL Lambda function")]) ;;
     r <- lift (getitem response "Role") ;;
     role_arn <- lift (getitem r "Arn") ;;
     _ <- boto "iam" "attach_role_policy"
            (kw [("RoleName", PStr role_name);
                 ("PolicyArn",
                  PStr "arn:aws:iam::aws:policy/service-role/AWSLambdaBasicExecutionRole")]) ;;
     sleep 10 ;;
     ret role_arn)
    (fun e =>
       match e with
       | ClientError code _ =>
           Some
             (if String.eqb code "EntityAlreadyExists" then
                response <- boto "iam" "get_role" (kw [("RoleName", PStr role_name)]) ;;
                r <- lift (getitem response "Role") ;;
                lift (getitem r "Arn")
              else raise e)
       | _ => None
       end).

Definition function_name_arg : string * pyval :=
  ("FunctionName", PStr LAMBDA_FUNCTION_NAME).

Definition create_lambda_function (role_arn : pyval) : Md pyval :=
  d <- get_self ;;
  try_except
    (response <- boto "lambda" "create_function"
                   (kw [function_name_arg;
                        ("Role", role_arn);
                        ("Code", PDict [("ImageUri", image_uri d)]);
                        ("PackageType", PStr "Image");
                        ("Timeout", PInt 30);
                        ("MemorySize", PInt 512);
                        ("Environment",
                         PDict [("Variables", PDict [("NODE_ENV", PStr "production")])])]) ;;
     lift (getitem response "FunctionArn"))
    (fun e =>
       match e with
       | ClientError code _ =>
           Some
             (if String.eqb code "ResourceConflictException" then
                _ <- boto "lambda" "update_function_code"
                       (kw [function_name_arg; ("ImageUri", image_uri d)]) ;;
                response <- boto "lambda" "get_function" (kw [function_name_arg]) ;;
                c <- lift (getitem response "Configuration") ;;
                lift (getitem c "FunctionArn")
              else raise e)
       | _ => None
       end).

Definition add_public_permission : Md unit :=
  try_except
    (_ <- boto "lambda" "add_permission"
            (kw [function_name_arg;
                 ("StatementId", PStr "FunctionURLAllowPublicAccess");
                 ("Action", PStr "lambda:InvokeFunctionUrl");
                 ("Principal", PStr "*");
                 ("FunctionUrlAuthType", PStr "NONE")]) ;;
     ret tt)
    (fun e =>
       match e with
       | ClientError code _ =>
           Some (if negb (String.eqb code "ResourceConflictException")
                 then raise e else ret tt)
       | _ => None
       end).

Definition create_function_url : Md pyval :=
  try_except
    (response <- boto "lambda" "create_function_url_config"
                   (kw [function_name_arg;
                        ("AuthType", PStr "NONE");
                        ("Cors", DeployToLambda.function_url_cors)]) ;;
     function_url <- lift (getitem response "FunctionUrl") ;;
     add_public_permission ;;
     ret function_url)
    (fun e =>
       match e with
       | ClientError code _ =>
           Some
             (if String.eqb code "ResourceConflictException" then
                response <- boto "lambda" "get_function_url_config" (kw [function_name_arg]) ;;
                lift (getitem response "FunctionUrl")
              else raise e)
       | _ => None
       end).
End WithEnv.

Definition DOCKER_CONTEXT :=
  "/Users/faddah/Documents/code/code - projects/code-canvas-astro".

Definition dockerignore : string := DOCKER_CONTEXT ++ "/.dockerignore".
Definition dockerignore_lambda : string := DOCKER_CONTEXT ++ "/.dockerignore.lambda".
Definition dockerignore_backup_path : string := DOCKER_CONTEXT ++ "/.dockerignore.backup".

Definition login_cmd : string :=
  "aws ecr get-login-password --region " ++ AWS_REGION
  ++ " | docker login --username AWS --password-stdin "
  ++ AWS_ACCOUNT ++ ".dkr.ecr." ++ AWS_REGION ++ ".amazonaws.com".

Definition build_cmd : list string :=
  ["docker"; "buildx"; "build"; "--platform"; "linux/amd64";
   "--output"; "type=docker";
   "-t"; ECR_REPO_NAME ++ ":" ++ IMAGE_TAG;
   "-f"; DOCKER_CONTEXT ++ "/Dockerfile.lambda";
   DOCKER_CONTEXT].

Definition tag_cmd (uri : string) : list string :=
  ["docker"; "tag"; ECR_REPO_NAME ++ ":" ++ IMAGE_TAG; uri].

Definition push_cmd (uri : string) : list string := ["docker"; "push"; uri].

Section WithFiles.
Context {W : Type} `{Env W} `{Files W}.

Local Abbreviation Md := (M W deployer).

(** The [finally] clause of the build: put the original ignore file
    back and delete the backup, when a backup was made. *)
Definition restore_dockerignore (dockerignore_backup : option string) : Md unit :=
  match dockerignore_backup with
  | Some backup =>
      copy_file backup dockerignore ;;
      remove_file backup
  | None => ret tt
  end.

(** Returns [self.image_uri], or leaves the interpreter with status 1
    when a command exits non-zero. *)
Definition build_and_push_docker_image : Md (completion pyval) :=
  try_except
    (_ <- boto "ecr" "get_authorization_token" (kw []) ;;
     _ <- do_subprocess (Shell login_cmd) None ;;
     found <- path_exists dockerignore ;;
     dockerignore_backup <-
       (if found then
          copy_file dockerignore dockerignore_backup_path ;;
          ret (Some dockerignore_backup_path)
        else ret None) ;;
     found_lambda <- path_exists dockerignore_lambda ;;
     (if found_lambda then copy_file dockerignore_lambda dockerignore else ret tt) ;;
     _ <- try_finally
            (do_subprocess (Argv build_cmd) None)
            (restore_dockerignore dockerignore_backup) ;;
     d <- get_self ;;
     uri <- lift (as_str (image_uri d)) ;;
     _ <- do_subprocess (Argv (tag_cmd uri)) None ;;
     d <- get_self ;;
     uri <- lift (as_str (image_uri d)) ;;
     _ <- do_subprocess (Argv (push_cmd uri)) None ;;
     d <- get_self ;;
     ret (Done (image_uri d)))
    (fun e =>
       match e with
       | CalledProcessError _ _ _ _ => Some (ret (Exit 1))
       | _ => None
       end).

(** [AWSDeployer.deploy]: returns [None], or leaves the interpreter. *)
Definition deploy : Md (completion unit) :=
  try_except
    (ecr_uri <- create_ecr_repository ;;
     built <- build_and_push_docker_image ;;
     match built with
     | Exit code => ret (Exit code)
     | Done image_uri =>
         role_arn <- create_lambda_execution_role ;;
         function_arn <- create_lambda_function role_arn ;;
         function_url <- create_function_url ;;
         ret (Done tt)
     end)
    (fun e => Some (ret (Exit 1))).

(** [main]: the exit status the script asks for. *)
Definition main (w : W) : outcome Z * state W deployer :=
  match deploy (mkState w init []) with
  | (Ret c, s) => (Ret (completion_status c), s)
  | (Raise e, s) => (Raise e, s)
  end.

(** Every step of [deploy] returns, one after the other. *)
Definition five_steps_return (s0 : state W deployer) : Prop :=
  exists ecr_uri s1 image_uri s2 role_arn s3 function_arn s4 function_url s5,
    create_ecr_repository s0 = (Ret ecr_uri, s1)
    /\ build_and_push_docker_image s1 = (Ret (Done image_uri), s2)
    /\ create_lambda_execution_role s2 = (Ret role_arn, s3)
    /\ create_lambda_function role_arn s3 = (Ret function_arn, s4)
    /\ create_function_url s4 = (Ret function_url, s5).
End WithFiles.
End DeployLambda.

(** ** deploy_to_apprunner.py *)
Module DeployToAppRunner.

Definition AWS_REGION := "us-west-2".
Definition AWS_ACCOUNT := "415740581749".
Definition ECR_REPO_NAME := "python-repl-container-lambda".
Definition APP_RUNNER_SERVICE_NAME := "python-repl-app".
Definition IMAGE_TAG := "v1.2".

(** The attributes of an [AppRunnerDeployer]. *)
Record deployer : Type := mkDeployer {
  ecr_uri : pyval;
  image_uri : pyval;
  efs_id : pyval;
  vpc_id : pyval;
  subnet_ids : pyval;
  security_group_id : pyval
}.

Definition init : deployer := mkDeployer PNone PNone PNone PNone (PList []) PNone.

Section WithEnv.
Context {W : Type} `{Env W}.

Local Abbreviation Md := (M W deployer).

Definition set_ecr_uri (u : pyval) : Md unit :=
  set_self (fun d => mkDeployer u (image_uri d) (efs_id d) (vpc_id d) (subnet_ids d)
                       (security_group_id d)).

(** Returns [self.ecr_uri]. *)
Definition create_ecr_repository : Md pyval :=
  try_except
    (response <- boto "ecr" "create_repository"
                   (DeployToLambda.create_repository_args ECR_REPO_NAME) ;;
     r <- lift (getitem response "repository") ;;
     u <- lift (getitem r "repositoryUri") ;;
     set_ecr_uri u)
    (fun e =>
       match e with
       | ClientError code _ =>
           Some
             (if String.eqb code "RepositoryAlreadyExistsException" then
                response <- boto "ecr" "describe_repositories"
                              (DeployToLambda.describe_repositories_args ECR_REPO_NAME) ;;
                rs <- lift (getitem response "repositories") ;;
                r <- lift (getitem0 rs) ;;
                u <- lift (getitem r "repositoryUri") ;;
                set_ecr_uri u
              else raise e)
       | _ => None
       end) ;;
  set_self (fun d => mkDeployer (ecr_uri d) (PStr (py_str (ecr_uri d) ++ ":" ++ IMAGE_TAG))
                       (efs_id d) (vpc_id d) (subnet_ids d) (security_group_id d)) ;;
  d <- get_self ;;
  ret (ecr_uri d).

Definition trust_policy (service : string) : pyval :=
  PDict [("Version", PStr "2012-10-17");
         ("Statement",
          PList [PDict [("Effect", PStr "Allow");
                        ("Principal", PDict [("Service", PStr service)]);
                        ("Action", PStr "sts:AssumeRole")]])].

(** The [except ClientError] clause shared by both role functions. *)
Definition reuse_role (role_name : string) (e : exn) : option (Md pyval) :=
  match e with
  | ClientError code _ =>
      Some
        (if String.eqb code "EntityAlreadyExists" then
           response <- boto "iam" "get_role" (kw [("RoleName", PStr role_name)]) ;;
           r <- lift (getitem response "Role") ;;
           lift (getitem r "Arn")
         else raise e)
  | _ => None
  end.

Definition access_role_name : string := APP_RUNNER_SERVICE_NAME ++ "-access-role".

Definition create_access_role : Md pyval :=
  try_except
    (response <- boto "iam" "create_role"
                   (kw [("RoleName", PStr access_role_name);
                        ("AssumeRolePolicyDocument",
                         PStr (json_dumps (trust_policy "build.apprunner.amazonaws.com")));
                        ("Description", PStr "App Runner access role for ECR")]) ;;
     r <- lift (getitem response "Role") ;;
     role_arn <- lift (getitem r "Arn") ;;
     _ <- boto "iam" "attach_role_policy"
            (kw [("RoleName", PStr access_role_name);
                 ("PolicyArn",
                  PStr "arn:aws:iam::aws:policy/service-role/AWSAppRunnerServicePolicyForECRAccess")]) ;;
     sleep 10 ;;
     ret role_arn)
    (reuse_role access_role_name).

Definition instance_role_name : string := APP_RUNNER_SERVICE_NAME ++ "-instance-role".

Definition efs_policy (d : deployer) : pyval :=
  PDict [("Version", PStr "2012-10-17");
         ("Statement",
          PList [PDict [("Effect", PStr "Allow");
                        ("Action", PList [PStr "elasticfilesystem:ClientMount";
                                          PStr "elasticfilesystem:ClientWrite";
                                          PStr "elasticfilesystem:DescribeFileSystems"]);
                        ("Resource",
                         PStr ("arn:aws:elasticfilesystem:" ++ AWS_REGION ++ ":" ++ AWS_ACCOUNT
                               ++ ":file-system/" ++ py_str (efs_id d)))]])].

Definition create_instance_role : Md pyval :=
  d <- get_self ;;
  try_except
    (response <- boto "iam" "create_role"
                   (kw [("RoleName", PStr instance_role_name);
                        ("AssumeRolePolicyDocument",
                         PStr (json_dumps (trust_policy "tasks.apprunner.amazonaws.com")));
                        ("Description", PStr "App Runner instance role for EFS access")]) ;;
     r <- lift (getitem response "Role") ;;
     role_arn <- lift (getitem r "Arn") ;;
     _ <- boto "iam" "put_role_policy"
            (kw [("RoleName", PStr instance_role_name);
                 ("PolicyName", PStr "EFSAccessPolicy");
                 ("PolicyDocument", PStr (json_dumps (efs_policy d)))]) ;;
     sleep 10 ;;
     ret role_arn)
    (reuse_role instance_role_name).

(** The polling loop of [create_or_update_app_runner_service]:
    [while attempt < max_attempts], with [remaining] the number
    [max_attempts - attempt] of iterations left. *)
Fixpoint wait_for_running (remaining : nat) (service_arn : pyval) : Md pyval :=
  match remaining with
  | O => raise (Exception "Service deployment timeout")
  | S n =>
      service_info <- boto "apprunner" "describe_service" (kw [("ServiceArn", service_arn)]) ;;
      svc <- lift (getitem service_info "Service") ;;
      status <- lift (getitem svc "Status") ;;
      if eq_str status "RUNNING" then
        lift (getitem service_info "Service")
      else if eq_str status "CREATE_FAILED" || eq_str status "UPDATE_FAILED"
              || eq_str status "DELETE_FAILED" then
        raise (Exception ("Service deployment failed: " ++ py_str status))
      else
        sleep 10 ;;
        wait_for_running n service_arn
  end.

Definition max_attempts : Z := 60.

Definition source_configuration (d : deployer) (access_role_arn : pyval) : pyval :=
  PDict [("ImageRepository",
          PDict [("ImageIdentifier", image_uri d);
                 ("ImageRepositoryType", PStr "ECR");
                 ("ImageConfiguration",
                  PDict [("Port", PStr "3000");
                         ("RuntimeEnvironmentVariables",
                          PDict [("NODE_ENV", PStr "production");
                                 ("DATABASE_URL", PStr "file:/mnt/efs/taskManagement.db");
                                 ("PORT", PStr "3000")])])]);
         ("AuthenticationConfiguration", PDict [("AccessRoleArn", access_role_arn)]);
         ("AutoDeploymentsEnabled", PBool false)].

Definition instance_configuration (instance_role_arn : pyval) : pyval :=
  PDict [("Cpu", PStr "1 vCPU"); ("Memory", PStr "2 GB");
         ("InstanceRoleArn", instance_role_arn)].

Definition health_check_configuration : pyval :=
  PDict [("Protocol", PStr "HTTP"); ("Path", PStr "/"); ("Interval", PInt 10);
         ("Timeout", PInt 5); ("HealthyThreshold", PInt 1); ("UnhealthyThreshold", PInt 5)].

Definition create_or_update_app_runner_service (access_role_arn instance_role_arn : pyval)
  : Md pyval :=
  d <- get_self ;;
  try_except
    (response <-
       try_except
         (existing_service <-
            boto "apprunner" "describe_service"
              (kw [("ServiceArn",
                    PStr ("arn:aws:apprunner:" ++ AWS_REGION ++ ":" ++ AWS_ACCOUNT
                          ++ ":service/" ++ APP_RUNNER_SERVICE_NAME))]) ;;
          svc <- lift (getitem existing_service "Service") ;;
          service_arn <- lift (getitem svc "ServiceArn") ;;
          boto "apprunner" "update_service"
            (kw [("ServiceArn", service_arn);
                 ("SourceConfiguration", source_configuration d access_role_arn);
                 ("InstanceConfiguration", instance_configuration instance_role_arn);
                 ("HealthCheckConfiguration", health_check_configuration)]))
         (fun e =>
            match e with
            | ClientError code _ =>
                Some
                  (if String.eqb code "ResourceNotFoundException" then
                     boto "apprunner" "create_service"
                       (kw [("ServiceName", PStr APP_RUNNER_SERVICE_NAME);
                            ("SourceConfiguration", source_configuration d access_role_arn);
                            ("InstanceConfiguration", instance_configuration instance_role_arn);
                            ("HealthCheckConfiguration", health_check_configuration)])
                   else raise e)
            | _ => None
            end) ;;
     svc <- lift (getitem response "Service") ;;
     service_arn <- lift (getitem svc "ServiceArn") ;;
     svc' <- lift (getitem response "Service") ;;
     service_id <- lift (getitem svc' "ServiceId") ;;
     wait_for_running (Z.to_nat (max_attempts - 0)) service_arn)
    (fun e =>
       match e with
       | ClientError _ _ => Some (raise e)
       | _ => None
       end).
End WithEnv.

Definition DOCKER_CONTEXT :=
  "/Users/faddah/Documents/code/code - projects/code-canvas-astro".
Definition EFS_NAME := "code-canvas-astro-db".

Definition login_cmd : string :=
  "aws ecr get-login-password --region " ++ AWS_REGION
  ++ " | docker login --username AWS --password-stdin "
  ++ AWS_ACCOUNT ++ ".dkr.ecr." ++ AWS_REGION ++ ".amazonaws.com".

Definition build_cmd : list string :=
  ["docker"; "build"; "--platform"; "linux/amd64";
   "-t"; ECR_REPO_NAME ++ ":" ++ IMAGE_TAG;
   "-f"; DOCKER_CONTEXT ++ "/Dockerfile";
   DOCKER_CONTEXT].

Definition tag_cmd (uri : string) : list string :=
  ["docker"; "tag"; ECR_REPO_NAME ++ ":" ++ IMAGE_TAG; uri].

Definition push_cmd (uri : string) : list string := ["docker"; "push"; uri].

Definition sg_name : string := EFS_NAME ++ "-sg".

(** One entry of a [Filters] argument. *)
Definition filter (name : string) (value : pyval) : pyval :=
  PDict [("Name", PStr name); ("Values", PList [value])].

Definition nfs_ingress : pyval :=
  PList [PDict [("IpProtocol", PStr "tcp");
                ("FromPort", PInt 2049);
                ("ToPort", PInt 2049);
                ("IpRanges", PList [PDict [("CidrIp", PStr "0.0.0.0/0")]])]].

(** The dictionary [deployment_result] of [deploy]. *)
Record deployment_result : Type := mkResult {
  success : bool;
  r_ecr_repository : pyval;
  r_image_uri : pyval;
  r_efs_id : pyval;
  r_service_url : pyval;
  errors : list string
}.

Definition initial_result : deployment_result :=
  mkResult false PNone PNone PNone PNone [].

Section Deployment.
Context {W : Type} `{Env W}.

Local Abbreviation Md := (M W deployer).

(** [except ...Error as e: ...; raise] for a [ClientError]. *)
Definition reraise_client_error {A} (e : exn) : option (Md A) :=
  match e with
  | ClientError _ _ => Some (raise e)
  | _ => None
  end.

(** Returns [self.image_uri]. *)
Definition build_and_push_docker_image : Md pyval :=
  try_except
    (_ <- do_subprocess (Shell login_cmd) None ;;
     _ <- do_subprocess (Argv build_cmd) None ;;
     d <- get_self ;;
     uri <- lift (as_str (image_uri d)) ;;
     _ <- do_subprocess (Argv (tag_cmd uri)) None ;;
     d <- get_self ;;
     uri <- lift (as_str (image_uri d)) ;;
     _ <- do_subprocess (Argv (push_cmd uri)) None ;;
     d <- get_self ;;
     ret (image_uri d))
    (fun e =>
       match e with
       | CalledProcessError _ _ _ _ => Some (raise e)
       | _ => None
       end).

Definition set_vpc_id (v : pyval) : Md unit :=
  set_self (fun d => mkDeployer (ecr_uri d) (image_uri d) (efs_id d) v (subnet_ids d)
                       (security_group_id d)).

Definition set_subnet_ids (v : pyval) : Md unit :=
  set_self (fun d => mkDeployer (ecr_uri d) (image_uri d) (efs_id d) (vpc_id d) v
                       (security_group_id d)).

Definition set_security_group_id (v : pyval) : Md unit :=
  set_self (fun d => mkDeployer (ecr_uri d) (image_uri d) (efs_id d) (vpc_id d)
                       (subnet_ids d) v).

Definition set_efs_id (v : pyval) : Md unit :=
  set_self (fun d => mkDeployer (ecr_uri d) (image_uri d) v (vpc_id d) (subnet_ids d)
                       (security_group_id d)).

Definition no_default_vpc : exn :=
  Exception "No default VPC found. Please create a VPC first.".

(** Returns [(self.vpc_id, self.subnet_ids)]. *)
Definition get_default_vpc_and_subnets : Md (pyval * pyval) :=
  try_except
    (vpcs <- boto "ec2" "describe_vpcs"
               (kw [("Filters", PList [filter "isDefault" (PStr "true")])]) ;;
     found <- lift (getitem vpcs "Vpcs") ;;
     if negb (truthy found) then raise no_default_vpc
     else
       l <- lift (getitem vpcs "Vpcs") ;;
       v <- lift (getitem0 l) ;;
       vid <- lift (getitem v "VpcId") ;;
       set_vpc_id vid ;;
       d <- get_self ;;
       subnets <- boto "ec2" "describe_subnets"
                    (kw [("Filters", PList [filter "vpc-id" (vpc_id d)])]) ;;
       sl <- lift (getitem subnets "Subnets") ;;
       items <- lift (py_iter sl) ;;
       ids <- lift (collect "SubnetId" items) ;;
       set_subnet_ids (PList ids) ;;
       d <- get_self ;;
       ret (vpc_id d, subnet_ids d))
    reraise_client_error.

(** Returns [self.security_group_id]. *)
Definition create_security_group : Md pyval :=
  try_except
    (d <- get_self ;;
     existing_sgs <- boto "ec2" "describe_security_groups"
                       (kw [("Filters", PList [filter "group-name" (PStr sg_name);
                                               filter "vpc-id" (vpc_id d)])]) ;;
     found <- lift (getitem existing_sgs "SecurityGroups") ;;
     if truthy found then
       l <- lift (getitem existing_sgs "SecurityGroups") ;;
       g <- lift (getitem0 l) ;;
       gid <- lift (getitem g "GroupId") ;;
       set_security_group_id gid ;;
       d <- get_self ;;
       ret (security_group_id d)
     else
       d <- get_self ;;
       response <- boto "ec2" "create_security_group"
                     (kw [("GroupName", PStr sg_name);
                          ("Description", PStr "Security group for Code Canvas Astro EFS");
                          ("VpcId", vpc_id d)]) ;;
       gid <- lift (getitem response "GroupId") ;;
       set_security_group_id gid ;;
       d <- get_self ;;
       _ <- boto "ec2" "authorize_security_group_ingress"
              (kw [("GroupId", security_group_id d); ("IpPermissions", nfs_ingress)]) ;;
       d <- get_self ;;
       ret (security_group_id d))
    reraise_client_error.

(** The body of the loop over the existing file systems: leave with
    the identifier of one that carries the name. *)
Definition existing_file_system (fs : pyval) : Md (option pyval) :=
  name <- lift (dict_get fs "Name" PNone) ;;
  if eq_str name EFS_NAME then
    fid <- lift (getitem fs "FileSystemId") ;;
    set_efs_id fid ;;
    d <- get_self ;;
    ret (Some (efs_id d))
  else ret None.

(** The body of the loop over the subnets. *)
Definition mount_in (subnet_id : pyval) : Md (option pyval) :=
  d <- get_self ;;
  try_except
    (_ <- boto "efs" "create_mount_target"
            (kw [("FileSystemId", efs_id d);
                 ("SubnetId", subnet_id);
                 ("SecurityGroups", PList [security_group_id d])]) ;;
     ret None)
    (fun e =>
       match e with
       | ClientError code _ =>
           Some (if negb (String.eqb code "MountTargetConflict") then raise e else ret None)
       | _ => None
       end).

(** Returns [self.efs_id]. *)
Definition create_efs_file_system : Md pyval :=
  try_except
    (file_systems <- boto "efs" "describe_file_systems" (kw []) ;;
     l <- lift (getitem file_systems "FileSystems") ;;
     items <- lift (py_iter l) ;;
     known <- for_each items existing_file_system ;;
     match known with
     | Some id => ret id
     | None =>
         t <- now ;;
         response <- boto "efs" "create_file_system"
                       (kw [("CreationToken", PStr (EFS_NAME ++ "-" ++ string_of_Z t));
                            ("PerformanceMode", PStr "generalPurpose");
                            ("ThroughputMode", PStr "bursting");
                            ("Encrypted", PBool true);
                            ("Tags",
                             PList [PDict [("Key", PStr "Name"); ("Value", PStr EFS_NAME)];
                                    PDict [("Key", PStr "Purpose");
                                           ("Value", PStr "SQLite Database Storage")]])]) ;;
         fid <- lift (getitem response "FileSystemId") ;;
         set_efs_id fid ;;
         d <- get_self ;;
         waiter_wait "efs" "file_system_available" (kw [("FileSystemId", efs_id d)]) ;;
         d <- get_self ;;
         subnets <- lift (py_iter (subnet_ids d)) ;;
         _ <- for_each subnets mount_in ;;
         d <- get_self ;;
         ret (efs_id d)
     end)
    reraise_client_error.

Local Abbreviation Mf := (M W (deployer * deployment_result)).

Definition record_ecr_repository (ecr_uri : pyval) : Mf unit :=
  set_local (fun r => mkResult (success r) ecr_uri (r_image_uri r) (r_efs_id r)
                        (r_service_url r) (errors r)).

Definition record_image_uri (image_uri : pyval) : Mf unit :=
  set_local (fun r => mkResult (success r) (r_ecr_repository r) image_uri (r_efs_id r)
                        (r_service_url r) (errors r)).

Definition record_service_url (service_url : string) : Mf unit :=
  set_local (fun r => mkResult (success r) (r_ecr_repository r) (r_image_uri r) (r_efs_id r)
                        (PStr service_url) (errors r)).

Definition record_success : Mf unit :=
  set_local (fun r => mkResult true (r_ecr_repository r) (r_image_uri r) (r_efs_id r)
                        (r_service_url r) (errors r)).

(** [deployment_result["errors"].append(str(e))] *)
Definition record_error (e : exn) : Mf unit :=
  set_local (fun r => mkResult (success r) (r_ecr_repository r) (r_image_uri r) (r_efs_id r)
                        (r_service_url r) (errors r ++ [exn_str e])%list).

(** The [try] block of [deploy]. *)
Definition deploy_steps : Mf deployment_result :=
  ecr_uri <- call create_ecr_repository ;;
  record_ecr_repository ecr_uri ;;
  image_uri <- call build_and_push_docker_image ;;
  record_image_uri image_uri ;;
  '(vpc_id, subnet_ids) <- call get_default_vpc_and_subnets ;;
  sg_id <- call create_security_group ;;
  access_role_arn <- call create_access_role ;;
  instance_role_arn <- call create_instance_role ;;
  service_info <- call (create_or_update_app_runner_service access_role_arn
                          instance_role_arn) ;;
  u <- lift (getitem service_info "ServiceUrl") ;;
  record_service_url ("https://" ++ py_str u) ;;
  record_success ;;
  get_local.

(** [AppRunnerDeployer.deploy] *)
Definition deploy : Mf deployment_result :=
  set_local (fun _ => initial_result) ;;
  try_except deploy_steps
    (fun e => Some (record_error e ;; get_local)).

(** [main]: the argument of [sys.exit]. *)
Definition main (w : W) : outcome Z * state W (deployer * deployment_result) :=
  match deploy (mkState w (init, initial_result) []) with
  | (Ret result, s) => (Ret (if success result then 0 else 1), s)
  | (Raise e, s) => (Raise e, s)
  end.
End Deployment.
End DeployToAppRunner.

(** ** deploy_to_aws.py

    The CDK stack and [main], which only synthesise a template through
    the CDK library, are not modelled. *)
Module DeployToAws.

Definition AWS_REGION := "us-west-2".
Definition AWS_ACCOUNT := "<account_id>".
Definition ECR_REPO_NAME := "python-repl-container-lambda".
Definition LAMBDA_FUNCTION_NAME := "lambda-python-repl".
Definition IMAGE_TAG := "v1.0".
Definition DOCKER_CONTEXT :=
  "/Users/faddah/Documents/code/code - projects/code-canvas-astro".

Definition ecr_uri (account_id region : string) : string :=
  account_id ++ ".dkr.ecr." ++ region ++ ".amazonaws.com".

Definition full_image_name (account_id region : string) : string :=
  ecr_uri account_id region ++ "/" ++ ECR_REPO_NAME ++ ":" ++ IMAGE_TAG.

Definition login_cmd (account_id region : string) : string :=
  "aws ecr get-login-password --region " ++ region ++ " | "
  ++ "docker login --username AWS --password-stdin " ++ ecr_uri account_id region.

Definition build_cmd : list string :=
  ["docker"; "build";
   "-t"; ECR_REPO_NAME ++ ":" ++ IMAGE_TAG;
   "-f"; DOCKER_CONTEXT ++ "/Dockerfile";
   DOCKER_CONTEXT].

Definition tag_cmd (account_id region : string) : list string :=
  ["docker"; "tag"; ECR_REPO_NAME ++ ":" ++ IMAGE_TAG; full_image_name account_id region].

Definition push_cmd (account_id region : string) : list string :=
  ["docker"; "push"; full_image_name account_id region].

(** The four commands, in the order of the function body. *)
Definition commands (account_id region : string) : list cmdline :=
  [Shell (login_cmd account_id region);
   Argv build_cmd;
   Argv (tag_cmd account_id region);
   Argv (push_cmd account_id region)].

Section WithEnv.
Context {W Self : Type} `{Env W}.

Definition build_and_push_docker_image (account_id region : string) : M W Self string :=
  try_except
    (_ <- do_subprocess (Shell (login_cmd account_id region)) None ;;
     _ <- do_subprocess (Argv build_cmd) None ;;
     _ <- do_subprocess (Argv (tag_cmd account_id region)) None ;;
     _ <- do_subprocess (Argv (push_cmd account_id region)) None ;;
     ret (full_image_name account_id region))
    (fun e =>
       match e with
       | CalledProcessError _ _ _ _ => Some (raise e)
       | _ => None
       end).
End WithEnv.
End DeployToAws.


(** ** A scripted world

    A world whose answers are read off a script: each kind of call is
    answered by a function stored in the world itself, HTTP probes by
    their rank.  It serves to run the scripts on concrete inputs. *)
Module Scripted.

Record sim : Type := mkSim {
  on_subprocess : cmdline -> outcome (string * string);
  on_urlopen : nat -> outcome Z;
  on_requests : nat -> outcome Z;
  on_boto : string -> string -> pyval -> outcome pyval;
  on_json : outcome pyval;
  probes : nat;
  clock : Z
}.

Definition probed (w : sim) : sim :=
  mkSim (on_subprocess w) (on_urlopen w) (on_requests w) (on_boto w) (on_json w)
    (S (probes w)) (clock w).

Definition slept (secs : Z) (w : sim) : sim :=
  mkSim (on_subprocess w) (on_urlopen w) (on_requests w) (on_boto w) (on_json w)
    (probes w) (clock w + secs).

#[global] Instance sim_env : Env sim := {
  subprocess_run cmd _ w := (on_subprocess w cmd, w);
  urlopen _ w := (on_urlopen w (probes w), probed w);
  requests_get _ w := (on_requests w (probes w), probed w);
  boto3_call service op kwargs w := (on_boto w service op kwargs, w);
  boto3_wait _ _ _ w := (Ret tt, w);
  time_sleep := slept;
  time_time w := (clock w, w);
  read_json _ w := (on_json w, w);
  os_path_isfile _ w := (true, w);
  script_dir := "/srv/code-canvas-astro";
  b64decode_str v := as_str v;
  bytes_decode s := Ret s;
  json_dumps _ := "{}";
  py_repr _ := "<object>"
}.

(** Every command exits with status 0 and prints nothing. *)
Definition commands_succeed (cmd : cmdline) : outcome (string * string) :=
  Ret ("", "").

(** A response that has every entry the scripts read. *)
Definition generic_response : pyval :=
  PDict [("Account", PStr "415740581749");
         ("repository", PDict [("repositoryUri", PStr "registry/repo");
                               ("repositoryArn", PStr "arn:repo")]);
         ("repositories", PList [PDict [("repositoryUri", PStr "registry/repo")]]);
         ("Role", PDict [("Arn", PStr "arn:role")]);
         ("FunctionArn", PStr "arn:function");
         ("Configuration", PDict [("FunctionArn", PStr "arn:function")]);
         ("FunctionUrl", PStr "https://function.example/");
         ("Service", PDict [("ServiceArn", PStr "arn:service");
                            ("ServiceId", PStr "service-id");
                            ("Status", PStr "OPERATION_IN_PROGRESS")]);
         ("authorizationData",
          PList [PDict [("authorizationToken", PStr "AWS:secret");
                        ("proxyEndpoint", PStr "https://registry")]]);
         ("Invalidation", PDict [("Id", PStr "I1"); ("Status", PStr "InProgress")]);
         ("HostedZone", PDict [("Name", PStr "pyrepl.dev.")])].

Definition boto_succeeds (service op : string) (kwargs : pyval) : outcome pyval :=
  Ret generic_response.

Definition package_json (version : string) : outcome pyval :=
  Ret (PDict [("name", PStr "code-canvas-astro"); ("version", PStr version)]).

(** The world in which everything works. *)
Definition healthy : sim :=
  mkSim commands_succeed (fun _ => Ret 200) (fun _ => Ret 200) boto_succeeds
    (package_json "1.2.0") 0 0.

Definition with_subprocess (f : cmdline -> outcome (string * string)) (w : sim) : sim :=
  mkSim f (on_urlopen w) (on_requests w) (on_boto w) (on_json w) (probes w) (clock w).

Definition with_urlopen (f : nat -> outcome Z) (w : sim) : sim :=
  mkSim (on_subprocess w) f (on_requests w) (on_boto w) (on_json w) (probes w) (clock w).

Definition with_requests (f : nat -> outcome Z) (w : sim) : sim :=
  mkSim (on_subprocess w) (on_urlopen w) f (on_boto w) (on_json w) (probes w) (clock w).

Definition with_boto (f : string -> string -> pyval -> outcome pyval) (w : sim) : sim :=
  mkSim (on_subprocess w) (on_urlopen w) (on_requests w) f (on_json w) (probes w) (clock w).

Definition with_json (j : outcome pyval) (w : sim) : sim :=
  mkSim (on_subprocess w) (on_urlopen w) (on_requests w) (on_boto w) j (probes w) (clock w).

Definition start {Self} (w : sim) (d : Self) : state sim Self := mkState w d [].

End Scripted.

(** Stages that record their own name in the state when they run. *)
Definition named_stage (name : string) (ok : bool) : action (list string) :=
  fun log => (Ret ok, (log ++ [name])%list).

(** Worlds for the command executor: a tool that is not installed, and
    a tool that runs and exits with status 1. *)
Definition no_such_file : exn :=
  FileNotFoundError "[Errno 2] No such file or directory: 'docker'".

Definition missing_tool : Scripted.sim :=
  Scripted.with_subprocess (fun _ => Raise no_such_file) Scripted.healthy.

Definition exits_nonzero (stderr : string) : exn :=
  CalledProcessError 1 (Some "") (Some stderr) "Command returned non-zero exit status 1.".

Definition failing_tool : Scripted.sim :=
  Scripted.with_subprocess (fun _ => Raise (exits_nonzero " denied
")) Scripted.healthy.

(** ** Vocabulary of the retrying verifiers *)

(** The number of HTTP probes recorded in a trace. *)
Fixpoint http_probes (tr : list event) : nat :=
  match tr with
  | [] => 0
  | (EvUrlopen _ | EvRequestsGet _) :: rest => S (http_probes rest)
  | _ :: rest => http_probes rest
  end.

(** The number of calls of one boto3 operation recorded in a trace. *)
Fixpoint boto_calls (service op : string) (tr : list event) : nat :=
  match tr with
  | [] => 0
  | EvBoto service' op' _ :: rest =>
      if String.eqb service service' && String.eqb op op'
      then S (boto_calls service op rest) else boto_calls service op rest
  | _ :: rest => boto_calls service op rest
  end.

(** The answers of [urlopen] that the HTTP policy of the specification
    counts as Success: status 200, 301 or 302, or an [HTTPError] with
    code 400, 403, 404 or 405. *)
Definition reachable (o : outcome Z) : bool :=
  match o with
  | Ret status => (status =? 200) || (status =? 301) || (status =? 302)
  | Raise (HTTPError code _) =>
      (code =? 400) || (code =? 403) || (code =? 404) || (code =? 405)
  | Raise _ => false
  end.

(** The answers of [requests.get] after which [verify_deployment] tries
    again: a status other than 200, or a [RequestException]. *)
Definition domain_transient (o : outcome Z) : bool :=
  match o with
  | Ret status => negb (status =? 200)
  | Raise (RequestException _) => true
  | Raise _ => false
  end.

(** The answers of [describe_service] after which the App Runner poll
    waits and asks again: a status that is neither RUNNING nor one of
    the failed ones. *)
Definition service_pending (o : outcome pyval) : bool :=
  match o with
  | Ret info =>
      match getitem info "Service" with
      | Ret svc =>
          match getitem svc "Status" with
          | Ret status =>
              negb (eq_str status "RUNNING" || eq_str status "CREATE_FAILED"
                    || eq_str status "UPDATE_FAILED" || eq_str status "DELETE_FAILED")
          | Raise _ => false
          end
      | Raise _ => false
      end
  | Raise _ => false
  end.

(** The state right after one probe of [url]. *)
Definition after_urlopen {W Self} `{Env W} (url : string) (s : state W Self) : state W Self :=
  mkState (snd (urlopen url (world s))) (self s) (EvUrlopen url :: trace s).

Definition after_requests_get {W Self} `{Env W} (url : string) (s : state W Self)
  : state W Self :=
  mkState (snd (requests_get url (world s))) (self s) (EvRequestsGet url :: trace s).

Definition after_sleep {W Self} `{Env W} (secs : Z) (s : state W Self) : state W Self :=
  mkState (time_sleep secs (world s)) (self s) (EvSleep secs :: trace s).

(** What is left of a health check once the first attempt has failed:
    the attempts 2 to [max_retries]. *)
Definition remaining_attempts {W Self} (body : Z -> M W Self (option bool)) (max_retries : Z)
  : M W Self bool :=
  r <- for_each (py_range 2 (max_retries + 1)) body ;;
  match r with
  | Some b => ret b
  | None => ret false
  end.

(** Worlds for the verifiers: nothing answers; everything answers 403. *)
Definition unreachable : Scripted.sim :=
  Scripted.with_urlopen (fun _ => Raise (URLError "timed out"))
    (Scripted.with_requests (fun _ => Ret 503) Scripted.healthy).

Definition forbidden : Scripted.sim :=
  Scripted.with_urlopen (fun _ => Raise (HTTPError 403 "Forbidden"))
    (Scripted.with_requests (fun _ => Ret 403) Scripted.healthy).

(** ** Worlds that always give the same answers

    A world without memory: every call of a kind gets the same answer. *)
Definition fixed_env (sub : cmdline -> outcome (string * string))
    (url req : outcome Z) (bt : string -> string -> pyval -> outcome pyval)
    (js : outcome pyval) : Env unit := {|
  subprocess_run cmd _ w := (sub cmd, w);
  urlopen _ w := (url, w);
  requests_get _ w := (req, w);
  boto3_call service op kwargs w := (bt service op kwargs, w);
  boto3_wait _ _ _ w := (Ret tt, w);
  time_sleep _ w := w;
  time_time w := (0, w);
  read_json _ w := (js, w);
  os_path_isfile _ w := (true, w);
  script_dir := "/srv/code-canvas-astro";
  b64decode_str v := as_str v;
  bytes_decode s := Ret s;
  json_dumps _ := "{}";
  py_repr _ := "<object>"
|}.

(** Nothing answers: connections time out, the domain serves 503 and
    the App Runner service stays in progress. *)
Definition outage_env : Env unit :=
  fixed_env Scripted.commands_succeed (Raise (URLError "timed out")) (Ret 503)
    Scripted.boto_succeeds (Scripted.package_json "1.2.0").

(** ** Vocabulary of the command-running stages *)

(** The commands recorded in a trace, oldest first. *)
Fixpoint commands_run (tr : list event) : list cmdline :=
  match tr with
  | [] => []
  | EvSubprocess cmd :: rest => (commands_run rest ++ [cmd])%list
  | _ :: rest => commands_run rest
  end.

(** The state right after the command [cmd]. *)
Definition after_command {W Self} `{Env W} (cmd : list string) (s : state W Self)
  : state W Self :=
  mkState (snd (subprocess_run (Argv cmd) None (world s))) (self s)
    (EvSubprocess (Argv cmd) :: trace s).

(** What [run] makes of the outcome of [subprocess.run]. *)
Definition run_outcome (o : outcome (string * string)) : outcome (bool * string * string) :=
  match o with
  | Ret (out, err) => Ret (true, py_strip out, py_strip err)
  | Raise (CalledProcessError rc out err msg) =>
      Ret (false,
           match out with Some x => py_strip x | None => "" end,
           match err with
           | Some x => if is_empty x then msg else py_strip x
           | None => msg
           end)
  | Raise e => Raise e
  end.

(** The four commands that stage 4 runs for one image: tag versioned,
    tag latest, push versioned, push latest. *)
Definition image_cmds (img : string * string * string) : list (list string) :=
  let '(local_tag, hub_tag, hub_latest_tag) := img in
  [ ["docker"; "tag"; local_tag; hub_tag];
    ["docker"; "tag"; local_tag; hub_latest_tag];
    ["docker"; "push"; hub_tag];
    ["docker"; "push"; hub_latest_tag] ].

(** The tag and push commands of stage 4 for the image tag [tag]. *)
Definition tag_push_cmds (tag : string) : list (list string) :=
  flat_map image_cmds (UpdateAwsDeployment.images_to_push tag).

(** A world in which [docker login] fails for want of a terminal and
    every other command succeeds. *)
Definition login_refused : exn :=
  exits_nonzero "Error: Cannot perform an interactive login from a non TTY device".

Definition login_fails (cmd : cmdline) : outcome (string * string) :=
  match cmd with
  | Argv ("docker" :: "login" :: _) => Raise login_refused
  | _ => Ret ("", "")
  end.

Definition login_fails_env : Env unit :=
  fixed_env login_fails (Ret 200) (Ret 200) Scripted.boto_succeeds
    (Scripted.package_json "1.2.0").

(** An [UpdateDeployer] after stage 1 has read version 1.2.0. *)
Definition tagged_1_2_0 : UpdateAwsDeployment.deployer :=
  UpdateAwsDeployment.mkDeployer "1.2.0" "v1.2.0" "".

(** ** Vocabulary of stage 1 *)

(** The state right after [package.json] has been read. *)
Definition after_read_json {W Self} `{Env W} (path : string) (s : state W Self)
  : state W Self :=
  mkState (snd (read_json path (world s))) (self s) (EvReadJson path :: trace s).

(** [data.get("version", "")] on the items of a JSON object. *)
Definition version_entry (items : list (string * pyval)) : pyval :=
  match assoc "version" items with
  | Some v => v
  | None => PStr ""
  end.

(** A computation that leaves the attribute [proj] of the deployer as
    it is, whatever its outcome. *)
Definition keeps {W Self X A} (proj : Self -> X) (m : M W Self A) : Prop :=
  forall s, proj (self (snd (m s))) = proj (self s).

(** A stage that leaves the image tag as it is. *)
Abbreviation keeps_tag := (keeps UpdateAwsDeployment.image_tag).

(** Worlds for stage 1: a version made of blanks, a padded version. *)
Definition blank_version : Scripted.sim :=
  Scripted.with_json (Scripted.package_json "   ") Scripted.healthy.

Definition padded_version : Scripted.sim :=
  Scripted.with_json (Scripted.package_json " 1.2.0 ") Scripted.healthy.

Definition numeric_version : Scripted.sim :=
  Scripted.with_json (Ret (PDict [("name", PStr "code-canvas-astro"); ("version", PInt 1)]))
    Scripted.healthy.

(** The trace [tr] continues the trace [tr0]: it is [tr0] with more
    recent events in front. *)
Definition extends (tr tr0 : list event) : Prop :=
  exists more, tr = (more ++ tr0)%list.

(** ** Vocabulary of the exit codes *)

(** Every stage of the update pipeline succeeds: the pre-flight check
    lets the pipeline start and each of the twelve stages, run in
    order, returns [True]. *)
Definition pipeline_succeeds {W} `{Env W} (w : W) : Prop :=
  exists s1 s2,
    UpdateAwsDeployment.preflight_check (mkState w UpdateAwsDeployment.init []) = (Ret true, s1)
    /\ all_succeed UpdateAwsDeployment.stages s1 = Some s2.

(** A [deployment_result] in which no outcome has been written yet. *)
Definition pristine (r : DeployToLambda.deployment_result) : Prop :=
  DeployToLambda.success r = false
  /\ DeployToLambda.failed_step r = None
  /\ DeployToLambda.error r = None.

(** A computation that leaves a pristine [deployment_result] pristine. *)
Definition stays_pristine {W A} (m : M W DeployToLambda.deployer A) : Prop :=
  forall s,
    pristine (DeployToLambda.result (self s)) ->
    pristine (DeployToLambda.result (self (snd (m s)))).

(** A computation that always returns. *)
Definition returns {W Self A} (m : M W Self A) : Prop :=
  forall s, exists a s', m s = (Ret a, s').

(** ** Vocabulary of the provisioners *)

(** The identifiers that the describe/get responses carry. *)
Definition described_repository_uri (response : pyval) : outcome pyval :=
  match getitem response "repositories" with
  | Ret rs => match getitem0 rs with
              | Ret r => getitem r "repositoryUri"
              | Raise e => Raise e
              end
  | Raise e => Raise e
  end.

Definition created_repository_uri (response : pyval) : outcome pyval :=
  match getitem response "repository" with
  | Ret r => getitem r "repositoryUri"
  | Raise e => Raise e
  end.

Definition role_arn_of (response : pyval) : outcome pyval :=
  match getitem response "Role" with
  | Ret r => getitem r "Arn"
  | Raise e => Raise e
  end.

Definition configured_function_arn (response : pyval) : outcome pyval :=
  match getitem response "Configuration" with
  | Ret c => getitem c "FunctionArn"
  | Raise e => Raise e
  end.

Definition function_url_of (response : pyval) : outcome pyval :=
  getitem response "FunctionUrl".

Section CloudBehaviours.
Context {W : Type} `{Env W}.

(** The operation [op] is always refused with the error code [code]. *)
Definition conflicts (service op code : string) : Prop :=
  forall kwargs w,
  exists msg w', boto3_call service op kwargs w = (Raise (ClientError code msg), w').

(** The operation [op] always answers, with a response from which
    [extract] reads a value. *)
Definition answers (service op : string) (extract : pyval -> outcome pyval) : Prop :=
  forall kwargs w,
  exists response w' v,
    boto3_call service op kwargs w = (Ret response, w') /\ extract response = Ret v.

(** [v] is a value that [extract] reads from some response of [op]. *)
Definition reported (service op : string) (extract : pyval -> outcome pyval) (v : pyval)
  : Prop :=
  exists kwargs w response w',
    boto3_call service op kwargs w = (Ret response, w') /\ extract response = Ret v.

(** A cloud in which every resource of the scripts exists already:
    each create call is refused with its already-exists code, and the
    calls that look a resource up or update it answer. *)
Record everything_exists : Prop := {
  repo_exists : conflicts "ecr" "create_repository" "RepositoryAlreadyExistsException";
  repo_described : answers "ecr" "describe_repositories" described_repository_uri;
  role_exists : conflicts "iam" "create_role" "EntityAlreadyExists";
  role_got : answers "iam" "get_role" role_arn_of;
  role_policy_put : answers "iam" "put_role_policy" Ret;
  function_exists : conflicts "lambda" "create_function" "ResourceConflictException";
  function_code_updated : answers "lambda" "update_function_code" Ret;
  function_configuration_updated : answers "lambda" "update_function_configuration" Ret;
  function_waited :
    forall kwargs w, exists w', boto3_wait "lambda" "function_updated" kwargs w = (Ret tt, w');
  function_got : answers "lambda" "get_function" configured_function_arn;
  url_exists :
    conflicts "lambda" "create_function_url_config" "ResourceConflictException";
  url_got : answers "lambda" "get_function_url_config" function_url_of;
  bucket_found : answers "s3" "head_bucket" Ret
}.
End CloudBehaviours.

(** The answers of a cloud in which everything exists already. *)
Definition already_there (service op : string) (kwargs : pyval) : outcome pyval :=
  if String.eqb op "create_repository" then
    Raise (ClientError "RepositoryAlreadyExistsException" "The repository already exists")
  else if String.eqb op "create_role" then
    Raise (ClientError "EntityAlreadyExists" "Role already exists")
  else if String.eqb op "create_function" || String.eqb op "create_function_url_config" then
    Raise (ClientError "ResourceConflictException" "Already exists")
  else Ret Scripted.generic_response.

Definition existing_env : Env unit :=
  fixed_env Scripted.commands_succeed (Ret 200) (Ret 200) already_there
    (Scripted.package_json "1.2.0").

(** A bucket that appears between the probe and the creation. *)
Definition bucket_race (service op : string) (kwargs : pyval) : outcome pyval :=
  if String.eqb op "head_bucket" then Raise (ClientError "404" "Not Found")
  else if String.eqb op "create_bucket" then
    Raise (ClientError "BucketAlreadyOwnedByYou"
             "Your previous request to create the named bucket succeeded and you already own it.")
  else Ret Scripted.generic_response.

Definition racing_bucket : Scripted.sim :=
  Scripted.with_boto bucket_race Scripted.healthy.

(** ** A consistent cloud

    What idempotence of the provisioners relies on: the external
    system keeps a registry of resources, by service and name.  The
    scripts never see it; [registered] is how a world is read. *)

Definition is_create (service op : string) : bool :=
  (String.eqb service "ecr" && String.eqb op "create_repository")
  || (String.eqb service "iam" && String.eqb op "create_role")
  || (String.eqb service "s3" && String.eqb op "create_bucket").

Definition is_lookup (service op : string) : bool :=
  (String.eqb service "ecr" && String.eqb op "describe_repositories")
  || (String.eqb service "iam" && String.eqb op "get_role")
  || (String.eqb service "s3" && String.eqb op "head_bucket").

Definition bind_outcome {A B} (o : outcome A) (k : A -> outcome B) : outcome B :=
  match o with
  | Ret a => k a
  | Raise e => Raise e
  end.

(** The name of the resource that a call is about. *)
Definition named (op : string) (kwargs : pyval) : outcome string :=
  if String.eqb op "create_repository" then
    bind_outcome (getitem kwargs "repositoryName") as_str
  else if String.eqb op "describe_repositories" then
    bind_outcome (bind_outcome (getitem kwargs "repositoryNames") getitem0) as_str
  else if String.eqb op "create_role" || String.eqb op "get_role" then
    bind_outcome (getitem kwargs "RoleName") as_str
  else if String.eqb op "create_bucket" || String.eqb op "head_bucket" then
    bind_outcome (getitem kwargs "Bucket") as_str
  else Raise (KeyError op).

(** The identifier of the resource in the response to a call: the
    repository URI, the role ARN, and for a bucket its name. *)
Definition identifier (op : string) (kwargs response : pyval) : outcome pyval :=
  if String.eqb op "create_repository" then created_repository_uri response
  else if String.eqb op "describe_repositories" then described_repository_uri response
  else if String.eqb op "create_role" || String.eqb op "get_role" then role_arn_of response
  else if String.eqb op "create_bucket" || String.eqb op "head_bucket" then
    getitem kwargs "Bucket"
  else Raise (KeyError op).

Section ConsistentCloud.
Context {W : Type} `{Env W}.
Variable registered : W -> string -> string -> option pyval.

Record consistent : Prop := {
  (** a successful creation registers the identifier it returns *)
  created :
    forall service op kwargs w response w' name id,
      is_create service op = true ->
      boto3_call service op kwargs w = (Ret response, w') ->
      named op kwargs = Ret name ->
      identifier op kwargs response = Ret id ->
      registered w' service name = Some id;
  (** what is registered cannot be created again *)
  not_created_twice :
    forall service op kwargs w name id,
      is_create service op = true ->
      named op kwargs = Ret name ->
      registered w service name = Some id ->
      exists e w', boto3_call service op kwargs w = (Raise e, w');
  (** a lookup answers with the registered identifier *)
  found :
    forall service op kwargs w response w' name id,
      is_lookup service op = true ->
      boto3_call service op kwargs w = (Ret response, w') ->
      named op kwargs = Ret name ->
      identifier op kwargs response = Ret id ->
      registered w service name = Some id;
  (** nothing is removed or replaced *)
  kept_by_call :
    forall service op kwargs w service' name id,
      registered w service' name = Some id ->
      registered (snd (boto3_call service op kwargs w)) service' name = Some id;
  kept_by_sleep :
    forall secs w service name id,
      registered w service name = Some id ->
      registered (time_sleep secs w) service name = Some id
}.
End ConsistentCloud.

(** *** A registry as a world *)
Module Registry.

(** The world is the registry itself. *)
Definition cloud : Type := string -> string -> option pyval.

Definition register (service name : string) (id : pyval) (w : cloud) : cloud :=
  fun service' name' =>
    if String.eqb service service' && String.eqb name name' then Some id
    else w service' name'.

(** The identifier that the cloud gives to a new resource. *)
Definition new_id (service name : string) : pyval :=
  if String.eqb service "s3" then PStr name
  else PStr (service ++ "/" ++ name).

(** A response that carries [id] wherever the scripts read it. *)
Definition response_with (id : pyval) : pyval :=
  PDict [("repository", PDict [("repositoryUri", id); ("repositoryArn", PStr "arn:repository")]);
         ("repositories", PList [PDict [("repositoryUri", id)]]);
         ("Role", PDict [("Arn", id)])].

Definition conflict_code (op : string) : string :=
  if String.eqb op "create_repository" then "RepositoryAlreadyExistsException"
  else if String.eqb op "create_role" then "EntityAlreadyExists"
  else "BucketAlreadyOwnedByYou".

Definition missing_code (op : string) : string :=
  if String.eqb op "describe_repositories" then "RepositoryNotFoundException"
  else if String.eqb op "get_role" then "NoSuchEntity"
  else "404".

(** The registry as the cloud reports it: a bucket is known by its name. *)
Definition view (w : cloud) (service name : string) : option pyval :=
  if String.eqb service "s3" then
    match w service name with
    | Some _ => Some (PStr name)
    | None => None
    end
  else w service name.

Definition call (service op : string) (kwargs : pyval) (w : cloud)
  : outcome pyval * cloud :=
  match named op kwargs with
  | Ret name =>
      if is_create service op then
        match w service name with
        | Some _ => (Raise (ClientError (conflict_code op) "already exists"), w)
        | None =>
            (Ret (response_with (new_id service name)),
             register service name (new_id service name) w)
        end
      else if is_lookup service op then
        match view w service name with
        | Some id => (Ret (response_with id), w)
        | None => (Raise (ClientError (missing_code op) "not found"), w)
        end
      else (Ret (PDict []), w)
  | Raise _ => (Ret (PDict []), w)
  end.

Definition registry_env : Env cloud := {|
  subprocess_run _ _ w := (Ret ("", ""), w);
  urlopen _ w := (Ret 200, w);
  requests_get _ w := (Ret 200, w);
  boto3_call := call;
  boto3_wait _ _ _ w := (Ret tt, w);
  time_sleep _ w := w;
  time_time w := (0, w);
  read_json _ w := (Scripted.package_json "1.2.0", w);
  os_path_isfile _ w := (true, w);
  script_dir := "/srv/code-canvas-astro";
  b64decode_str v := as_str v;
  bytes_decode s := Ret s;
  json_dumps _ := "{}";
  py_repr _ := "<object>"
|}.

Definition empty : cloud := fun _ _ => None.

End Registry.

(** A world in which the Docker build fails and prints bytes that are
    not UTF-8 on its error stream. *)
Definition garbled : string := String (ascii_of_nat 255) "".

Definition cannot_decode : exn :=
  ValueError "'utf-8' codec can't decode byte 0xff in position 0: invalid start byte".

Definition build_fails_garbled (cmd : cmdline) : outcome (string * string) :=
  match cmd with
  | Argv ("docker" :: "buildx" :: _) =>
      Raise (CalledProcessError 1 (Some "") (Some garbled)
               "Command returned non-zero exit status 1.")
  | _ => Ret ("", "")
  end.

Definition garbled_env : Env unit := {|
  subprocess_run cmd _ w := (build_fails_garbled cmd, w);
  urlopen _ w := (Ret 200, w);
  requests_get _ w := (Ret 200, w);
  boto3_call service op kwargs w := (Scripted.boto_succeeds service op kwargs, w);
  boto3_wait _ _ _ w := (Ret tt, w);
  time_sleep _ w := w;
  time_time w := (0, w);
  read_json _ w := (Scripted.package_json "1.2.0", w);
  os_path_isfile _ w := (true, w);
  script_dir := "/srv/code-canvas-astro";
  b64decode_str v := as_str v;
  bytes_decode s := if String.eqb s garbled then Raise cannot_decode else Ret s;
  json_dumps _ := "{}";
  py_repr _ := "<object>"
|}.

(** ** Vocabulary of the further properties *)

(** Stages that raise when they run. *)
Definition raising_stage (name : string) (e : exn) : action (list string) :=
  fun log => (Raise e, (log ++ [name])%list).

(** The credentials check of the pre-flight. *)
Definition sts_call : event := EvBoto "sts" "get_caller_identity" (kw []).

(** The state right after the boto3 call [service.op(kwargs)]. *)
Definition after_boto {W Self} `{Env W} (service op : string) (kwargs : pyval)
    (s : state W Self) : state W Self :=
  mkState (snd (boto3_call service op kwargs (world s))) (self s)
    (EvBoto service op kwargs :: trace s).

(** Worlds for the pre-flight check: expired credentials (a
    [ClientError]) and no credentials at all (botocore's
    [NoCredentialsError], which is not a [ClientError]). *)
Definition expired_token : exn :=
  ClientError "ExpiredToken" "The security token included in the request is expired".

Definition no_credentials : exn := Exception "Unable to locate credentials".

Definition sts_refuses (e : exn) (service op : string) (kwargs : pyval) : outcome pyval :=
  if String.eqb service "sts" then Raise e else Ret Scripted.generic_response.

(** ** Vocabulary of stage 5 *)

Fixpoint has_colon (s : string) : bool :=
  match s with
  | EmptyString => false
  | String c s' => Ascii.eqb c ":"%char || has_colon s'
  end.

Definition ecr_token_call : event := EvBoto "ecr" "get_authorization_token" (kw []).

(** The command of stage 5: the password is not on it. *)
Definition ecr_login_cmd (endpoint : string) : cmdline :=
  Argv ["docker"; "login"; "--username"; "AWS"; "--password-stdin"; endpoint].

(** A world whose ECR token is [token], and in which [docker login]
    succeeds only when it reads [expected] on its standard input. *)
Definition token_response (token : string) : pyval :=
  PDict [("authorizationData",
          PList [PDict [("authorizationToken", PStr token);
                        ("proxyEndpoint", PStr "https://registry")]])].

Definition login_checks_stdin (expected : string) (token : string) : Env unit := {|
  subprocess_run cmd input w :=
    (match input with
     | Some given => if String.eqb given expected then Ret ("Login Succeeded", "")
                     else Raise (exits_nonzero "unauthorized")
     | None => Raise (exits_nonzero "no password")
     end, w);
  urlopen _ w := (Ret 200, w);
  requests_get _ w := (Ret 200, w);
  boto3_call service op kwargs w := (Ret (token_response token), w);
  boto3_wait _ _ _ w := (Ret tt, w);
  time_sleep _ w := w;
  time_time w := (0, w);
  read_json _ w := (Scripted.package_json "1.2.0", w);
  os_path_isfile _ w := (true, w);
  script_dir := "/srv/code-canvas-astro";
  b64decode_str v := as_str v;
  bytes_decode s := Ret s;
  json_dumps _ := "{}";
  py_repr _ := "<object>"
|}.

(** ** Vocabulary of the attempts *)

(** The events of [k] attempts with a pause between two of them,
    newest first: [probe], then [k - 1] times a sleep and a [probe]. *)
Fixpoint attempts_events (probe : event) (delay : Z) (k : nat) : list event :=
  match k with
  | O => []
  | S k' =>
      match k' with
      | O => [probe]
      | S _ => probe :: EvSleep delay :: attempts_events probe delay k'
      end
  end.

(** ** Vocabulary of stage 7 *)

(** The external calls of stage 7 for the image [uri], oldest first. *)
Definition stage_07_calls (uri : string) : list event :=
  [ EvBoto "lambda" "update_function_code"
      (kw [("FunctionName", PStr UpdateAwsDeployment.LAMBDA_FUNCTION_NAME);
           ("ImageUri", PStr uri)]);
    EvWaiter "lambda" "function_updated" UpdateAwsDeployment.function_updated_args;
    EvBoto "lambda" "update_function_configuration"
      (kw [("FunctionName", PStr UpdateAwsDeployment.LAMBDA_FUNCTION_NAME);
           ("Timeout", PInt UpdateAwsDeployment.LAMBDA_CONFIG_timeout);
           ("MemorySize", PInt UpdateAwsDeployment.LAMBDA_CONFIG_memory);
           ("EphemeralStorage",
            PDict [("Size", PInt UpdateAwsDeployment.LAMBDA_CONFIG_ephemeral_storage)]);
           ("Environment", UpdateAwsDeployment.lambda_environment)]);
    EvWaiter "lambda" "function_updated" UpdateAwsDeployment.function_updated_args;
    EvBoto "lambda" "get_function"
      (kw [("FunctionName", PStr UpdateAwsDeployment.LAMBDA_FUNCTION_NAME)]) ].

(** ** What a computation does to the outside *)

(** Every external call that [m] performs is one that [allowed]
    accepts, whatever the outcome of [m]. *)
Definition performs_only {W Self A} (allowed : event -> bool) (m : M W Self A) : Prop :=
  forall s,
  exists more,
    trace (snd (m s)) = (more ++ trace s)%list /\ forallb allowed more = true.

(** The boto3 operations of the update pipeline. *)
Definition update_operations : list (string * string) :=
  [ ("sts", "get_caller_identity");
    ("ecr", "get_authorization_token");
    ("lambda", "update_function_code");
    ("lambda", "update_function_configuration");
    ("lambda", "get_function");
    ("apigateway", "get_rest_api");
    ("apigateway", "get_stages");
    ("cloudfront", "create_invalidation");
    ("route53", "get_hosted_zone");
    ("route53", "list_resource_record_sets") ].

Definition listed (ops : list (string * string)) (service op : string) : bool :=
  existsb (fun p => String.eqb service (fst p) && String.eqb op (snd p)) ops.

(** The waiters of the update pipeline. *)
Definition update_waiters : list (string * string) :=
  [ ("lambda", "function_updated"); ("cloudfront", "invalidation_completed") ].

(** What the update pipeline may do: call one of its ten operations,
    wait on one of its two waiters, run a [docker] command given as an
    argument list, probe a URL with [urlopen], sleep, and read one JSON
    file. *)
Definition update_pipeline_event (ev : event) : bool :=
  match ev with
  | EvBoto service op _ => listed update_operations service op
  | EvWaiter service name _ => listed update_waiters service name
  | EvSubprocess (Argv ("docker" :: _)) => true
  | EvSubprocess _ => false
  | EvUrlopen _ => true
  | EvRequestsGet _ => false
  | EvSleep _ => true
  | EvReadJson _ => true
  end.

(** ** Vocabulary of the Lambda deployer *)

(** The probe of [create_s3_bucket]. *)
Definition head_bucket_call : event :=
  EvBoto "s3" "head_bucket" (kw [DeployToLambda.bucket_arg]).

(** A bucket that exists and belongs to someone else. *)
Definition bucket_forbidden (service op : string) (kwargs : pyval) : outcome pyval :=
  if String.eqb op "head_bucket" then Raise (ClientError "403" "Forbidden")
  else Ret Scripted.generic_response.

Definition foreign_bucket : Scripted.sim :=
  Scripted.with_boto bucket_forbidden Scripted.healthy.

(** A step of the Lambda deployer that leaves the attributes of the
    deployer and the report as they are. *)
Definition same_uris {W} (s s' : state W DeployToLambda.deployer) : Prop :=
  DeployToLambda.ecr_uri (self s') = DeployToLambda.ecr_uri (self s)
  /\ DeployToLambda.image_uri (self s') = DeployToLambda.image_uri (self s)
  /\ DeployToLambda.s3_bucket_created (self s') = DeployToLambda.s3_bucket_created (self s).

Definition same_object {W} (s s' : state W DeployToLambda.deployer) : Prop :=
  same_uris s s' /\ DeployToLambda.result (self s') = DeployToLambda.result (self s).

(** ** Pre- and postconditions *)

(** From a state in [P], [m] returns a value and a state in [Q], or
    raises an exception with a state in [R]. *)
Definition triple {W Self A} (P : state W Self -> Prop) (m : M W Self A)
    (Q : A -> state W Self -> Prop) (R : exn -> state W Self -> Prop) : Prop :=
  forall s, P s ->
    match m s with
    | (Ret a, s') => Q a s'
    | (Raise e, s') => R e s'
    end.

(** ** Vocabulary of the App Runner deployer *)

(** A report in which no outcome has been written yet. *)
Definition unreported (r : DeployToAppRunner.deployment_result) : Prop :=
  DeployToAppRunner.success r = false
  /\ DeployToAppRunner.errors r = []
  /\ DeployToAppRunner.r_service_url r = PNone
  /\ DeployToAppRunner.r_efs_id r = PNone.

(** The state in which the [try] block of [AppRunnerDeployer.deploy]
    starts. *)
Definition frame_start {W}
    (s : state W (DeployToAppRunner.deployer * DeployToAppRunner.deployment_result))
  : state W (DeployToAppRunner.deployer * DeployToAppRunner.deployment_result) :=
  mkState (world s) (fst (self s), DeployToAppRunner.initial_result) (trace s).

(** What [AppRunnerDeployer.deploy] may do: call ECR, EC2, IAM and
    App Runner, run commands, and sleep. *)
Definition apprunner_deploy_event (ev : event) : bool :=
  match ev with
  | EvBoto service _ _ =>
      existsb (String.eqb service) ["ecr"; "ec2"; "iam"; "apprunner"]
  | EvSubprocess _ => true
  | EvSleep _ => true
  | _ => false
  end.

(** The calls and waits on the EFS service recorded in a trace. *)
Fixpoint efs_calls (tr : list event) : nat :=
  match tr with
  | [] => 0
  | (EvBoto service _ _ | EvWaiter service _ _) :: rest =>
      if String.eqb service "efs" then S (efs_calls rest) else efs_calls rest
  | _ :: rest => efs_calls rest
  end.

(** ** Vocabulary of the network and file-system steps *)

Definition describe_vpcs_args : pyval :=
  kw [("Filters", PList [DeployToAppRunner.filter "isDefault" (PStr "true")])].

Definition describe_subnets_args (vpc : pyval) : pyval :=
  kw [("Filters", PList [DeployToAppRunner.filter "vpc-id" vpc])].

Definition describe_security_groups_args (vpc : pyval) : pyval :=
  kw [("Filters", PList [DeployToAppRunner.filter "group-name" (PStr DeployToAppRunner.sg_name);
                         DeployToAppRunner.filter "vpc-id" vpc])].

Definition create_security_group_args (vpc : pyval) : pyval :=
  kw [("GroupName", PStr DeployToAppRunner.sg_name);
      ("Description", PStr "Security group for Code Canvas Astro EFS");
      ("VpcId", vpc)].

Definition authorize_ingress_args (group : pyval) : pyval :=
  kw [("GroupId", group); ("IpPermissions", DeployToAppRunner.nfs_ingress)].

(** A file system that does not carry the name of the script's. *)
Definition other_file_system (fs : pyval) : bool :=
  match dict_get fs "Name" PNone with
  | Ret name => negb (eq_str name DeployToAppRunner.EFS_NAME)
  | Raise _ => false
  end.

(** A file system that carries it, with its identifier. *)
Definition named_file_system (fs id : pyval) : Prop :=
  (exists name, dict_get fs "Name" PNone = Ret name
                /\ eq_str name DeployToAppRunner.EFS_NAME = true)
  /\ getitem fs "FileSystemId" = Ret id.

(** The answers to [create_mount_target] that let the loop go on: the
    target is created, or it exists already. *)
Definition mount_settled (o : outcome pyval) : bool :=
  match o with
  | Ret _ => true
  | Raise (ClientError code _) => String.eqb code "MountTargetConflict"
  | Raise _ => false
  end.

(** A region without default VPC; a region with one VPC, two subnets
    and the security group of the script. *)
Definition no_vpc (service op : string) (kwargs : pyval) : outcome pyval :=
  Ret (PDict [("Vpcs", PList [])]).

Definition one_vpc (service op : string) (kwargs : pyval) : outcome pyval :=
  Ret (PDict [("Vpcs", PList [PDict [("VpcId", PStr "vpc-1")]]);
              ("Subnets", PList [PDict [("SubnetId", PStr "subnet-a")];
                                 PDict [("SubnetId", PStr "subnet-b")]]);
              ("SecurityGroups", PList [PDict [("GroupId", PStr "sg-1")]]);
              ("FileSystems",
               PList [PDict [("Name", PStr "other"); ("FileSystemId", PStr "fs-0")];
                      PDict [("Name", PStr DeployToAppRunner.EFS_NAME);
                             ("FileSystemId", PStr "fs-1")]])]).

(** A region in which nothing of the script exists yet and every
    mount target is reported as existing. *)
Definition fresh_region (service op : string) (kwargs : pyval) : outcome pyval :=
  if String.eqb op "create_mount_target" then
    Raise (ClientError "MountTargetConflict" "mount target already exists")
  else
    Ret (PDict [("SecurityGroups", PList []);
                ("GroupId", PStr "sg-new");
                ("FileSystems", PList [PDict [("FileSystemId", PStr "fs-0")]]);
                ("FileSystemId", PStr "fs-new")]).

Definition with_network : DeployToAppRunner.deployer :=
  DeployToAppRunner.mkDeployer PNone PNone PNone (PStr "vpc-1")
    (PList [PStr "subnet-a"; PStr "subnet-b"]) (PStr "sg-1").

Definition fresh_region_env : Env unit :=
  fixed_env Scripted.commands_succeed (Ret 200) (Ret 200) fresh_region
    (Scripted.package_json "1.2.0").

(** An App Runner service that is running. *)
Definition running_service : pyval :=
  PDict [("ServiceArn", PStr "arn:service");
         ("ServiceId", PStr "service-id");
         ("ServiceUrl", PStr "abc.us-west-2.awsapprunner.com");
         ("Status", PStr "RUNNING")].

Definition service_runs (service op : string) (kwargs : pyval) : outcome pyval :=
  if String.eqb service "apprunner" then Ret (PDict [("Service", running_service)])
  else if String.eqb service "ec2" then one_vpc service op kwargs
  else Ret Scripted.generic_response.

Definition running_world : Scripted.sim :=
  Scripted.with_boto service_runs Scripted.healthy.

(** ** A file system the scripts can rely on *)

Section Disk.
Context {W : Type} `{Env W} `{Files W}.

(** [content w path] is what the file [path] holds in the world [w],
    if it exists. *)
Variable content : W -> string -> option string.

Record faithful_disk : Prop := {
  (** [os.path.exists] tells whether the file exists and changes nothing *)
  exists_reads :
    forall path w,
      fst (os_path_exists path w)
      = match content w path with Some _ => true | None => false end
      /\ forall other, content (snd (os_path_exists path w)) other = content w other;
  (** copying an existing file succeeds and changes the destination only *)
  copy_writes :
    forall src dst w c,
      content w src = Some c ->
      exists w',
        shutil_copy src dst w = (Ret tt, w')
        /\ content w' dst = Some c
        /\ forall other, other <> dst -> content w' other = content w other;
  (** removing an existing file succeeds and removes that file only *)
  remove_deletes :
    forall path w c,
      content w path = Some c ->
      exists w',
        os_remove path w = (Ret tt, w')
        /\ content w' path = None
        /\ forall other, other <> path -> content w' other = content w other;
  (** the commands and the cloud calls of the script write no file *)
  commands_keep_files :
    forall cmd input w path,
      content (snd (subprocess_run cmd input w)) path = content w path;
  calls_keep_files :
    forall service op kwargs w path,
      content (snd (boto3_call service op kwargs w)) path = content w path
}.

(** The three ignore files of the Docker context hold [di], [lam] and
    [bk]. *)
Definition ignore_files {Self} (di lam bk : option string) (s : state W Self) : Prop :=
  content (world s) DeployLambda.dockerignore = di
  /\ content (world s) DeployLambda.dockerignore_lambda = lam
  /\ content (world s) DeployLambda.dockerignore_backup_path = bk.

(** What they hold once the build is over, when they held [di], [lam]
    and [bk] before: the original [.dockerignore] and no backup if
    there was a [.dockerignore], else whatever [.dockerignore.lambda]
    holds. *)
Definition after_build {Self} (di lam bk : option string) : state W Self -> Prop :=
  match di with
  | Some c => ignore_files (Some c) lam None
  | None => ignore_files lam lam bk
  end.
End Disk.

(** *** A disk as a world *)
Module Disk.

(** The world is the content of the files; every command succeeds. *)
Definition disk : Type := string -> option string.

Definition write (path : string) (c : string) (w : disk) : disk :=
  fun p => if String.eqb p path then Some c else w p.

Definition delete (path : string) (w : disk) : disk :=
  fun p => if String.eqb p path then None else w p.

Definition missing (path : string) : exn :=
  FileNotFoundError ("[Errno 2] No such file or directory: '" ++ path ++ "'").

(** A build that fails. *)
Definition build_fails (cmd : cmdline) : outcome (string * string) :=
  match cmd with
  | Argv ("docker" :: "buildx" :: _) => Raise (exits_nonzero "build failed")
  | _ => Ret ("", "")
  end.

Definition disk_env : Env disk := {|
  subprocess_run cmd _ w := (build_fails cmd, w);
  urlopen _ w := (Ret 200, w);
  requests_get _ w := (Ret 200, w);
  boto3_call service op kwargs w := (Scripted.boto_succeeds service op kwargs, w);
  boto3_wait _ _ _ w := (Ret tt, w);
  time_sleep _ w := w;
  time_time w := (0, w);
  read_json _ w := (Scripted.package_json "1.2.0", w);
  os_path_isfile path w := (match w path with Some _ => true | None => false end, w);
  script_dir := "/srv/code-canvas-astro";
  b64decode_str v := as_str v;
  bytes_decode s := Ret s;
  json_dumps _ := "{}";
  py_repr _ := "<object>"
|}.

Definition disk_files : Files disk := {|
  os_path_exists path w := (match w path with Some _ => true | None => false end, w);
  shutil_copy src dst w :=
    match w src with
    | Some c => (Ret tt, write dst c w)
    | None => (Raise (missing src), w)
    end;
  os_remove path w :=
    match w path with
    | Some _ => (Ret tt, delete path w)
    | None => (Raise (missing path), w)
    end
|}.

(** A Docker context with both ignore files; one with the Lambda
    ignore file only. *)
Definition both_ignore_files : disk :=
  write DeployLambda.dockerignore "node_modules"
    (write DeployLambda.dockerignore_lambda "tests" (fun _ => None)).

Definition lambda_ignore_only : disk :=
  write DeployLambda.dockerignore_lambda "tests" (fun _ => None).

Definition with_image : DeployLambda.deployer :=
  DeployLambda.mkDeployer (PStr "registry/repo") (PStr "registry/repo:v1.0").

End Disk.

(** ** Vocabulary of the verifier and of the CDK image build *)

(** An exception that [except requests.exceptions.RequestException]
    does not catch. *)
Definition not_a_request_exception (e : exn) : Prop :=
  forall msg, e <> RequestException msg.

(** The course of [verify_deployment]: [k] requests were made, with a
    pause between two of them, and [o] is how it ended. *)
Definition verifier_course {W Self} (domain : string) (max_retries delay : Z) (k : nat)
    (s : state W Self) (o : outcome bool) (s' : state W Self) : Prop :=
  trace s'
  = (attempts_events (EvRequestsGet ("https://" ++ domain)) delay k ++ trace s)%list
  /\ self s' = self s
  /\ (k <= Z.to_nat max_retries)%nat
  /\ match o with
     | Ret true => (1 <= k)%nat
     | Ret false => k = Z.to_nat max_retries
     | Raise e => (1 <= k)%nat /\ not_a_request_exception e
     end.

(** ** Vocabulary of stage 6 *)

(** The commands of stage 6 for the image tag [tag], in the order of
    the function body. *)
Definition stage_06_commands {W} `{Env W} (tag : string) : list (list string) :=
  let local_tag := UpdateAwsDeployment.ECR_REPO_NAME ++ ":" ++ tag in
  let ecr_tag := UpdateAwsDeployment.ECR_FULL_URI ++ ":" ++ tag in
  let ecr_latest := UpdateAwsDeployment.ECR_FULL_URI ++ ":latest" in
  [ UpdateAwsDeployment.build_cmd local_tag "Dockerfile.lambda";
    ["docker"; "tag"; local_tag; ecr_tag];
    ["docker"; "tag"; local_tag; ecr_latest];
    ["docker"; "push"; ecr_tag];
    ["docker"; "push"; ecr_latest] ].

(** The command [cmd] exits with a non-zero status in some world. *)
Definition exits_with_error {W} `{Env W} (cmd : list string) : Prop :=
  exists w rc out err msg,
    fst (subprocess_run (Argv cmd) None w) = Raise (CalledProcessError rc out err msg).

(** The command [cmd] raises [e], which is no [CalledProcessError]. *)
Definition cannot_run {W} `{Env W} (cmd : list string) (e : exn) : Prop :=
  (exists w, fst (subprocess_run (Argv cmd) None w) = Raise e)
  /\ forall rc out err msg, e <> CalledProcessError rc out err msg.

(* ================================================================== *)
(** * Properties *)
(* ================================================================== *)

(** ** Equations of the monad *)

Section MonadFacts.
Context {W Self : Type}.

Lemma bind_ret_eq {A B} (m : M W Self A) (k : A -> M W Self B) s a s' :
  m s = (Ret a, s') -> bind m k s = k a s'.
Proof. intros Hm. unfold bind. now rewrite Hm. Qed.

Lemma bind_raise_eq {A B} (m : M W Self A) (k : A -> M W Self B) s e s' :
  m s = (Raise e, s') -> bind m k s = (Raise e, s').
Proof. intros Hm. unfold bind. now rewrite Hm. Qed.

Lemma try_ret_eq {A} (m : M W Self A) h s a s' :
  m s = (Ret a, s') -> try_except m h s = (Ret a, s').
Proof. intros Hm. unfold try_except. now rewrite Hm. Qed.

Lemma try_caught_eq {A} (m : M W Self A) h s e s' k :
  m s = (Raise e, s') -> h e = Some k -> try_except m h s = k s'.
Proof. intros Hm Hh. unfold try_except. now rewrite Hm, Hh. Qed.

Lemma try_uncaught_eq {A} (m : M W Self A) h s e s' :
  m s = (Raise e, s') -> h e = None -> try_except m h s = (Raise e, s').
Proof. intros Hm Hh. unfold try_except. now rewrite Hm, Hh. Qed.

(** A handler that catches everything and returns a value leaves no
    exception. *)
Lemma try_catch_all_returns {A} (m : M W Self A) (v : A) s :
  exists a s', try_except m (fun _ => Some (ret v)) s = (Ret a, s').
Proof.
  unfold try_except. destruct (m s) as [[a|e] s'].
  - now exists a, s'.
  - now exists v, s'.
Qed.
End MonadFacts.

(** ** C1: the stage loop stops at the first failing stage *)

Lemma run_stages_prefix (S : Type) (pre rest : list (string * action S)) :
  forall calls s s1,
    all_succeed pre s = Some s1 ->
    run_stages (pre ++ rest) calls s
    = run_stages rest (calls ++ map fst pre)%list s1.
Proof.
  induction pre as [|[label fn] pre IH]; intros calls s s1 Hpre; simpl in *.
  - inversion Hpre; subst. now rewrite app_nil_r.
  - destruct (fn s) as [[[|]|e] s'] eqn:Hfn; try discriminate.
    rewrite (IH _ _ _ Hpre). now rewrite <- app_assoc.
Qed.

(** C1.  Whenever the stages before stage [label] all return [True]
    and the action of [label] returns [False], the loop of
    [UpdateDeployer.run] has invoked exactly the stages up to [label],
    once each and in order (ghost log [calls]), stops in the state that
    [label] left (no later stage has run), and reports
    [all_passed = False] with [failed_at = label]. *)
Theorem stage_loop_stops_at_first_failure :
  forall (S : Type) (pre post : list (string * action S)) (label : string)
         (fn : action S) (calls : list string) (s s1 s2 : S),
    all_succeed pre s = Some s1 ->
    fn s1 = (Ret false, s2) ->
    run_stages (pre ++ (label, fn) :: post) calls s
    = (Ret (mkLoop false (Some label)), (calls ++ map fst pre ++ [label])%list, s2).
Proof.
  intros S pre post label fn calls s s1 s2 Hpre Hfn.
  rewrite (run_stages_prefix pre _ calls s Hpre). simpl.
  rewrite Hfn. now rewrite app_assoc.
Qed.

Lemma stage_loop_stops_at_first_failure_witness :
  all_succeed [("A", named_stage "A" true)] [] = Some ["A"]
  /\ named_stage "B" false ["A"] = (Ret false, ["A"; "B"])
  /\ run_stages [("A", named_stage "A" true); ("B", named_stage "B" false);
                 ("C", named_stage "C" true)] [] []
     = (Ret (mkLoop false (Some "B")), ["A"; "B"], ["A"; "B"]).
Proof.
  split; [reflexivity|]. split; [reflexivity|].
  apply (@stage_loop_stops_at_first_failure (list string)
           [("A", named_stage "A" true)] [("C", named_stage "C" true)]
           "B" (named_stage "B" false) [] [] ["A"] ["A"; "B"]); reflexivity.
Defined.

(** ** C2: the command executor *)

Lemma py_strip_empty : py_strip "" = "".
Proof. reflexivity. Qed.

(** C2 (amended).  When [subprocess.run] raises, [run] converts a
    [CalledProcessError] (the command ran and exited non-zero) into the
    triple [(False, stdout.strip(), stderr.strip())], with [str(exc)] in
    place of an empty or missing stderr; every other exception, the
    [OSError] of a command that cannot be started included, leaves [run]
    as it was raised. *)
Theorem run_converts_nonzero_exit_only :
  forall (W Self : Type) (E : Env W) (cmd : list string) (s : state W Self)
         (e : exn) (w' : W),
    subprocess_run (Argv cmd) None (world s) = (Raise e, w') ->
    UpdateAwsDeployment.run cmd s
    = (match e with
       | CalledProcessError rc out err msg =>
           Ret (false,
                match out with Some o => py_strip o | None => "" end,
                match err with
                | Some x => if is_empty x then msg else py_strip x
                | None => msg
                end)
       | _ => Raise e
       end,
       mkState w' (self s) (EvSubprocess (Argv cmd) :: trace s)).
Proof.
  intros W Self E cmd s e w' Hrun.
  unfold UpdateAwsDeployment.run, try_except, bind, do_subprocess, external.
  rewrite Hrun.
  destruct e; try reflexivity.
  unfold ret. simpl.
  destruct stdout as [o|]; [destruct o|]; reflexivity.
Qed.

Lemma run_converts_nonzero_exit_only_witness :
  let s := Scripted.start failing_tool tt in
  subprocess_run (Argv ["docker"; "info"]) None (world s)
  = (Raise (exits_nonzero " denied
"), failing_tool)
  /\ UpdateAwsDeployment.run ["docker"; "info"] s
     = (Ret (false, "", "denied"),
        mkState failing_tool tt [EvSubprocess (Argv ["docker"; "info"])]).
Proof.
  split; [reflexivity|].
  exact (@run_converts_nonzero_exit_only Scripted.sim unit _ ["docker"; "info"]
           (Scripted.start failing_tool tt) _ failing_tool eq_refl).
Defined.

(** C2 as stated fails: with an executable that does not exist,
    [subprocess.run] raises [FileNotFoundError] and [run] returns no
    triple at all. *)
Lemma run_missing_executable_raises :
  let s := Scripted.start missing_tool tt in
  subprocess_run (Argv ["docker"; "info"]) None (world s) = (Raise no_such_file, missing_tool)
  /\ fst (UpdateAwsDeployment.run ["docker"; "info"] s) = Raise no_such_file
  /\ ~ (exists out err s',
          UpdateAwsDeployment.run ["docker"; "info"] s = (Ret (false, out, err), s')).
Proof.
  split; [reflexivity|]. split; [reflexivity|].
  intros (out & err & s' & Heq). discriminate Heq.
Qed.

(** ** C3 and C4: the retrying verifiers *)

Lemma length_py_range lo hi : length (py_range lo hi) = Z.to_nat (hi - lo).
Proof. unfold py_range. now rewrite length_map, length_seq. Qed.

Lemma py_range_cons lo hi :
  lo < hi -> py_range lo hi = lo :: py_range (lo + 1) hi.
Proof.
  intros Hlt. unfold py_range.
  replace (Z.to_nat (hi - lo)) with (S (Z.to_nat (hi - (lo + 1)))) by lia.
  rewrite <- cons_seq. simpl. f_equal; [lia|].
  rewrite <- seq_shift, map_map. apply map_ext. intros i. lia.
Qed.

Section HealthCheck.
Context {W : Type} `{Env W}.

Lemma probe_url_eq url (s : state W UpdateAwsDeployment.deployer) :
  UpdateAwsDeployment.probe_url url s
  = (Ret (if reachable (fst (urlopen url (world s))) then Some true else None),
     after_urlopen url s).
Proof.
  unfold UpdateAwsDeployment.probe_url, try_except, bind, do_urlopen, external,
    after_urlopen, reachable.
  destruct (urlopen url (world s)) as [[status|e] w1]; simpl.
  - destruct ((status =? 200) || (status =? 301) || (status =? 302)); reflexivity.
  - destruct e; try reflexivity.
    destruct ((code =? 400) || (code =? 403) || (code =? 404) || (code =? 405));
      reflexivity.
Qed.

Lemma health_attempt_reachable url n d i (s : state W UpdateAwsDeployment.deployer) :
  reachable (fst (urlopen url (world s))) = true ->
  UpdateAwsDeployment.health_attempt url n d i s = (Ret (Some true), after_urlopen url s).
Proof.
  intros Hr. unfold UpdateAwsDeployment.health_attempt.
  rewrite (bind_ret_eq _ _ _ (probe_url_eq url s)). now rewrite Hr.
Qed.

Lemma health_attempt_transient url n d i (s : state W UpdateAwsDeployment.deployer) :
  reachable (fst (urlopen url (world s))) = false ->
  UpdateAwsDeployment.health_attempt url n d i s
  = (Ret None, if i <? n then after_sleep d (after_urlopen url s) else after_urlopen url s).
Proof.
  intros Hr. unfold UpdateAwsDeployment.health_attempt.
  rewrite (bind_ret_eq _ _ _ (probe_url_eq url s)). rewrite Hr.
  destruct (i <? n); reflexivity.
Qed.

Lemma health_attempts_all_transient url n d :
  (forall w, reachable (fst (urlopen url w)) = false) ->
  forall (xs : list Z) (s : state W UpdateAwsDeployment.deployer),
  exists s',
    for_each xs (UpdateAwsDeployment.health_attempt url n d) s = (Ret None, s')
    /\ http_probes (trace s') = (length xs + http_probes (trace s))%nat.
Proof.
  intros Hall xs. induction xs as [|i xs IH]; intros s; simpl.
  - now exists s.
  - rewrite (bind_ret_eq _ _ _ (health_attempt_transient url n d i s (Hall _))).
    destruct (IH (if i <? n then after_sleep d (after_urlopen url s)
                  else after_urlopen url s)) as (s' & Hrun & Hcount).
    exists s'. split; [exact Hrun|]. rewrite Hcount.
    destruct (i <? n); simpl; lia.
Qed.

Lemma health_check_exhausted url n d :
  0 <= n ->
  (forall w, reachable (fst (urlopen url w)) = false) ->
  forall s : state W UpdateAwsDeployment.deployer,
  exists s',
    UpdateAwsDeployment.health_check url n d s = (Ret false, s')
    /\ http_probes (trace s') = (Z.to_nat n + http_probes (trace s))%nat.
Proof.
  intros Hn Hall s. unfold UpdateAwsDeployment.health_check.
  destruct (health_attempts_all_transient url n d Hall (py_range 1 (n + 1)) s)
    as (s' & Hrun & Hcount).
  exists s'. rewrite (bind_ret_eq _ _ _ Hrun). split; [reflexivity|].
  rewrite Hcount, length_py_range. f_equal. lia.
Qed.
End HealthCheck.

Section VerifyDeployment.
Context {W Self : Type} `{Env W}.

Lemma probe_domain_transient domain (s : state W Self) :
  domain_transient (fst (requests_get ("https://" ++ domain) (world s))) = true ->
  Route53CloudfrontDeploy.probe_domain domain s
  = (Ret None, after_requests_get ("https://" ++ domain) s).
Proof.
  unfold Route53CloudfrontDeploy.probe_domain, try_except, bind, do_requests_get,
    external, after_requests_get, domain_transient.
  destruct (requests_get ("https://" ++ domain) (world s)) as [[status|e] w1]; simpl.
  - destruct (status =? 200); [discriminate|reflexivity].
  - destruct e; try discriminate. reflexivity.
Qed.

Lemma probe_domain_ok domain (s : state W Self) w1 :
  requests_get ("https://" ++ domain) (world s) = (Ret 200, w1) ->
  Route53CloudfrontDeploy.probe_domain domain s
  = (Ret (Some true), after_requests_get ("https://" ++ domain) s).
Proof.
  intros Hget.
  unfold Route53CloudfrontDeploy.probe_domain, try_except, bind, do_requests_get,
    external, after_requests_get.
  now rewrite Hget.
Qed.

Lemma verify_attempt_transient domain n d i (s : state W Self) :
  domain_transient (fst (requests_get ("https://" ++ domain) (world s))) = true ->
  Route53CloudfrontDeploy.verify_attempt domain n d i s
  = (Ret None,
     if i <? n then after_sleep d (after_requests_get ("https://" ++ domain) s)
     else after_requests_get ("https://" ++ domain) s).
Proof.
  intros Ht. unfold Route53CloudfrontDeploy.verify_attempt.
  rewrite (bind_ret_eq _ _ _ (probe_domain_transient domain s Ht)).
  destruct (i <? n); reflexivity.
Qed.

Lemma verify_attempts_all_transient domain n d :
  (forall w, domain_transient (fst (requests_get ("https://" ++ domain) w)) = true) ->
  forall (xs : list Z) (s : state W Self),
  exists s',
    for_each xs (Route53CloudfrontDeploy.verify_attempt domain n d) s = (Ret None, s')
    /\ http_probes (trace s') = (length xs + http_probes (trace s))%nat.
Proof.
  intros Hall xs. induction xs as [|i xs IH]; intros s; simpl.
  - now exists s.
  - rewrite (bind_ret_eq _ _ _ (verify_attempt_transient domain n d i s (Hall _))).
    destruct (IH (if i <? n
                  then after_sleep d (after_requests_get ("https://" ++ domain) s)
                  else after_requests_get ("https://" ++ domain) s))
      as (s' & Hrun & Hcount).
    exists s'. split; [exact Hrun|]. rewrite Hcount.
    destruct (i <? n); simpl; lia.
Qed.

Lemma verify_deployment_exhausted domain n d :
  0 <= n ->
  (forall w, domain_transient (fst (requests_get ("https://" ++ domain) w)) = true) ->
  forall s : state W Self,
  exists s',
    Route53CloudfrontDeploy.verify_deployment domain n d s = (Ret false, s')
    /\ http_probes (trace s') = (Z.to_nat n + http_probes (trace s))%nat.
Proof.
  intros Hn Hall s. unfold Route53CloudfrontDeploy.verify_deployment.
  destruct (verify_attempts_all_transient domain n d Hall (py_range 1 (n + 1)) s)
    as (s' & Hrun & Hcount).
  exists s'. rewrite (bind_ret_eq _ _ _ Hrun). split; [reflexivity|].
  rewrite Hcount, length_py_range. f_equal. lia.
Qed.
End VerifyDeployment.

Section AppRunnerPoll.
Context {W : Type} `{Env W}.

Lemma wait_for_running_exhausted (arn : pyval) :
  (forall w, service_pending
               (fst (boto3_call "apprunner" "describe_service"
                       (kw [("ServiceArn", arn)]) w)) = true) ->
  forall (n : nat) (s : state W DeployToAppRunner.deployer),
  exists s',
    DeployToAppRunner.wait_for_running n arn s
    = (Raise (Exception "Service deployment timeout"), s')
    /\ boto_calls "apprunner" "describe_service" (trace s')
       = (n + boto_calls "apprunner" "describe_service" (trace s))%nat.
Proof.
  intros Hall n. induction n as [|n IH]; intros s.
  - exists s. split; reflexivity.
  - specialize (Hall (world s)).
    cbn [DeployToAppRunner.wait_for_running].
    unfold bind at 1. unfold boto, external.
    destruct (boto3_call "apprunner" "describe_service" (kw [("ServiceArn", arn)]) (world s))
      as [[info|e] w1] eqn:Hcall; simpl in Hall; [|discriminate].
    unfold bind, lift.
    destruct (getitem info "Service") as [svc|e]; [|discriminate].
    destruct (getitem svc "Status") as [status|e]; [|discriminate].
    destruct (eq_str status "RUNNING"); [discriminate|].
    destruct (eq_str status "CREATE_FAILED"); [discriminate|].
    destruct (eq_str status "UPDATE_FAILED"); [discriminate|].
    destruct (eq_str status "DELETE_FAILED"); [discriminate|].
    cbn [orb]. unfold sleep, external_total, external. cbn [world self trace].
    match goal with
    | |- context [DeployToAppRunner.wait_for_running n arn ?s1] =>
        destruct (IH s1) as (s' & Hrun & Hcount)
    end.
    exists s'. split; [exact Hrun|].
    rewrite Hcount. cbn. lia.
Qed.
End AppRunnerPoll.







(** ** C9: stage 4 ignores the result of the Docker Hub login *)

Section Stage04.
Context {W : Type} `{Env W}.
Import UpdateAwsDeployment.

Local Abbreviation St := (state W deployer).

Lemma run_eq {Self} (cmd : list string) (s : state W Self) :
  run cmd s
  = (run_outcome (fst (subprocess_run (Argv cmd) None (world s))), after_command cmd s).
Proof.
  unfold run, try_except, bind, do_subprocess, external, after_command, run_outcome.
  destruct (subprocess_run (Argv cmd) None (world s)) as [[[out err]|e] w1]; cbn.
  - reflexivity.
  - destruct e; try reflexivity.
    destruct stdout as [o|]; [destruct o|]; reflexivity.
Qed.

Lemma run_succeeds {Self} (cmd : list string) (s : state W Self) :
  (exists out w', subprocess_run (Argv cmd) None (world s) = (Ret out, w')) ->
  exists out err, run cmd s = (Ret (true, out, err), after_command cmd s).
Proof.
  intros ([out err] & w' & Hrun). rewrite run_eq, Hrun. cbn. eauto.
Qed.

(** [run] reports a failure only for a command that exited non-zero. *)
Lemma run_false_inv {Self} (cmd : list string) (s : state W Self) out err s' :
  run cmd s = (Ret (false, out, err), s') ->
  s' = after_command cmd s
  /\ exists rc o e m,
       fst (subprocess_run (Argv cmd) None (world s)) = Raise (CalledProcessError rc o e m).
Proof.
  rewrite run_eq. intros Heq. inversion Heq as [[Hout Hs]]. split; [reflexivity|].
  destruct (fst (subprocess_run (Argv cmd) None (world s))) as [[o e]|e]; cbn in Hout.
  - discriminate.
  - destruct e; try discriminate. eauto.
Qed.

Ltac step_run :=
  unfold bind at 1; rewrite run_eq;
  match goal with
  | |- context [run_outcome ?o] =>
      let ok := fresh "ok" in
      let e := fresh "e" in
      destruct (run_outcome o) as [[[ok ?] ?]|e] eqn:?; [destruct ok|]; cbn [negb]
  end.

Lemma push_image_inv img (s : St) r s' :
  push_image img s = (r, s') ->
  self s' = self s
  /\ match r with
     | Ret None =>
         commands_run (trace s') = (commands_run (trace s) ++ map Argv (image_cmds img))%list
     | Ret (Some ok) =>
         ok = false
         /\ exists cmd s0 rc o e m,
              In cmd (image_cmds img)
              /\ s' = after_command cmd s0
              /\ fst (subprocess_run (Argv cmd) None (world s0))
                 = Raise (CalledProcessError rc o e m)
     | Raise e =>
         exists cmd (s0 : St),
           In cmd (image_cmds img)
           /\ fst (subprocess_run (Argv cmd) None (world s0)) = Raise e
     end.
Proof.
  destruct img as [[local_tag hub_tag] hub_latest_tag].
  unfold push_image.
  assert (Hraise : forall (cmd : list string) (s0 : St) e,
             run_outcome (fst (subprocess_run (Argv cmd) None (world s0))) = Raise e ->
             fst (subprocess_run (Argv cmd) None (world s0)) = Raise e).
  { intros cmd s0 e Hout.
    destruct (fst (subprocess_run (Argv cmd) None (world s0))) as [[o e']|e'];
      cbn in Hout; [discriminate|].
    destruct e'; try discriminate; inversion Hout; reflexivity. }
  assert (Hfail : forall (cmd : list string) (s0 : St) b out err,
             run_outcome (fst (subprocess_run (Argv cmd) None (world s0)))
             = Ret (b, out, err) -> b = false ->
             exists rc o e m,
               fst (subprocess_run (Argv cmd) None (world s0))
               = Raise (CalledProcessError rc o e m)).
  { intros cmd s0 b out err Hout Hb. subst b.
    destruct (fst (subprocess_run (Argv cmd) None (world s0))) as [[o e]|e];
      cbn in Hout; [discriminate|].
    destruct e; try discriminate. eauto. }
  step_run.
  2:{ intros Heq; inversion Heq; subst. split; [reflexivity|]. split; [reflexivity|].
      match goal with
      | Hout : run_outcome _ = Ret (false, _, _) |- _ =>
          destruct (Hfail _ _ _ _ _ Hout eq_refl) as (rc & o & e & m & Hcpe)
      end.
      do 6 eexists. split; [|split; [reflexivity|exact Hcpe]]. cbn. auto. }
  2:{ intros Heq; inversion Heq; subst. split; [reflexivity|].
      do 2 eexists. split; [|eapply Hraise; eassumption]. cbn. auto. }
  step_run.
  2:{ intros Heq; inversion Heq; subst. split; [reflexivity|]. split; [reflexivity|].
      match goal with
      | Hout : run_outcome _ = Ret (false, _, _) |- _ =>
          destruct (Hfail _ _ _ _ _ Hout eq_refl) as (rc & o & e & m & Hcpe)
      end.
      do 6 eexists. split; [|split; [reflexivity|exact Hcpe]]. cbn. auto. }
  2:{ intros Heq; inversion Heq; subst. split; [reflexivity|].
      do 2 eexists. split; [|eapply Hraise; eassumption]. cbn. auto. }
  step_run.
  2:{ intros Heq; inversion Heq; subst. split; [reflexivity|]. split; [reflexivity|].
      match goal with
      | Hout : run_outcome _ = Ret (false, _, _) |- _ =>
          destruct (Hfail _ _ _ _ _ Hout eq_refl) as (rc & o & e & m & Hcpe)
      end.
      do 6 eexists. split; [|split; [reflexivity|exact Hcpe]]. cbn. auto. }
  2:{ intros Heq; inversion Heq; subst. split; [reflexivity|].
      do 2 eexists. split; [|eapply Hraise; eassumption]. cbn. auto. }
  step_run.
  2:{ intros Heq; inversion Heq; subst. split; [reflexivity|]. split; [reflexivity|].
      match goal with
      | Hout : run_outcome _ = Ret (false, _, _) |- _ =>
          destruct (Hfail _ _ _ _ _ Hout eq_refl) as (rc & o & e & m & Hcpe)
      end.
      do 6 eexists. split; [|split; [reflexivity|exact Hcpe]]. cbn. auto. }
  2:{ intros Heq; inversion Heq; subst. split; [reflexivity|].
      do 2 eexists. split; [|eapply Hraise; eassumption]. cbn. auto. }
  intros Heq; inversion Heq; subst. split; [reflexivity|].
  cbn. repeat rewrite <- app_assoc. reflexivity.
Qed.

Lemma push_image_ok img (s : St) :
  (forall cmd w, In cmd (image_cmds img) ->
                 exists out w', subprocess_run (Argv cmd) None w = (Ret out, w')) ->
  exists s',
    push_image img s = (Ret None, s')
    /\ self s' = self s
    /\ commands_run (trace s')
       = (commands_run (trace s) ++ map Argv (image_cmds img))%list.
Proof.
  intros Hok. destruct (push_image img s) as [r s'] eqn:Hrun.
  destruct (push_image_inv img s Hrun) as [Hself Hr].
  destruct r as [[ok|]|e].
  - destruct Hr as (_ & cmd & s0 & rc & o & e & m & Hin & _ & Hcpe).
    destruct (Hok cmd (world s0) Hin) as (out & w' & Hret).
    rewrite Hret in Hcpe. discriminate.
  - exists s'. auto.
  - destruct Hr as (cmd & s0 & Hin & Hraise).
    destruct (Hok cmd (world s0) Hin) as (out & w' & Hret).
    rewrite Hret in Hraise. discriminate.
Qed.
End Stage04.



(** ** C7: the version and the image tag *)

Section Keeps.
Context {W Self X : Type} (proj : Self -> X).

Local Abbreviation Ms := (M W Self).

Lemma keeps_ret {A} (a : A) : keeps proj (ret a : Ms A).
Proof. intros s. reflexivity. Qed.

Lemma keeps_raise {A} e : keeps proj (raise e : Ms A).
Proof. intros s. reflexivity. Qed.

Lemma keeps_lift {A} (o : outcome A) : keeps proj (lift o : Ms A).
Proof. intros s. reflexivity. Qed.

Lemma keeps_get_self : keeps proj (get_self : Ms Self).
Proof. intros s. reflexivity. Qed.

Lemma keeps_external {A} ev (op : W -> outcome A * W) : keeps proj (external ev op : Ms A).
Proof. intros s. unfold external. now destruct (op (world s)). Qed.

Lemma keeps_unlogged {A} (op : W -> A * W) : keeps proj (unlogged op : Ms A).
Proof. intros s. unfold unlogged. now destruct (op (world s)). Qed.

Lemma keeps_set_self (f : Self -> Self) :
  (forall d, proj (f d) = proj d) -> keeps proj (set_self f : Ms unit).
Proof. intros Hf s. apply Hf. Qed.

Lemma keeps_bind {A B} (m : Ms A) (k : A -> Ms B) :
  keeps proj m -> (forall a, keeps proj (k a)) -> keeps proj (bind m k).
Proof.
  intros Hm Hk s. unfold bind. specialize (Hm s).
  destruct (m s) as [[a|e] s1]; cbn in *.
  - now rewrite (Hk a s1).
  - exact Hm.
Qed.

Lemma keeps_try {A} (m : Ms A) h :
  keeps proj m -> (forall e k, h e = Some k -> keeps proj k) ->
  keeps proj (try_except m h).
Proof.
  intros Hm Hh s. unfold try_except. specialize (Hm s).
  destruct (m s) as [[a|e] s1]; cbn in *; [exact Hm|].
  destruct (h e) as [k|] eqn:Hhe; cbn; [|exact Hm].
  now rewrite (Hh e k Hhe s1).
Qed.

Lemma keeps_for_each {Y R} (xs : list Y) (body : Y -> Ms (option R)) :
  (forall x, keeps proj (body x)) -> keeps proj (for_each xs body).
Proof.
  intros Hbody. induction xs as [|x xs IH]; cbn [for_each].
  - apply keeps_ret.
  - apply keeps_bind; [apply Hbody|]. intros [r|]; [apply keeps_ret|exact IH].
Qed.

Context `{Env W}.

Lemma keeps_boto service op kwargs : keeps proj (boto service op kwargs : Ms pyval).
Proof. apply keeps_external. Qed.

Lemma keeps_waiter service name kwargs :
  keeps proj (waiter_wait service name kwargs : Ms unit).
Proof. apply keeps_external. Qed.

Lemma keeps_sleep secs : keeps proj (sleep secs : Ms unit).
Proof. apply keeps_external. Qed.

Lemma keeps_now : keeps proj (now : Ms Z).
Proof. apply keeps_unlogged. Qed.

Lemma keeps_subprocess cmd input : keeps proj (do_subprocess cmd input : Ms _).
Proof. apply keeps_external. Qed.

Lemma keeps_urlopen url : keeps proj (do_urlopen url : Ms Z).
Proof. apply keeps_external. Qed.
End Keeps.

Create HintDb keeps discriminated.
#[global] Hint Resolve keeps_ret keeps_raise keeps_lift keeps_get_self keeps_external
  keeps_unlogged keeps_boto keeps_waiter keeps_sleep keeps_now keeps_subprocess
  keeps_urlopen : keeps.

Ltac keeps_step :=
  match goal with
  | |- keeps _ (bind _ _) => apply keeps_bind; [|intros ?]
  | |- keeps _ (try_except _ _) =>
      apply keeps_try;
      [|let e := fresh "e" in
        let k := fresh "k" in
        let Hk := fresh "Hk" in
        intros e k Hk; destruct e; cbn in Hk;
        repeat match type of Hk with
               | context [if ?b then _ else _] => destruct b
               end;
        try discriminate Hk; inversion Hk; subst k; clear Hk]
  | |- keeps _ (for_each _ _) => apply keeps_for_each; intros ?
  | |- keeps _ (set_self _) => apply keeps_set_self; intros ?; reflexivity
  | |- keeps _ (match ?x with _ => _ end) => destruct x
  | |- keeps _ _ => solve [auto with keeps]
  end.

Ltac keeps_auto := repeat keeps_step.

Section StagesKeepTag.
Context {W : Type} `{Env W}.
Import UpdateAwsDeployment.

Lemma keeps_run {Self X} (proj : Self -> X) cmd : keeps proj (run cmd : M W Self _).
Proof. unfold run, do_subprocess. keeps_auto. Qed.
End StagesKeepTag.

#[global] Hint Resolve keeps_run : keeps.

Section LaterStagesKeepTag.
Context {W : Type} `{Env W}.
Import UpdateAwsDeployment.

Lemma keeps_stage_02 : keeps_tag stage_02_build_app_container.
Proof. unfold stage_02_build_app_container. keeps_auto. Qed.

Lemma keeps_stage_03 : keeps_tag stage_03_build_db_init_container.
Proof. unfold stage_03_build_db_init_container. keeps_auto. Qed.

Lemma keeps_stage_04 : keeps_tag stage_04_push_to_dockerhub.
Proof. unfold stage_04_push_to_dockerhub, push_image. keeps_auto. Qed.

Lemma keeps_stage_05 : keeps_tag stage_05_ecr_auth.
Proof. unfold stage_05_ecr_auth. keeps_auto. Qed.

Lemma keeps_stage_06 : keeps_tag stage_06_build_and_push_ecr.
Proof. unfold stage_06_build_and_push_ecr. keeps_auto. Qed.

Lemma keeps_stage_07 : keeps_tag stage_07_update_lambda.
Proof. unfold stage_07_update_lambda, any_exception_is_false. keeps_auto. Qed.

Lemma keeps_stage_08 : keeps_tag stage_08_verify_api_gateway.
Proof. unfold stage_08_verify_api_gateway, any_exception_is_false. keeps_auto. Qed.

Lemma keeps_stage_09 : keeps_tag stage_09_invalidate_cloudfront.
Proof. unfold stage_09_invalidate_cloudfront, any_exception_is_false. keeps_auto. Qed.

Lemma keeps_stage_10 : keeps_tag stage_10_verify_route53.
Proof.
  unfold stage_10_verify_route53, any_exception_is_false, alias_target. keeps_auto.
Qed.

Lemma keeps_health_check url n d : keeps_tag (health_check url n d).
Proof. unfold health_check, health_attempt, probe_url. keeps_auto. Qed.
End LaterStagesKeepTag.

Lemma extends_refl tr : extends tr tr.
Proof. now exists []. Qed.

Lemma extends_cons ev tr tr0 : extends tr tr0 -> extends (ev :: tr) tr0.
Proof. intros [more ->]. now exists (ev :: more). Qed.

(** Case analysis on the next call of [run]. *)
Ltac run_cases :=
  unfold bind at 1; rewrite run_eq;
  match goal with
  | |- context [run_outcome ?o] =>
      let ok := fresh "ok" in
      let e := fresh "e" in
      destruct (run_outcome o) as [[[ok ?] ?]|e] eqn:?; [destruct ok|]; cbn [negb]
  end.

Section Stage01.
Context {W : Type} `{Env W}.
Import UpdateAwsDeployment.

Local Abbreviation St := (state W deployer).

Lemma stage_01_unreadable (s : St) e :
  fst (read_json PACKAGE_JSON_PATH (world s)) = Raise e ->
  is_OSError e = true \/ (exists m, e = JSONDecodeError m) ->
  stage_01_read_version s = (Ret false, after_read_json PACKAGE_JSON_PATH s).
Proof.
  intros Hread Hkind.
  unfold stage_01_read_version, try_except, bind, load_json, external, after_read_json.
  destruct (read_json PACKAGE_JSON_PATH (world s)) as [o w1]. cbn in Hread. subst o.
  destruct Hkind as [Hos|[m ->]]; [|reflexivity].
  destruct e; try discriminate Hos; reflexivity.
Qed.

Lemma stage_01_object (s : St) items raw :
  fst (read_json PACKAGE_JSON_PATH (world s)) = Ret (PDict items) ->
  version_entry items = PStr raw ->
  stage_01_read_version s
  = if is_empty (py_strip raw)
    then (Ret false, after_read_json PACKAGE_JSON_PATH s)
    else (Ret true,
          mkState (snd (read_json PACKAGE_JSON_PATH (world s)))
            (mkDeployer (py_strip raw) ("v" ++ py_strip raw) (ecr_image_uri (self s)))
            (EvReadJson PACKAGE_JSON_PATH :: trace s)).
Proof.
  intros Hread Hversion.
  unfold stage_01_read_version, try_except, bind, load_json, external, after_read_json.
  destruct (read_json PACKAGE_JSON_PATH (world s)) as [o w1]. cbn in Hread. subst o.
  unfold lift, dict_get. fold (version_entry items). rewrite Hversion. cbn [str_strip].
  destruct (is_empty (py_strip raw)); reflexivity.
Qed.

Lemma stage_06_uses_tag (s : St) r s' :
  stage_06_build_and_push_ecr s = (r, s') ->
  ecr_image_uri (self s') = ECR_FULL_URI ++ ":" ++ image_tag (self s)
  /\ extends (trace s')
       (EvSubprocess
          (Argv (build_cmd (ECR_REPO_NAME ++ ":" ++ image_tag (self s)) "Dockerfile.lambda"))
        :: trace s).
Proof.
  unfold stage_06_build_and_push_ecr.
  unfold bind at 1. unfold get_self at 1. unfold bind at 1. unfold set_self at 1.
  cbn [world self trace version image_tag ecr_image_uri].
  repeat run_cases;
    unfold ret; intros Heq; inversion Heq; subst; clear Heq;
    cbn [after_command trace self ecr_image_uri world];
    (split; [reflexivity|]; repeat first [apply extends_refl | apply extends_cons]).
Qed.
End Stage01.

(** C7 (amended).  Stage 1 reads [package.json] once.  It returns
    [False] when the file cannot be read ([OSError]) or is not valid
    JSON, and, for a JSON object, when the ["version"] entry is missing
    or is a string that is empty once stripped of surrounding
    whitespace.  For a JSON object whose ["version"] is a string with
    other content, it returns [True] and sets [version] to the stripped
    string and [image_tag] to ["v"] followed by it.  That tag names the
    image built by stages 2, 3 and 6 and the ECR image URI recorded by
    stage 6, and no stage after the first changes it. *)
Theorem stage_01_version_and_tag :
  forall (W : Type) (E : Env W) (s : state W UpdateAwsDeployment.deployer),
    let path := UpdateAwsDeployment.PACKAGE_JSON_PATH in
    let tag := UpdateAwsDeployment.image_tag (self s) in
    (forall e,
       fst (read_json path (world s)) = Raise e ->
       is_OSError e = true \/ (exists m, e = JSONDecodeError m) ->
       UpdateAwsDeployment.stage_01_read_version s = (Ret false, after_read_json path s))
    /\ (forall items raw,
          fst (read_json path (world s)) = Ret (PDict items) ->
          version_entry items = PStr raw ->
          UpdateAwsDeployment.stage_01_read_version s
          = if is_empty (py_strip raw)
            then (Ret false, after_read_json path s)
            else (Ret true,
                  mkState (snd (read_json path (world s)))
                    (UpdateAwsDeployment.mkDeployer (py_strip raw) ("v" ++ py_strip raw)
                       (UpdateAwsDeployment.ecr_image_uri (self s)))
                    (EvReadJson path :: trace s)))
    /\ snd (UpdateAwsDeployment.stage_02_build_app_container s)
       = after_command
           (UpdateAwsDeployment.build_cmd
              (UpdateAwsDeployment.DOCKER_APP_IMAGE ++ ":" ++ tag) "Dockerfile") s
    /\ snd (UpdateAwsDeployment.stage_03_build_db_init_container s)
       = after_command
           (UpdateAwsDeployment.build_cmd
              (UpdateAwsDeployment.DOCKER_DB_INIT_IMAGE ++ ":" ++ tag) "Dockerfile.db") s
    /\ (forall r s',
          UpdateAwsDeployment.stage_06_build_and_push_ecr s = (r, s') ->
          UpdateAwsDeployment.ecr_image_uri (self s')
          = UpdateAwsDeployment.ECR_FULL_URI ++ ":" ++ tag
          /\ extends (trace s')
               (EvSubprocess
                  (Argv (UpdateAwsDeployment.build_cmd
                           (UpdateAwsDeployment.ECR_REPO_NAME ++ ":" ++ tag)
                           "Dockerfile.lambda"))
                :: trace s))
    /\ Forall (fun stage : string * action (state W UpdateAwsDeployment.deployer) =>
                 keeps_tag (snd stage))
         (tl UpdateAwsDeployment.stages).
Proof.
  intros W E s path tag. subst path tag.
  split; [|split; [|split; [|split; [|split]]]].
  - intros e. apply stage_01_unreadable.
  - intros items raw. apply stage_01_object.
  - unfold UpdateAwsDeployment.stage_02_build_app_container.
    unfold bind at 1. unfold get_self at 1. unfold bind at 1. rewrite run_eq.
    destruct (run_outcome _) as [[[[|] ?] ?]|e]; reflexivity.
  - unfold UpdateAwsDeployment.stage_03_build_db_init_container.
    unfold bind at 1. unfold get_self at 1. unfold bind at 1. rewrite run_eq.
    destruct (run_outcome _) as [[[[|] ?] ?]|e]; reflexivity.
  - intros r s'. apply stage_06_uses_tag.
  - unfold UpdateAwsDeployment.stages. cbn [tl].
    repeat (apply Forall_cons; [cbn [snd]|]); try apply Forall_nil.
    + apply keeps_stage_02.
    + apply keeps_stage_03.
    + apply keeps_stage_04.
    + apply keeps_stage_05.
    + apply keeps_stage_06.
    + apply keeps_stage_07.
    + apply keeps_stage_08.
    + apply keeps_stage_09.
    + apply keeps_stage_10.
    + apply keeps_health_check.
    + apply keeps_health_check.
Qed.

Lemma stage_01_version_and_tag_witness :
  let s := Scripted.start Scripted.healthy UpdateAwsDeployment.init in
  fst (read_json UpdateAwsDeployment.PACKAGE_JSON_PATH (world s))
  = Scripted.package_json "1.2.0"
  /\ UpdateAwsDeployment.stage_01_read_version s
     = (Ret true,
        mkState Scripted.healthy (UpdateAwsDeployment.mkDeployer "1.2.0" "v1.2.0" "")
          [EvReadJson "/srv/code-canvas-astro/package.json"]).
Proof.
  split; [reflexivity|].
  exact (proj1 (proj2 (@stage_01_version_and_tag Scripted.sim _
                         (Scripted.start Scripted.healthy UpdateAwsDeployment.init)))
           [("name", PStr "code-canvas-astro"); ("version", PStr "1.2.0")] "1.2.0"
           eq_refl eq_refl).
Defined.

(** C7 as stated fails.  A ["version"] made of three blanks is a
    non-empty field of a readable, valid [package.json], yet stage 1
    fails; and for the version [" 1.2.0 "] the tag is ["v1.2.0"], not
    ["v"] followed by the version string of the file. *)
Lemma stage_01_blank_and_padded_versions :
  (let s := Scripted.start blank_version UpdateAwsDeployment.init in
   fst (read_json UpdateAwsDeployment.PACKAGE_JSON_PATH (world s))
   = Ret (PDict [("name", PStr "code-canvas-astro"); ("version", PStr "   ")])
   /\ is_empty "   " = false
   /\ fst (UpdateAwsDeployment.stage_01_read_version s) = Ret false)
  /\ (let s := Scripted.start padded_version UpdateAwsDeployment.init in
      fst (read_json UpdateAwsDeployment.PACKAGE_JSON_PATH (world s))
      = Ret (PDict [("name", PStr "code-canvas-astro"); ("version", PStr " 1.2.0 ")])
      /\ fst (UpdateAwsDeployment.stage_01_read_version s) = Ret true
      /\ UpdateAwsDeployment.image_tag
           (self (snd (UpdateAwsDeployment.stage_01_read_version s))) = "v1.2.0"
      /\ UpdateAwsDeployment.image_tag
           (self (snd (UpdateAwsDeployment.stage_01_read_version s))) <> "v" ++ " 1.2.0 ").
Proof.
  vm_compute. repeat split; try reflexivity. intros Heq. discriminate Heq.
Qed.

(** Outside the amended claim: a ["version"] that is not a string makes
    [.strip()] raise [AttributeError], which stage 1 does not catch. *)
Lemma stage_01_numeric_version_raises :
  fst (UpdateAwsDeployment.stage_01_read_version
         (Scripted.start numeric_version UpdateAwsDeployment.init))
  = Raise (AttributeError "object has no attribute 'strip'").
Proof. reflexivity. Qed.

(** ** C10 and C8: the Lambda deployment never raises, and exit codes *)

Lemma bind_assoc_eq {W Self A B C} (m : M W Self A) (k : A -> M W Self B)
    (k' : B -> M W Self C) s :
  bind (bind m k) k' s = bind m (fun a => bind (k a) k') s.
Proof. unfold bind. destruct (m s) as [[a|e] s1]; reflexivity. Qed.

Section LambdaSteps.
Context {W : Type} `{Env W}.
Import DeployToLambda.

Local Abbreviation St := (state W deployer).

Lemma create_s3_bucket_returns (s : St) :
  exists ok s', create_s3_bucket s = (Ret ok, s').
Proof. apply try_catch_all_returns. Qed.

Lemma create_ecr_repository_returns (s : St) :
  exists ok s', create_ecr_repository s = (Ret ok, s').
Proof. apply try_catch_all_returns. Qed.

Lemma create_lambda_execution_role_returns (s : St) :
  exists arn s', create_lambda_execution_role s = (Ret arn, s').
Proof. apply try_catch_all_returns. Qed.

Lemma create_or_update_lambda_function_returns role_arn (s : St) :
  exists arn s', create_or_update_lambda_function role_arn s = (Ret arn, s').
Proof. apply try_catch_all_returns. Qed.

Lemma create_function_url_returns (s : St) :
  exists url s', create_function_url s = (Ret url, s').
Proof. apply try_catch_all_returns. Qed.

Lemma keeps_result_s3 : keeps result create_s3_bucket.
Proof. unfold create_s3_bucket, mark_bucket_created. keeps_auto. Qed.

Lemma keeps_result_ecr : keeps result create_ecr_repository.
Proof. unfold create_ecr_repository, set_ecr_uri. keeps_auto. Qed.

Lemma keeps_result_build : keeps result build_and_push_docker_image.
Proof. unfold build_and_push_docker_image. keeps_auto. Qed.

Lemma keeps_result_role : keeps result create_lambda_execution_role.
Proof. unfold create_lambda_execution_role, put_s3_policy. keeps_auto. Qed.

Lemma keeps_result_function role_arn :
  keeps result (create_or_update_lambda_function role_arn).
Proof. unfold create_or_update_lambda_function. keeps_auto. Qed.

Lemma keeps_result_url : keeps result create_function_url.
Proof. unfold create_function_url, add_public_permission. keeps_auto. Qed.
End LambdaSteps.

Section LambdaDeploy.
Context {W : Type} `{Env W}.
Import DeployToLambda.

Local Abbreviation St := (state W deployer).

Lemma keeps_stays_pristine {A} (m : M W deployer A) :
  keeps result m -> stays_pristine m.
Proof. intros Hk s Hp. now rewrite (Hk s). Qed.

Lemma stays_pristine_bind {A B} (m : M W deployer A) (k : A -> M W deployer B) :
  stays_pristine m -> (forall a, stays_pristine (k a)) -> stays_pristine (bind m k).
Proof.
  intros Hm Hk s Hp. unfold bind. specialize (Hm s Hp).
  destruct (m s) as [[a|e] s1]; cbn in *.
  - now apply Hk.
  - exact Hm.
Qed.

Lemma returns_bind {A B} (m : M W deployer A) (k : A -> M W deployer B) :
  returns m -> (forall a, returns (k a)) -> returns (bind m k).
Proof.
  intros Hm Hk s. destruct (Hm s) as (a & s1 & Ha).
  destruct (Hk a s1) as (b & s2 & Hb). exists b, s2.
  now rewrite (bind_ret_eq _ _ _ Ha).
Qed.

Lemma returns_update f : returns (update_result f : M W deployer unit).
Proof. intros s. now eexists; eexists. Qed.

Lemma stays_pristine_update f :
  (forall r, pristine r -> pristine (f r)) ->
  stays_pristine (update_result f : M W deployer unit).
Proof. intros Hf s Hp. cbn. now apply Hf. Qed.

Lemma step_2_pristine : stays_pristine (record_s3_bucket ;; create_ecr_repository).
Proof.
  apply stays_pristine_bind.
  - apply stays_pristine_update. now intros r.
  - intros _. apply keeps_stays_pristine, keeps_result_ecr.
Qed.

Lemma step_3_pristine :
  stays_pristine (record_ecr_repository ;; build_and_push_docker_image).
Proof.
  apply stays_pristine_bind.
  - apply stays_pristine_bind; [now intros s|].
    intros d. apply stays_pristine_update. now intros r.
  - intros _. apply keeps_stays_pristine, keeps_result_build.
Qed.

Lemma step_4_pristine :
  stays_pristine (record_image_uri ;; create_lambda_execution_role).
Proof.
  apply stays_pristine_bind.
  - apply stays_pristine_bind; [now intros s|].
    intros d. apply stays_pristine_update. now intros r.
  - intros _. apply keeps_stays_pristine, keeps_result_role.
Qed.

Lemma step_6_pristine function_arn :
  stays_pristine (record_function_arn function_arn ;; create_function_url).
Proof.
  apply stays_pristine_bind.
  - apply stays_pristine_update. now intros r.
  - intros _. apply keeps_stays_pristine, keeps_result_url.
Qed.

Lemma step_2_returns : returns (record_s3_bucket ;; create_ecr_repository).
Proof.
  apply returns_bind; [apply returns_update|].
  intros _ s. apply create_ecr_repository_returns.
Qed.

Lemma step_4_returns : returns (record_image_uri ;; create_lambda_execution_role).
Proof.
  apply returns_bind.
  - apply returns_bind; [now intros s; eexists; eexists|].
    intros d. apply returns_update.
  - intros _ s. apply create_lambda_execution_role_returns.
Qed.

Lemma step_6_returns function_arn :
  returns (record_function_arn function_arn ;; create_function_url).
Proof.
  apply returns_bind; [apply returns_update|].
  intros _ s. apply create_function_url_returns.
Qed.

Lemma fail_at_eq step (s : St) :
  exists s',
    fail_at step s = (Ret (set_failed_step (result (self s)) step), s').
Proof. now eexists. Qed.
End LambdaDeploy.

Section LambdaCourse.
Context {W : Type} `{Env W}.
Import DeployToLambda.

Local Abbreviation St := (state W deployer).

Ltac after_step Hpres Hrun Hp :=
  match type of Hrun with
  | ?m ?s = (_, ?s') =>
      assert (Hp : pristine (result (self s')))
        by (let Hk := fresh in
            pose proof (Hpres s) as Hk; rewrite Hrun in Hk; apply Hk; assumption)
  end.

Ltac failed_here name :=
  let Heq := fresh "Heq" in
  intros Heq; cbn in Heq; inversion Heq; subst; clear Heq; right;
  match goal with
  | Hp : pristine (result (self ?s)) |- context [result (self ?s)] =>
      destruct Hp as (? & ? & ?)
  end;
  cbn [success failed_step error set_failed_step];
  split; [assumption|]; split; [assumption|];
  exists name; split; [reflexivity|].

Lemma deploy_steps_course (s0 : St) o s' :
  pristine (result (self s0)) ->
  deploy_steps s0 = (o, s') ->
  match o with
  | Ret r =>
      (success r = true /\ failed_step r = None /\ error r = None
       /\ six_steps_succeed s0)
      \/ (success r = false /\ error r = None
          /\ exists name, failed_step r = Some name /\ step_fails s0 name)
  | Raise e => pristine (result (self s'))
  end.
Proof.
  intros Hp0. unfold deploy_steps.
  (* step 1 *)
  destruct (create_s3_bucket_returns s0) as (ok1 & s1 & H1).
  after_step (keeps_stays_pristine keeps_result_s3) H1 Hp1.
  rewrite (bind_ret_eq _ _ _ H1).
  destruct ok1; cbn [negb].
  2:{ failed_here "S3 Bucket". eapply fails_s3_bucket; eassumption. }
  (* step 2 *)
  rewrite <- (bind_assoc_eq record_s3_bucket (fun _ => create_ecr_repository)).
  destruct (step_2_returns s1) as (ok2 & s2 & H2).
  after_step step_2_pristine H2 Hp2.
  rewrite (bind_ret_eq _ _ _ H2).
  destruct ok2; cbn [negb].
  2:{ failed_here "ECR Repository". eapply fails_ecr_repository; eassumption. }
  (* step 3 *)
  rewrite <- (bind_assoc_eq record_ecr_repository (fun _ => build_and_push_docker_image)).
  destruct ((record_ecr_repository ;; build_and_push_docker_image) s2)
    as [[ok3|e3] s3] eqn:H3.
  2:{ after_step step_3_pristine H3 Hp3.
      rewrite (bind_raise_eq _ _ _ H3). intros Heq. inversion Heq; subst. exact Hp3. }
  after_step step_3_pristine H3 Hp3.
  rewrite (bind_ret_eq _ _ _ H3).
  assert (R2 : reached_2 s0 s2) by (exists s1; split; assumption).
  destruct ok3; cbn [negb].
  2:{ failed_here "Docker Build". eapply fails_docker_build; eassumption. }
  assert (R3 : reached_3 s0 s3) by (exists s2; split; assumption).
  (* step 4 *)
  rewrite <- (bind_assoc_eq record_image_uri (fun _ => create_lambda_execution_role)).
  destruct (step_4_returns s3) as (role_arn & s4 & H4).
  after_step step_4_pristine H4 Hp4.
  rewrite (bind_ret_eq _ _ _ H4).
  destruct (truthy role_arn) eqn:T4; cbn [negb].
  2:{ failed_here "IAM Role". eapply fails_iam_role; eassumption. }
  assert (R4 : reached_4 s0 role_arn s4) by (exists s3; repeat split; assumption).
  (* step 5 *)
  destruct (create_or_update_lambda_function_returns role_arn s4)
    as (function_arn & s5 & H5).
  after_step (keeps_stays_pristine (keeps_result_function role_arn)) H5 Hp5.
  rewrite (bind_ret_eq _ _ _ H5).
  destruct (truthy function_arn) eqn:T5; cbn [negb].
  2:{ failed_here "Lambda Function". eapply fails_lambda_function; eassumption. }
  assert (R5 : reached_5 s0 function_arn s5)
    by (exists role_arn, s4; repeat split; assumption).
  (* step 6 *)
  rewrite <- (bind_assoc_eq (record_function_arn function_arn)
                (fun _ => create_function_url)).
  destruct (step_6_returns function_arn s5) as (function_url & s6 & H6).
  after_step (step_6_pristine function_arn) H6 Hp6.
  rewrite (bind_ret_eq _ _ _ H6).
  destruct (truthy function_url) eqn:T6; cbn [negb].
  2:{ failed_here "Function URL". eapply fails_function_url; eassumption. }
  intros Heq. cbn in Heq. inversion Heq; subst; clear Heq. left.
  destruct Hp6 as (_ & Hstep & Herr).
  split; [reflexivity|]. split; [exact Hstep|]. split; [exact Herr|].
  exists function_url, s6, function_arn, s5. repeat split; assumption.
Qed.
End LambdaCourse.

Section LambdaDeployTheorems.
Context {W : Type} `{Env W}.
Import DeployToLambda.

Local Abbreviation St := (state W deployer).

Lemma six_steps_run (s0 : St) :
  six_steps_succeed s0 ->
  exists r s', deploy_steps s0 = (Ret r, s') /\ success r = true.
Proof.
  intros (function_url & s6 & function_arn & s5 & (role_arn & s4 & R4 & H5 & T5) & H6 & T6).
  destruct R4 as (s3 & (s2 & (s1 & H1 & H2) & H3) & H4 & T4).
  unfold reached_1 in H1. unfold deploy_steps.
  rewrite (bind_ret_eq _ _ _ H1). cbn [negb].
  rewrite <- (bind_assoc_eq record_s3_bucket (fun _ => create_ecr_repository)).
  rewrite (bind_ret_eq _ _ _ H2). cbn [negb].
  rewrite <- (bind_assoc_eq record_ecr_repository (fun _ => build_and_push_docker_image)).
  rewrite (bind_ret_eq _ _ _ H3). cbn [negb].
  rewrite <- (bind_assoc_eq record_image_uri (fun _ => create_lambda_execution_role)).
  rewrite (bind_ret_eq _ _ _ H4). rewrite T4. cbn [negb].
  rewrite (bind_ret_eq _ _ _ H5). rewrite T5. cbn [negb].
  rewrite <- (bind_assoc_eq (record_function_arn function_arn)
                (fun _ => create_function_url)).
  rewrite (bind_ret_eq _ _ _ H6). rewrite T6. cbn [negb].
  eexists. eexists. split; reflexivity.
Qed.

Lemma deploy_eq (s : St) :
  deploy s
  = try_except deploy_steps
      (fun e => Some (update_result (fun r => set_error r (exn_str e)) ;; get_result))
      (at_start s).
Proof. reflexivity. Qed.

Lemma at_start_pristine (s : St) : pristine (result (self (at_start s))).
Proof. repeat split. Qed.
End LambdaDeployTheorems.


(** The three kinds of report on concrete worlds: a full success, a
    step that returns [False], and an exception that only the handler of
    [deploy] catches (the handler of the Docker step fails to decode the
    error stream of the build). *)
Example lambda_deploy_reports :
  (exists r,
     fst (DeployToLambda.deploy (Scripted.start Scripted.healthy DeployToLambda.init))
     = Ret r
     /\ DeployToLambda.success r = true
     /\ DeployToLambda.failed_step r = None
     /\ DeployToLambda.error r = None)
  /\ (exists r,
        fst (DeployToLambda.deploy (Scripted.start failing_tool DeployToLambda.init))
        = Ret r
        /\ DeployToLambda.success r = false
        /\ DeployToLambda.failed_step r = Some "Docker Build"
        /\ DeployToLambda.error r = None)
  /\ (exists r,
        fst (@DeployToLambda.deploy unit garbled_env (mkState tt DeployToLambda.init []))
        = Ret r
        /\ DeployToLambda.success r = false
        /\ DeployToLambda.failed_step r = None
        /\ DeployToLambda.error r = Some (exn_str cannot_decode)).
Proof.
  split; [|split]; eexists; (split; [vm_compute; reflexivity|repeat split]).
Qed.

(** ** C8: exit codes *)

Lemma run_stages_verdict (S : Type) (stages : list (string * action S)) :
  forall calls s,
    match run_stages stages calls s with
    | (Ret r, _, s') =>
        (all_passed r = true /\ all_succeed stages s = Some s')
        \/ (all_passed r = false /\ all_succeed stages s = None)
    | (Raise _, _, _) => all_succeed stages s = None
    end.
Proof.
  induction stages as [|[label fn] stages IH]; intros calls s; cbn.
  - left. split; reflexivity.
  - destruct (fn s) as [[[|]|e] s1]; cbn.
    + apply IH.
    + right. split; reflexivity.
    + reflexivity.
Qed.

Lemma exit_verdict (P : Prop) (c : Z) :
  (P /\ c = 0) \/ (~ P /\ c = 1) -> (c = 0 <-> P) /\ (~ P -> c = 1).
Proof.
  intros [[HP Hc]|[HnP Hc]]; subst c.
  - split; [tauto|]. intros HnP. contradiction.
  - split; [|reflexivity]. split; [discriminate|]. intros HP. contradiction.
Qed.

Section ExitCodes.
Context {W : Type} `{Env W}.

Lemma update_main_exit (w : W) :
  (exit_status (fst (UpdateAwsDeployment.main w)) = 0 <-> pipeline_succeeds w)
  /\ (~ pipeline_succeeds w -> exit_status (fst (UpdateAwsDeployment.main w)) = 1).
Proof.
  apply exit_verdict.
  unfold pipeline_succeeds, UpdateAwsDeployment.main, UpdateAwsDeployment.UpdateDeployer_run.
  destruct (UpdateAwsDeployment.preflight_check _) as [[[|]|e] s1] eqn:Hpre.
  - pose proof (run_stages_verdict UpdateAwsDeployment.stages [] s1) as Hv.
    destruct (run_stages UpdateAwsDeployment.stages [] s1) as [[[[passed failed]|e] calls] s2];
      cbn in Hv |- *.
    + destruct Hv as [[Hr Hall]|[Hr Hall]]; subst passed.
      * left. split; [|reflexivity]. exists s1, s2. split; [reflexivity|exact Hall].
      * right. split; [|reflexivity].
        intros (s1' & s2' & Heq & Hall'). inversion Heq; subst.
        rewrite Hall in Hall'. discriminate.
    + right. split; [|reflexivity].
      intros (s1' & s2' & Heq & Hall'). inversion Heq; subst.
      rewrite Hv in Hall'. discriminate.
  - right. split; [|reflexivity]. intros (s1' & s2' & Heq & _). discriminate.
  - right. split; [|reflexivity]. intros (s1' & s2' & Heq & _). discriminate.
Qed.

Lemma lambda_main_exit (w : W) :
  let s0 := DeployToLambda.at_start (mkState w DeployToLambda.init []) in
  (exit_status (fst (DeployToLambda.main w)) = 0 <-> DeployToLambda.six_steps_succeed s0)
  /\ (~ DeployToLambda.six_steps_succeed s0 ->
      exit_status (fst (DeployToLambda.main w)) = 1).
Proof.
  intros s0. apply exit_verdict.
  unfold DeployToLambda.main. rewrite deploy_eq. fold s0.
  destruct (DeployToLambda.deploy_steps s0) as [o s1] eqn:Hsteps.
  pose proof (deploy_steps_course s0 (at_start_pristine _) Hsteps) as Hcourse.
  destruct o as [r|e].
  - rewrite (try_ret_eq _ _ _ Hsteps).
    destruct Hcourse as [(Hs & _ & _ & Hsix)|(Hs & _)]; cbn [fst exit_status]; rewrite Hs.
    + left. split; [exact Hsix|reflexivity].
    + right. split; [|reflexivity]. intros Hsix.
      destruct (six_steps_run Hsix) as (r' & s' & Heq & Hs').
      rewrite Hsteps in Heq. inversion Heq; subst. rewrite Hs in Hs'. discriminate.
  - right. split.
    + intros Hsix. destruct (six_steps_run Hsix) as (r' & s' & Heq & _).
      rewrite Hsteps in Heq. discriminate.
    + rewrite (try_caught_eq _ _ _ Hsteps eq_refl). cbn.
      destruct Hcourse as (Hs & _). now rewrite Hs.
Qed.
End ExitCodes.

(** C8.  [update_aws_deployment.py] exits with status 0 exactly when
    every stage of the pipeline succeeds (the pre-flight check passes
    and the twelve stages return [True] one after the other), and with
    status 1 otherwise, in particular when a stage returns [False] or
    raises.  [deploy_to_lambda.py] exits with status 0 exactly when all
    six steps succeed, and with status 1 otherwise. *)
Theorem exit_status_reflects_success :
  forall (W : Type) (E : Env W) (w : W),
    let s0 := DeployToLambda.at_start (mkState w DeployToLambda.init []) in
    (exit_status (fst (UpdateAwsDeployment.main w)) = 0 <-> pipeline_succeeds w)
    /\ (~ pipeline_succeeds w -> exit_status (fst (UpdateAwsDeployment.main w)) = 1)
    /\ (exit_status (fst (DeployToLambda.main w)) = 0
        <-> DeployToLambda.six_steps_succeed s0)
    /\ (~ DeployToLambda.six_steps_succeed s0 ->
        exit_status (fst (DeployToLambda.main w)) = 1).
Proof.
  intros W E w s0.
  destruct (update_main_exit w) as [Hu0 Hu1].
  destruct (lambda_main_exit w) as [Hl0 Hl1]. fold s0 in Hl0, Hl1.
  repeat split; try assumption; try apply Hu0; try apply Hl0.
Qed.

Lemma exit_status_reflects_success_witness :
  (pipeline_succeeds Scripted.healthy
   /\ exit_status (fst (UpdateAwsDeployment.main Scripted.healthy)) = 0)
  /\ (~ pipeline_succeeds failing_tool
      /\ exit_status (fst (UpdateAwsDeployment.main failing_tool)) = 1)
  /\ (DeployToLambda.six_steps_succeed
        (DeployToLambda.at_start (mkState Scripted.healthy DeployToLambda.init []))
      /\ exit_status (fst (DeployToLambda.main Scripted.healthy)) = 0).
Proof.
  assert (Hup : pipeline_succeeds Scripted.healthy).
  { eexists. eexists. split; vm_compute; reflexivity. }
  assert (Hdown : ~ pipeline_succeeds failing_tool).
  { intros (s1 & s2 & Heq & _). vm_compute in Heq. discriminate Heq. }
  assert (Hsix : DeployToLambda.six_steps_succeed
                   (DeployToLambda.at_start
                      (mkState Scripted.healthy DeployToLambda.init []))).
  { unfold DeployToLambda.six_steps_succeed, DeployToLambda.reached_6,
      DeployToLambda.reached_5, DeployToLambda.reached_4, DeployToLambda.reached_3,
      DeployToLambda.reached_2, DeployToLambda.reached_1.
    repeat match goal with
           | |- exists _, _ => eexists
           | |- _ /\ _ => split
           end; vm_compute; reflexivity. }
  split; [|split].
  - split; [exact Hup|].
    exact (proj2 (proj1 (@exit_status_reflects_success Scripted.sim _ Scripted.healthy)) Hup).
  - split; [exact Hdown|].
    exact (proj1 (proj2 (@exit_status_reflects_success Scripted.sim _ failing_tool)) Hdown).
  - split; [exact Hsix|].
    exact (proj2 (proj1 (proj2 (proj2
             (@exit_status_reflects_success Scripted.sim _ Scripted.healthy)))) Hsix).
Defined.

(** ** C5: conflicts on creation *)

Section Reuse.
Context {W : Type} `{Env W}.
Hypothesis cloud : everything_exists.

Ltac call_refused Hc :=
  match goal with
  | |- context [boto3_call ?sv ?op ?kw ?w] =>
      let msg := fresh "msg" in
      let w' := fresh "w" in
      let Hcall := fresh "Hcall" in
      destruct (Hc kw w) as (msg & w' & Hcall); rewrite Hcall; clear Hcall; cbn
  end.

Ltac call_answers Ha :=
  match goal with
  | |- context [boto3_call ?sv ?op ?kw ?w] =>
      let resp := fresh "response" in
      let w' := fresh "w" in
      let v := fresh "v" in
      let Hcall := fresh "Hcall" in
      let Hv := fresh "Hv" in
      destruct (Ha kw w) as (resp & w' & v & Hcall & Hv); rewrite Hcall; cbn
  end.

Ltac call_waits :=
  match goal with
  | |- context [boto3_wait ?sv ?name ?kw ?w] =>
      let w' := fresh "w" in
      let Hcall := fresh "Hcall" in
      destruct (function_waited cloud kw w) as (w' & Hcall); rewrite Hcall; clear Hcall; cbn
  end.

(** Follow the path that an extractor reads in a response. *)
Ltac read_path Hv :=
  let Hv0 := fresh "Hread" in
  pose proof Hv as Hv0;
  unfold described_repository_uri, role_arn_of, configured_function_arn,
    function_url_of in Hv;
  repeat match type of Hv with
         | context [match ?x with _ => _ end] => destruct x; [|discriminate Hv]
         end;
  rewrite Hv; cbn.

Ltac conclude_reported Hcall Hread :=
  eexists; eexists; split; [reflexivity|];
  try (split; [reflexivity|]);
  eexists; eexists; eexists; eexists; split; [exact Hcall|exact Hread].

Ltac start :=
  unfold try_except, bind, boto, waiter_wait, sleep, external_total, external,
    lift, get_self, set_self, ret; cbn.

Lemma lambda_ecr_repository_reused (s : state W DeployToLambda.deployer) :
  exists u s',
    DeployToLambda.create_ecr_repository s = (Ret true, s')
    /\ DeployToLambda.ecr_uri (self s') = u
    /\ reported "ecr" "describe_repositories" described_repository_uri u.
Proof.
  unfold DeployToLambda.create_ecr_repository. start.
  call_refused (repo_exists cloud).
  call_answers (repo_described cloud).
  read_path Hv.
  conclude_reported Hcall Hread.
Qed.

Lemma lambda_role_reused (s : state W DeployToLambda.deployer) :
  exists arn s',
    DeployToLambda.create_lambda_execution_role s = (Ret arn, s')
    /\ reported "iam" "get_role" role_arn_of arn.
Proof.
  unfold DeployToLambda.create_lambda_execution_role. start.
  call_refused (role_exists cloud).
  call_answers (role_got cloud).
  read_path Hv.
  unfold DeployToLambda.put_s3_policy, boto, external.
  match goal with
  | |- context [boto3_call "iam" "put_role_policy" ?kw ?w] =>
      destruct (role_policy_put cloud kw w) as (r2 & w2 & v2 & Hput & _); rewrite Hput; cbn
  end.
  conclude_reported Hcall Hread.
Qed.

Ltac call_put :=
  match goal with
  | |- context [boto3_call ?sv ?op ?kw ?w] =>
      let r := fresh "r" in
      let w' := fresh "w" in
      let v := fresh "v" in
      let Hput := fresh "Hput" in
      destruct (role_policy_put cloud kw w) as (r & w' & v & Hput & _);
      rewrite Hput; clear Hput; cbn
  end.

Ltac call_update Ha :=
  match goal with
  | |- context [boto3_call ?sv ?op ?kw ?w] =>
      let r := fresh "r" in
      let w' := fresh "w" in
      let v := fresh "v" in
      let Hupd := fresh "Hupd" in
      destruct (Ha kw w) as (r & w' & v & Hupd & _);
      rewrite Hupd; clear Hupd; cbn
  end.

Lemma lambda_function_updated role_arn (s : state W DeployToLambda.deployer) :
  exists arn s',
    DeployToLambda.create_or_update_lambda_function role_arn s = (Ret arn, s')
    /\ reported "lambda" "get_function" configured_function_arn arn.
Proof.
  unfold DeployToLambda.create_or_update_lambda_function. start.
  call_refused (function_exists cloud).
  call_update (function_code_updated cloud).
  call_waits.
  call_update (function_configuration_updated cloud).
  call_waits.
  call_answers (function_got cloud).
  read_path Hv.
  conclude_reported Hcall Hread.
Qed.

Lemma lambda_function_url_reused (s : state W DeployToLambda.deployer) :
  exists url s',
    DeployToLambda.create_function_url s = (Ret url, s')
    /\ reported "lambda" "get_function_url_config" function_url_of url.
Proof.
  unfold DeployToLambda.create_function_url. start.
  call_refused (url_exists cloud).
  call_answers (url_got cloud).
  read_path Hv.
  conclude_reported Hcall Hread.
Qed.

Lemma lambda_bucket_reused (s : state W DeployToLambda.deployer) :
  exists s',
    DeployToLambda.create_s3_bucket s = (Ret true, s')
    /\ DeployToLambda.s3_bucket_created (self s') = true
    /\ trace s'
       = EvBoto "s3" "head_bucket" (kw [DeployToLambda.bucket_arg]) :: trace s.
Proof.
  unfold DeployToLambda.create_s3_bucket, DeployToLambda.mark_bucket_created. start.
  call_update (bucket_found cloud).
  eexists. repeat split.
Qed.

Lemma aws_ecr_repository_reused (s : state W DeployLambda.deployer) :
  exists u s',
    DeployLambda.create_ecr_repository s = (Ret u, s')
    /\ reported "ecr" "describe_repositories" described_repository_uri u.
Proof.
  unfold DeployLambda.create_ecr_repository. start.
  call_refused (repo_exists cloud).
  call_answers (repo_described cloud).
  read_path Hv.
  conclude_reported Hcall Hread.
Qed.

Lemma aws_role_reused (s : state W DeployLambda.deployer) :
  exists arn s',
    DeployLambda.create_lambda_execution_role s = (Ret arn, s')
    /\ reported "iam" "get_role" role_arn_of arn.
Proof.
  unfold DeployLambda.create_lambda_execution_role. start.
  call_refused (role_exists cloud).
  call_answers (role_got cloud).
  read_path Hv.
  conclude_reported Hcall Hread.
Qed.

Lemma aws_function_updated role_arn (s : state W DeployLambda.deployer) :
  exists arn s',
    DeployLambda.create_lambda_function role_arn s = (Ret arn, s')
    /\ reported "lambda" "get_function" configured_function_arn arn.
Proof.
  unfold DeployLambda.create_lambda_function. start.
  call_refused (function_exists cloud).
  call_update (function_code_updated cloud).
  call_answers (function_got cloud).
  read_path Hv.
  conclude_reported Hcall Hread.
Qed.

Lemma aws_function_url_reused (s : state W DeployLambda.deployer) :
  exists url s',
    DeployLambda.create_function_url s = (Ret url, s')
    /\ reported "lambda" "get_function_url_config" function_url_of url.
Proof.
  unfold DeployLambda.create_function_url. start.
  call_refused (url_exists cloud).
  call_answers (url_got cloud).
  read_path Hv.
  conclude_reported Hcall Hread.
Qed.

Lemma apprunner_ecr_repository_reused (s : state W DeployToAppRunner.deployer) :
  exists u s',
    DeployToAppRunner.create_ecr_repository s = (Ret u, s')
    /\ reported "ecr" "describe_repositories" described_repository_uri u.
Proof.
  unfold DeployToAppRunner.create_ecr_repository. start.
  call_refused (repo_exists cloud).
  call_answers (repo_described cloud).
  read_path Hv.
  conclude_reported Hcall Hread.
Qed.

Lemma apprunner_access_role_reused (s : state W DeployToAppRunner.deployer) :
  exists arn s',
    DeployToAppRunner.create_access_role s = (Ret arn, s')
    /\ reported "iam" "get_role" role_arn_of arn.
Proof.
  unfold DeployToAppRunner.create_access_role, DeployToAppRunner.reuse_role. start.
  call_refused (role_exists cloud).
  call_answers (role_got cloud).
  read_path Hv.
  conclude_reported Hcall Hread.
Qed.

Lemma apprunner_instance_role_reused (s : state W DeployToAppRunner.deployer) :
  exists arn s',
    DeployToAppRunner.create_instance_role s = (Ret arn, s')
    /\ reported "iam" "get_role" role_arn_of arn.
Proof.
  unfold DeployToAppRunner.create_instance_role, DeployToAppRunner.reuse_role. start.
  call_refused (role_exists cloud).
  call_answers (role_got cloud).
  read_path Hv.
  conclude_reported Hcall Hread.
Qed.
End Reuse.


Lemma existing_env_everything_exists : @everything_exists unit existing_env.
Proof.
  constructor;
    try (intros kwargs w; eexists; eexists; reflexivity);
    try (intros kwargs w; eexists; eexists; eexists; split; reflexivity).
Qed.



(** ** C6: provisioning twice *)

(** Case analysis on everything that a finished run went through,
    innermost scrutinee first. *)
Ltac crack Hrun :=
  repeat match type of Hrun with
         | context [match ?x with _ => _ end] =>
             lazymatch x with
             | context [match _ with _ => _ end] => fail
             | _ => destruct x eqn:?; cbn in Hrun; try discriminate Hrun
             end
         end.

Section Idempotence.
Context {W : Type} `{Env W}.
Variable registered : W -> string -> string -> option pyval.
Hypothesis cloud : consistent registered.

(** The identifier read from a response, from the equations left by
    [crack]. *)
Ltac read_identifier :=
  unfold identifier, created_repository_uri, described_repository_uri, role_arn_of;
  cbn;
  repeat match goal with
         | Hget : ?x = Ret _ |- context [?x] => rewrite Hget
         end;
  reflexivity.

(** A successful create call registers what it returns. *)
Ltac by_created :=
  match goal with
  | Hc : boto3_call ?sv ?op ?kw ?w = (Ret ?resp, ?w') |- registered ?w' ?sv ?n = Some ?id =>
      apply (@created _ _ _ cloud sv op kw w resp w' n id eq_refl Hc); [reflexivity|read_identifier]
  end.

(** A lookup that answers tells what was registered before it, and
    that is still registered after it. *)
Ltac by_found :=
  match goal with
  | Hl : boto3_call ?sv ?op ?kw ?w = (Ret ?resp, ?w') |- registered ?w' ?sv ?n = Some ?id =>
      let Hk := fresh "Hk" in
      assert (Hk : registered w sv n = Some id)
        by (apply (@found _ _ _ cloud sv op kw w resp w' n id eq_refl Hl); [reflexivity|read_identifier]);
      apply (@kept_by_call _ _ _ cloud sv op kw w) in Hk; rewrite Hl in Hk; exact Hk
  end.

(** What is registered stays so through one more call. *)
Ltac kept_through :=
  match goal with
  | Hc : boto3_call ?sv ?op ?kw ?w = (_, ?w') |- registered ?w' ?sv' ?n = Some ?id =>
      let Hk := fresh "Hk" in
      assert (Hk : registered w sv' n = Some id);
      [|apply (@kept_by_call _ _ _ cloud sv op kw w) in Hk; rewrite Hc in Hk; exact Hk]
  | |- registered (time_sleep ?t ?w) _ _ = Some _ => apply (@kept_by_sleep _ _ _ cloud)
  end.

Ltac unfold_run Hrun :=
  unfold try_except, bind, boto, sleep, external_total, external,
    lift, get_self, set_self, ret, raise in Hrun;
  cbn in Hrun; crack Hrun; inversion Hrun; subst; clear Hrun; cbn.

Lemma apprunner_repository_registered (s : state W DeployToAppRunner.deployer) u s' :
  DeployToAppRunner.create_ecr_repository s = (Ret u, s') ->
  registered (world s') "ecr" DeployToAppRunner.ECR_REPO_NAME = Some u.
Proof.
  intros Hrun.
  unfold DeployToAppRunner.create_ecr_repository, DeployToAppRunner.set_ecr_uri in Hrun.
  unfold_run Hrun; first [by_created | by_found].
Qed.

(** A create call cannot have answered for a registered resource. *)
Ltac not_twice :=
  match goal with
  | Hreg : registered ?w ?sv ?n = Some ?id,
    Hc : boto3_call ?sv ?op ?kw ?w = (Ret _, _) |- _ =>
      let e := fresh "e" in
      let w' := fresh "w" in
      let Hx := fresh "Hx" in
      destruct (@not_created_twice _ _ _ cloud sv op kw w n id eq_refl eq_refl Hreg)
        as (e & w' & Hx);
      rewrite Hx in Hc; discriminate Hc
  end.

(** Carry a registration over the next call. *)
Ltac carry Hreg :=
  match type of Hreg with
  | registered ?w ?sv ?n = Some ?id =>
      match goal with
      | Hc : boto3_call ?sv' ?op ?kw w = (_, ?w') |- _ =>
          let Hk := fresh "Hreg" in
          pose proof (@kept_by_call _ _ _ cloud sv' op kw w sv n id Hreg) as Hk;
          rewrite Hc in Hk; cbn [snd] in Hk
      end
  end.

(** A lookup that answers reports the registered identifier. *)
Ltac same_as_found :=
  match goal with
  | Hreg : registered ?w ?sv ?n = Some ?id0,
    Hl : boto3_call ?sv ?op ?kw ?w = (Ret ?resp, ?w') |- ?id = ?id0 =>
      let Hf := fresh "Hf" in
      assert (Hf : registered w sv n = Some id)
        by (apply (@found _ _ _ cloud sv op kw w resp w' n id eq_refl Hl);
            [reflexivity|read_identifier]);
      rewrite Hreg in Hf; inversion Hf; reflexivity
  end.

Lemma apprunner_repository_again (s : state W DeployToAppRunner.deployer) u0 u s' :
  registered (world s) "ecr" DeployToAppRunner.ECR_REPO_NAME = Some u0 ->
  DeployToAppRunner.create_ecr_repository s = (Ret u, s') ->
  u = u0.
Proof.
  intros Hreg Hrun.
  unfold DeployToAppRunner.create_ecr_repository, DeployToAppRunner.set_ecr_uri in Hrun.
  unfold_run Hrun; try not_twice; carry Hreg; same_as_found.
Qed.

Ltac settle_registered := repeat first [by_created | by_found | kept_through].

Lemma apprunner_access_role_registered (s : state W DeployToAppRunner.deployer) u s' :
  DeployToAppRunner.create_access_role s = (Ret u, s') ->
  registered (world s') "iam" DeployToAppRunner.access_role_name = Some u.
Proof.
  intros Hrun.
  unfold DeployToAppRunner.create_access_role, DeployToAppRunner.reuse_role in Hrun.
  unfold_run Hrun; settle_registered.
Qed.

Lemma apprunner_access_role_again (s : state W DeployToAppRunner.deployer) u0 u s' :
  registered (world s) "iam" DeployToAppRunner.access_role_name = Some u0 ->
  DeployToAppRunner.create_access_role s = (Ret u, s') ->
  u = u0.
Proof.
  intros Hreg Hrun.
  unfold DeployToAppRunner.create_access_role, DeployToAppRunner.reuse_role in Hrun.
  unfold_run Hrun; try not_twice; carry Hreg; same_as_found.
Qed.

Lemma apprunner_instance_role_registered (s : state W DeployToAppRunner.deployer) u s' :
  DeployToAppRunner.create_instance_role s = (Ret u, s') ->
  registered (world s') "iam" DeployToAppRunner.instance_role_name = Some u.
Proof.
  intros Hrun.
  unfold DeployToAppRunner.create_instance_role, DeployToAppRunner.reuse_role in Hrun.
  unfold_run Hrun; settle_registered.
Qed.

Lemma apprunner_instance_role_again (s : state W DeployToAppRunner.deployer) u0 u s' :
  registered (world s) "iam" DeployToAppRunner.instance_role_name = Some u0 ->
  DeployToAppRunner.create_instance_role s = (Ret u, s') ->
  u = u0.
Proof.
  intros Hreg Hrun.
  unfold DeployToAppRunner.create_instance_role, DeployToAppRunner.reuse_role in Hrun.
  unfold_run Hrun; try not_twice; carry Hreg; same_as_found.
Qed.

Lemma aws_repository_registered (s : state W DeployLambda.deployer) u s' :
  DeployLambda.create_ecr_repository s = (Ret u, s') ->
  registered (world s') "ecr" DeployLambda.ECR_REPO_NAME = Some u.
Proof.
  intros Hrun.
  unfold DeployLambda.create_ecr_repository, DeployLambda.set_ecr_uri in Hrun.
  unfold_run Hrun; settle_registered.
Qed.

Lemma aws_repository_again (s : state W DeployLambda.deployer) u0 u s' :
  registered (world s) "ecr" DeployLambda.ECR_REPO_NAME = Some u0 ->
  DeployLambda.create_ecr_repository s = (Ret u, s') ->
  u = u0.
Proof.
  intros Hreg Hrun.
  unfold DeployLambda.create_ecr_repository, DeployLambda.set_ecr_uri in Hrun.
  unfold_run Hrun; try not_twice; carry Hreg; try carry Hreg0; same_as_found.
Qed.

Lemma lambda_bucket_registered (s : state W DeployToLambda.deployer) s' :
  DeployToLambda.create_s3_bucket s = (Ret true, s') ->
  registered (world s') "s3" DeployToLambda.S3_BUCKET_NAME
  = Some (PStr DeployToLambda.S3_BUCKET_NAME).
Proof.
  intros Hrun.
  unfold DeployToLambda.create_s3_bucket, DeployToLambda.mark_bucket_created in Hrun.
  unfold_run Hrun; settle_registered.
Qed.

Lemma lambda_bucket_again (s : state W DeployToLambda.deployer) id s' :
  registered (world s) "s3" DeployToLambda.S3_BUCKET_NAME = Some id ->
  DeployToLambda.create_s3_bucket s = (Ret true, s') ->
  trace s' = EvBoto "s3" "head_bucket" (kw [DeployToLambda.bucket_arg]) :: trace s.
Proof.
  intros Hreg Hrun.
  unfold DeployToLambda.create_s3_bucket, DeployToLambda.mark_bucket_created in Hrun.
  unfold_run Hrun; try reflexivity; carry Hreg; not_twice.
Qed.
End Idempotence.


(** The registry world is consistent. *)
Section RegistryLaws.
Import Registry.

Lemma is_create_cases service op :
  is_create service op = true ->
  (service = "ecr" /\ op = "create_repository")
  \/ (service = "iam" /\ op = "create_role")
  \/ (service = "s3" /\ op = "create_bucket").
Proof.
  unfold is_create. rewrite !orb_true_iff, !andb_true_iff, !String.eqb_eq. tauto.
Qed.

Lemma is_lookup_cases service op :
  is_lookup service op = true ->
  (service = "ecr" /\ op = "describe_repositories")
  \/ (service = "iam" /\ op = "get_role")
  \/ (service = "s3" /\ op = "head_bucket").
Proof.
  unfold is_lookup. rewrite !orb_true_iff, !andb_true_iff, !String.eqb_eq. tauto.
Qed.

Lemma view_some_inv w service name id :
  view w service name = Some id -> exists id', w service name = Some id'.
Proof.
  unfold view. destruct (String.eqb service "s3").
  - destruct (w service name) as [id'|]; [eauto|discriminate].
  - eauto.
Qed.

Lemma view_register_same service name id w :
  view (register service name id w) service name
  = if String.eqb service "s3" then Some (PStr name) else Some id.
Proof.
  unfold view, register. rewrite !String.eqb_refl. cbn.
  destruct (String.eqb service "s3"); reflexivity.
Qed.

Lemma view_register_kept service name id w service' name' id' :
  w service name = None ->
  view w service' name' = Some id' ->
  view (register service name id w) service' name' = Some id'.
Proof.
  intros Hnone Hview. unfold view, register in *.
  destruct (String.eqb service service' && String.eqb name name') eqn:Hsame.
  - apply andb_true_iff in Hsame. destruct Hsame as [Hs Hn].
    apply String.eqb_eq in Hs, Hn. subst service' name'. rewrite Hnone in Hview.
    destruct (String.eqb service "s3"); discriminate.
  - exact Hview.
Qed.

Lemma bucket_name_read kwargs name :
  bind_outcome (getitem kwargs "Bucket") as_str = Ret name ->
  getitem kwargs "Bucket" = Ret (PStr name).
Proof.
  destruct (getitem kwargs "Bucket") as [v|e]; cbn; [|discriminate].
  destruct v; cbn; try discriminate. intros Heq. now inversion Heq.
Qed.

Lemma registry_consistent : @consistent cloud registry_env view.
Proof.
  constructor.
  - (* created *)
    intros service op kwargs w response w' name id Hcreate Hcall Hnamed Hid.
    cbn in Hcall. unfold call in Hcall. rewrite Hnamed, Hcreate in Hcall.
    destruct (w service name) as [old|] eqn:Hw; [discriminate|].
    inversion Hcall; subst; clear Hcall.
    rewrite view_register_same.
    destruct (is_create_cases _ _ Hcreate) as [[-> ->]|[[-> ->]|[-> ->]]];
      cbn in Hid |- *.
    + injection Hid as <-. reflexivity.
    + injection Hid as <-. reflexivity.
    + cbn in Hnamed. rewrite (bucket_name_read _ Hnamed) in Hid. injection Hid as <-. reflexivity.
  - (* not created twice *)
    intros service op kwargs w name id Hcreate Hnamed Hview.
    destruct (view_some_inv _ _ _ Hview) as [old Hw].
    eexists. eexists. cbn. unfold call. rewrite Hnamed, Hcreate, Hw. reflexivity.
  - (* found *)
    intros service op kwargs w response w' name id Hlookup Hcall Hnamed Hid.
    cbn in Hcall. unfold call in Hcall. rewrite Hnamed in Hcall.
    destruct (is_lookup_cases _ _ Hlookup) as [[-> ->]|[[-> ->]|[-> ->]]];
      unfold view; cbn in Hcall, Hid |- *;
      destruct (w _ name) as [found|] eqn:Hw; try discriminate;
      inversion Hcall; subst; clear Hcall; cbn in Hid.
    + injection Hid as <-. reflexivity.
    + injection Hid as <-. reflexivity.
    + cbn in Hnamed. rewrite (bucket_name_read _ Hnamed) in Hid.
      injection Hid as <-. reflexivity.
  - (* kept by call *)
    intros service op kwargs w service' name id Hview.
    cbn. unfold call.
    destruct (named op kwargs) as [n|e]; [|exact Hview].
    destruct (is_create service op).
    + destruct (w service n) as [old|] eqn:Hw; [exact Hview|].
      cbn. now apply view_register_kept.
    + destruct (is_lookup service op); [|exact Hview].
      destruct (view w service n); exact Hview.
  - (* kept by sleep *)
    intros secs w service name id Hview. exact Hview.
Qed.
End RegistryLaws.


(* ================================================================== *)
(** * Further properties *)
(* ================================================================== *)

(** ** The stage loop: success and exceptions *)

(** X1.  When every stage returns [True], the loop of
    [UpdateDeployer.run] invokes all of them, once each and in order,
    and reports [all_passed = True] with no [failed_at]. *)
Theorem stage_loop_runs_every_stage :
  forall (S : Type) (stages : list (string * action S)) (calls : list string) (s s' : S),
    all_succeed stages s = Some s' ->
    run_stages stages calls s
    = (Ret (mkLoop true None), (calls ++ map fst stages)%list, s').
Proof.
  intros S stages calls s s' Hall.
  rewrite <- (app_nil_r stages) at 1.
  rewrite (run_stages_prefix stages [] calls s Hall). reflexivity.
Qed.

Lemma stage_loop_runs_every_stage_witness :
  run_stages [("A", named_stage "A" true); ("B", named_stage "B" true)] [] []
  = (Ret (mkLoop true None), ["A"; "B"], ["A"; "B"]).
Proof.
  exact (@stage_loop_runs_every_stage (list string)
           [("A", named_stage "A" true); ("B", named_stage "B" true)] [] []
           ["A"; "B"] eq_refl).
Defined.

(** X2.  The loop has no [except] clause: when the stages before
    [label] return [True] and [label] raises, the exception leaves the
    loop as it was raised, after exactly the stages up to [label] have
    been invoked; no later stage runs. *)
Theorem stage_loop_lets_exceptions_through :
  forall (S : Type) (pre post : list (string * action S)) (label : string)
         (fn : action S) (calls : list string) (s s1 s2 : S) (e : exn),
    all_succeed pre s = Some s1 ->
    fn s1 = (Raise e, s2) ->
    run_stages (pre ++ (label, fn) :: post) calls s
    = (Raise e, (calls ++ map fst pre ++ [label])%list, s2).
Proof.
  intros S pre post label fn calls s s1 s2 e Hpre Hfn.
  rewrite (run_stages_prefix pre _ calls s Hpre). simpl.
  rewrite Hfn. now rewrite app_assoc.
Qed.

Lemma stage_loop_lets_exceptions_through_witness :
  run_stages [("A", named_stage "A" true); ("B", raising_stage "B" (ValueError "boom"));
              ("C", named_stage "C" true)] [] []
  = (Raise (ValueError "boom"), ["A"; "B"], ["A"; "B"]).
Proof.
  exact (@stage_loop_lets_exceptions_through (list string)
           [("A", named_stage "A" true)] [("C", named_stage "C" true)]
           "B" (raising_stage "B" (ValueError "boom")) [] [] ["A"] ["A"; "B"]
           (ValueError "boom") eq_refl eq_refl).
Defined.

(** ** The pre-flight check *)

(** X3.  When the credentials check fails, [UpdateDeployer.run] invokes
    no stage and runs no command: the STS call is its only external
    call.  A [ClientError] makes it return [False]; any other exception
    of the call leaves [run] as it was raised. *)
Theorem preflight_failure_runs_no_stage :
  forall (W : Type) (E : Env W) (s : state W UpdateAwsDeployment.deployer)
         (e : exn) (w1 : W),
    boto3_call "sts" "get_caller_identity" (kw []) (world s) = (Raise e, w1) ->
    UpdateAwsDeployment.UpdateDeployer_run s
    = (match e with
       | ClientError _ _ => Ret false
       | _ => Raise e
       end,
       [], mkState w1 (self s) (sts_call :: trace s)).
Proof.
  intros W E s e w1 Hsts.
  unfold UpdateAwsDeployment.UpdateDeployer_run, UpdateAwsDeployment.preflight_check.
  unfold bind at 1. unfold try_except at 1. unfold bind at 1.
  unfold boto at 1, external. rewrite Hsts.
  destruct e; reflexivity.
Qed.

Lemma preflight_failure_runs_no_stage_witness :
  (let w := Scripted.with_boto (sts_refuses expired_token) Scripted.healthy in
   UpdateAwsDeployment.UpdateDeployer_run (Scripted.start w UpdateAwsDeployment.init)
   = (Ret false, [], mkState w UpdateAwsDeployment.init [sts_call]))
  /\ (let w := Scripted.with_boto (sts_refuses no_credentials) Scripted.healthy in
      UpdateAwsDeployment.UpdateDeployer_run (Scripted.start w UpdateAwsDeployment.init)
      = (Raise no_credentials, [], mkState w UpdateAwsDeployment.init [sts_call])).
Proof.
  split.
  - exact (@preflight_failure_runs_no_stage Scripted.sim _
             (Scripted.start (Scripted.with_boto (sts_refuses expired_token) Scripted.healthy)
                UpdateAwsDeployment.init) expired_token _ eq_refl).
  - exact (@preflight_failure_runs_no_stage Scripted.sim _
             (Scripted.start (Scripted.with_boto (sts_refuses no_credentials) Scripted.healthy)
                UpdateAwsDeployment.init) no_credentials _ eq_refl).
Defined.

(** ** Stage 5: the registry password *)

Lemma split_colon_once_joined user password :
  has_colon user = false ->
  split_colon_once (user ++ ":" ++ password) = [user; password].
Proof.
  induction user as [|c user IH]; cbn; intros Hno.
  - reflexivity.
  - apply orb_false_iff in Hno. destruct Hno as [Hc Hrest].
    rewrite Hc. cbn in IH. now rewrite (IH Hrest).
Qed.

Lemma split_colon_once_whole token :
  has_colon token = false -> split_colon_once token = [token].
Proof.
  induction token as [|c token IH]; cbn; intros Hno.
  - reflexivity.
  - apply orb_false_iff in Hno. destruct Hno as [Hc Hrest].
    rewrite Hc. now rewrite (IH Hrest).
Qed.

(** X4.  Stage 5 splits the decoded authorization token at its first
    colon and hands what follows, further colons included, to
    [docker login] on its standard input: the command line carries the
    registry endpoint and no password.  The stage returns [True] when
    the login exits with status 0 and [False] when it exits non-zero;
    an exception of another kind (the [OSError] of a missing [docker])
    leaves the stage as it was raised. *)
Theorem stage_05_password_on_stdin :
  forall (W : Type) (E : Env W) (s : state W UpdateAwsDeployment.deployer)
         (response auth t : pyval) (rest : list pyval)
         (user password endpoint : string) (w1 : W),
    boto3_call "ecr" "get_authorization_token" (kw []) (world s) = (Ret response, w1) ->
    getitem response "authorizationData" = Ret (PList (auth :: rest)) ->
    getitem auth "authorizationToken" = Ret t ->
    b64decode_str t = Ret (user ++ ":" ++ password) ->
    has_colon user = false ->
    getitem auth "proxyEndpoint" = Ret (PStr endpoint) ->
    UpdateAwsDeployment.stage_05_ecr_auth s
    = (match fst (subprocess_run (ecr_login_cmd endpoint) (Some password) w1) with
       | Ret _ => Ret true
       | Raise (ClientError _ _) | Raise (CalledProcessError _ _ _ _) => Ret false
       | Raise e => Raise e
       end,
       mkState (snd (subprocess_run (ecr_login_cmd endpoint) (Some password) w1)) (self s)
         (EvSubprocess (ecr_login_cmd endpoint) :: ecr_token_call :: trace s)).
Proof.
  intros W E s response auth t rest user password endpoint w1
    Hcall Hdata Htoken Hdecode Huser Hend.
  unfold UpdateAwsDeployment.stage_05_ecr_auth, try_except.
  unfold bind at 1. unfold boto, external. rewrite Hcall.
  unfold bind at 1. unfold lift at 1. rewrite Hdata.
  unfold bind at 1. unfold lift at 1. cbn [getitem0].
  unfold bind at 1. unfold lift at 1. rewrite Htoken.
  unfold bind at 1. unfold lift at 1. rewrite Hdecode.
  rewrite (split_colon_once_joined user password Huser).
  unfold bind at 1. unfold lift at 1. rewrite Hend.
  unfold bind at 1. unfold lift at 1. cbn [as_str].
  unfold bind at 1. unfold do_subprocess, external. cbn [world self trace].
  fold (ecr_login_cmd endpoint).
  destruct (subprocess_run (ecr_login_cmd endpoint) (Some password) w1) as [[out|e] w2];
    cbn [fst snd].
  - reflexivity.
  - destruct e; reflexivity.
Qed.

Lemma stage_05_password_on_stdin_witness :
  let E := login_checks_stdin "p:a:ss" "AWS:p:a:ss" in
  let s := mkState tt UpdateAwsDeployment.init [] in
  @UpdateAwsDeployment.stage_05_ecr_auth unit E s
  = (Ret true,
     mkState tt UpdateAwsDeployment.init
       [EvSubprocess (ecr_login_cmd "https://registry"); ecr_token_call]).
Proof.
  exact (@stage_05_password_on_stdin unit (login_checks_stdin "p:a:ss" "AWS:p:a:ss")
           (mkState tt UpdateAwsDeployment.init []) (token_response "AWS:p:a:ss")
           _ (PStr "AWS:p:a:ss") [] "AWS" "p:a:ss" "https://registry" tt
           eq_refl eq_refl eq_refl eq_refl eq_refl eq_refl).
Defined.

(** X5.  A decoded token without a colon cannot be unpacked into user
    and password: stage 5 raises [ValueError], which neither of its
    [except] clauses catches, and runs no command. *)
Theorem stage_05_token_without_colon_raises :
  forall (W : Type) (E : Env W) (s : state W UpdateAwsDeployment.deployer)
         (response auth t : pyval) (rest : list pyval) (token : string) (w1 : W),
    boto3_call "ecr" "get_authorization_token" (kw []) (world s) = (Ret response, w1) ->
    getitem response "authorizationData" = Ret (PList (auth :: rest)) ->
    getitem auth "authorizationToken" = Ret t ->
    b64decode_str t = Ret token ->
    has_colon token = false ->
    UpdateAwsDeployment.stage_05_ecr_auth s
    = (Raise (ValueError "not enough values to unpack (expected 2, got 1)"),
       mkState w1 (self s) (ecr_token_call :: trace s)).
Proof.
  intros W E s response auth t rest token w1 Hcall Hdata Htoken Hdecode Hno.
  unfold UpdateAwsDeployment.stage_05_ecr_auth, try_except.
  unfold bind at 1. unfold boto, external. rewrite Hcall.
  unfold bind at 1. unfold lift at 1. rewrite Hdata.
  unfold bind at 1. unfold lift at 1. cbn [getitem0].
  unfold bind at 1. unfold lift at 1. rewrite Htoken.
  unfold bind at 1. unfold lift at 1. rewrite Hdecode.
  rewrite (split_colon_once_whole token Hno).
  reflexivity.
Qed.

Lemma stage_05_token_without_colon_raises_witness :
  @UpdateAwsDeployment.stage_05_ecr_auth unit (login_checks_stdin "secret" "secret")
    (mkState tt UpdateAwsDeployment.init [])
  = (Raise (ValueError "not enough values to unpack (expected 2, got 1)"),
     mkState tt UpdateAwsDeployment.init [ecr_token_call]).
Proof.
  exact (@stage_05_token_without_colon_raises unit (login_checks_stdin "secret" "secret")
           (mkState tt UpdateAwsDeployment.init []) (token_response "secret")
           _ (PStr "secret") [] "secret" tt eq_refl eq_refl eq_refl eq_refl eq_refl).
Defined.

(** ** Stages 7 to 12 *)

Section HealthTrace.
Context {W : Type} `{Env W}.
Import UpdateAwsDeployment.

Lemma attempts_events_snoc probe delay k tr :
  (attempts_events probe delay (S k) ++ EvSleep delay :: probe :: tr)%list
  = (attempts_events probe delay (S (S k)) ++ tr)%list.
Proof.
  induction k as [|k IH].
  - reflexivity.
  - change (attempts_events probe delay (S (S (S k))))
      with (probe :: EvSleep delay :: attempts_events probe delay (S (S k))).
    change (attempts_events probe delay (S (S k)))
      with (probe :: EvSleep delay :: attempts_events probe delay (S k)) at 1.
    cbn [app]. now rewrite IH.
Qed.

Lemma health_attempts_trace url N d :
  forall (n : nat) (i : Z) (s : state W deployer),
    i + Z.of_nat n = N + 1 ->
    exists k r s',
      for_each (py_range i (N + 1)) (health_attempt url N d) s = (Ret r, s')
      /\ trace s' = (attempts_events (EvUrlopen url) d k ++ trace s)%list
      /\ self s' = self s
      /\ (k <= n)%nat
      /\ match r with
         | Some b => b = true /\ (1 <= k)%nat
         | None => k = n
         end.
Proof.
  induction n as [|n IH]; intros i s Hi.
  - replace i with (N + 1) by lia. unfold py_range. rewrite Z.sub_diag. cbn.
    exists 0%nat, None, s. repeat split; reflexivity.
  - rewrite (@py_range_cons i (N + 1)) by lia. cbn [for_each].
    destruct (reachable (fst (urlopen url (world s)))) eqn:Hr.
    + rewrite (bind_ret_eq _ _ _ (health_attempt_reachable url N d i s Hr)).
      exists 1%nat, (Some true), (after_urlopen url s).
      repeat split; try reflexivity; lia.
    + rewrite (bind_ret_eq _ _ _ (health_attempt_transient url N d i s Hr)).
      destruct (i <? N) eqn:Hlt.
      * apply Z.ltb_lt in Hlt.
        destruct (IH (i + 1) (after_sleep d (after_urlopen url s)) ltac:(lia))
          as (k & r & s' & Hrun & Htr & Hself & Hk & Hres).
        assert (Hpos : (1 <= k)%nat) by (destruct r as [b|]; [tauto|lia]).
        destruct k as [|k]; [lia|].
        exists (S (S k)), r, s'. split; [exact Hrun|]. split.
        { rewrite Htr. cbn [after_sleep after_urlopen trace].
          apply attempts_events_snoc. }
        split; [exact Hself|]. split; [lia|].
        destruct r as [b|]; [split; [tauto|lia]|lia].
      * apply Z.ltb_ge in Hlt.
        destruct (IH (i + 1) (after_urlopen url s) ltac:(lia))
          as (k & r & s' & Hrun & Htr & Hself & Hk & Hres).
        assert (k = 0%nat) by lia. subst k.
        destruct r as [b|]; [lia|].
        exists 1%nat, None, s'. split; [exact Hrun|]. split; [exact Htr|].
        split; [exact Hself|]. split; lia.
Qed.
End HealthTrace.

(** The health check always returns. *)
Lemma health_check_attempts_aux (W : Type) (E : Env W) (url : string) (N d : Z)
    (s : state W UpdateAwsDeployment.deployer) :
  exists b s', UpdateAwsDeployment.health_check url N d s = (Ret b, s').
Proof.
  unfold UpdateAwsDeployment.health_check.
  destruct (Z_le_gt_dec 0 N) as [Hpos|Hneg].
  - destruct (@health_attempts_trace W E url N d (Z.to_nat N) 1 s ltac:(lia))
      as (k & r & s' & Hrun & _).
    rewrite (bind_ret_eq _ _ _ Hrun). destruct r as [b|]; eexists; eexists; reflexivity.
  - unfold py_range. replace (Z.to_nat (N + 1 - 1)) with 0%nat by lia.
    eexists; eexists; reflexivity.
Qed.

(** X6.  The health check of stages 11 and 12 never raises.  It makes
    at most [max_retries] probes, sleeps [delay_secs] between two
    consecutive probes and neither before the first nor after the last,
    returns [True] only after a probe and [False] only after exactly
    [max_retries] probes, and leaves the deployer as it was. *)
Theorem health_check_attempts :
  forall (W : Type) (E : Env W) (url : string) (max_retries delay_secs : Z)
         (s : state W UpdateAwsDeployment.deployer),
  exists (k : nat) (b : bool) (s' : state W UpdateAwsDeployment.deployer),
    UpdateAwsDeployment.health_check url max_retries delay_secs s = (Ret b, s')
    /\ trace s' = (attempts_events (EvUrlopen url) delay_secs k ++ trace s)%list
    /\ self s' = self s
    /\ (k <= Z.to_nat max_retries)%nat
    /\ (b = true -> (1 <= k)%nat)
    /\ (b = false -> k = Z.to_nat max_retries).
Proof.
  intros W E url N d s. unfold UpdateAwsDeployment.health_check.
  destruct (Z_le_gt_dec 0 N) as [Hpos|Hneg].
  - destruct (@health_attempts_trace W E url N d (Z.to_nat N) 1 s ltac:(lia))
      as (k & r & s' & Hrun & Htr & Hself & Hk & Hres).
    rewrite (bind_ret_eq _ _ _ Hrun).
    destruct r as [b|].
    + destruct Hres as [-> Hone].
      exists k, true, s'.
      repeat split; try assumption; try (intros _; assumption); try discriminate.
    + exists k, false, s'.
      repeat split; try assumption; try (intros _; assumption); try discriminate.
  - unfold py_range. replace (Z.to_nat (N + 1 - 1)) with 0%nat by lia. cbn.
    exists 0%nat, false, s. repeat split; try reflexivity; try lia; try discriminate.
Qed.

Section LaterStages.
Context {W : Type} `{Env W}.
Import UpdateAwsDeployment.

Lemma returns_health_check url n d : returns (health_check url n d).
Proof.
  intros s. destruct (@health_check_attempts_aux W _ url n d s) as (b & s' & Hrun).
  now exists b, s'.
Qed.
End LaterStages.

Section BlanketHandlers.
Context {W : Type} `{Env W}.
Import UpdateAwsDeployment.

Lemma returns_stage_07 : returns stage_07_update_lambda.
Proof.
  intros s. unfold stage_07_update_lambda. unfold bind at 1, get_self at 1.
  apply try_catch_all_returns.
Qed.

Lemma returns_stage_08 : returns stage_08_verify_api_gateway.
Proof. intros s. apply try_catch_all_returns. Qed.

Lemma returns_stage_09 : returns stage_09_invalidate_cloudfront.
Proof.
  intros s. unfold stage_09_invalidate_cloudfront.
  unfold bind at 1, get_self at 1. unfold bind at 1, now, unlogged.
  destruct (time_time (world s)) as [t w1].
  apply try_catch_all_returns.
Qed.

Lemma returns_stage_10 : returns stage_10_verify_route53.
Proof. intros s. apply try_catch_all_returns. Qed.
End BlanketHandlers.



(** ** What the scripts never do *)

Section Only.
Context {W Self : Type} (allowed : event -> bool).

Local Abbreviation Ms := (M W Self).

Lemma only_silent_step {A} (m : Ms A) :
  (forall s, trace (snd (m s)) = trace s) -> performs_only allowed m.
Proof. intros Hm s. exists []. split; [apply Hm|reflexivity]. Qed.

Lemma only_ret {A} (a : A) : performs_only allowed (ret a : Ms A).
Proof. now apply only_silent_step. Qed.

Lemma only_raise {A} e : performs_only allowed (raise e : Ms A).
Proof. now apply only_silent_step. Qed.

Lemma only_lift {A} (o : outcome A) : performs_only allowed (lift o : Ms A).
Proof. now apply only_silent_step. Qed.

Lemma only_get_self : performs_only allowed (get_self : Ms Self).
Proof. now apply only_silent_step. Qed.

Lemma only_set_self f : performs_only allowed (set_self f : Ms unit).
Proof. now apply only_silent_step. Qed.

Lemma only_unlogged {A} (op : W -> A * W) : performs_only allowed (unlogged op : Ms A).
Proof.
  apply only_silent_step. intros s. unfold unlogged. now destruct (op (world s)).
Qed.

Lemma only_silent {A} (op : W -> outcome A * W) : performs_only allowed (silent op : Ms A).
Proof.
  apply only_silent_step. intros s. unfold silent. now destruct (op (world s)).
Qed.

Lemma only_external {A} ev (op : W -> outcome A * W) :
  allowed ev = true -> performs_only allowed (external ev op : Ms A).
Proof.
  intros Hev s. exists [ev]. unfold external. destruct (op (world s)).
  split; [reflexivity|]. cbn. now rewrite Hev.
Qed.

Lemma only_bind {A B} (m : Ms A) (k : A -> Ms B) :
  performs_only allowed m -> (forall a, performs_only allowed (k a)) ->
  performs_only allowed (bind m k).
Proof.
  intros Hm Hk s. unfold bind. destruct (Hm s) as (more & Htr & Hall).
  destruct (m s) as [[a|e] s1]; cbn [snd] in *.
  - destruct (Hk a s1) as (more' & Htr' & Hall').
    exists (more' ++ more)%list. rewrite Htr', Htr, app_assoc. split; [reflexivity|].
    rewrite forallb_app. now rewrite Hall', Hall.
  - now exists more.
Qed.

Lemma only_try {A} (m : Ms A) h :
  performs_only allowed m ->
  (forall e k, h e = Some k -> performs_only allowed k) ->
  performs_only allowed (try_except m h).
Proof.
  intros Hm Hh s. unfold try_except. destruct (Hm s) as (more & Htr & Hall).
  destruct (m s) as [[a|e] s1]; cbn [snd] in *.
  - now exists more.
  - destruct (h e) as [k|] eqn:Hhe; [|now exists more].
    destruct (Hh e k Hhe s1) as (more' & Htr' & Hall').
    exists (more' ++ more)%list. rewrite Htr', Htr, app_assoc. split; [reflexivity|].
    rewrite forallb_app. now rewrite Hall', Hall.
Qed.

Lemma only_finally {A} (m : Ms A) fin :
  performs_only allowed m -> performs_only allowed fin ->
  performs_only allowed (try_finally m fin).
Proof.
  intros Hm Hf s. unfold try_finally. destruct (Hm s) as (more & Htr & Hall).
  destruct (m s) as [o s1]; cbn [snd] in *.
  destruct (Hf s1) as (more' & Htr' & Hall').
  exists (more' ++ more)%list. rewrite forallb_app, Hall', Hall. split; [|reflexivity].
  destruct (fin s1) as [[u|e] s2]; cbn [snd] in *; now rewrite Htr', Htr, app_assoc.
Qed.

Lemma only_for_each {Y R} (xs : list Y) (body : Y -> Ms (option R)) :
  (forall x, performs_only allowed (body x)) -> performs_only allowed (for_each xs body).
Proof.
  intros Hbody. induction xs as [|x xs IH]; cbn [for_each].
  - apply only_ret.
  - apply only_bind; [apply Hbody|]. intros [r|]; [apply only_ret|exact IH].
Qed.

Context `{Env W}.

Lemma only_boto service op kwargs :
  allowed (EvBoto service op kwargs) = true ->
  performs_only allowed (boto service op kwargs : Ms pyval).
Proof. apply only_external. Qed.

Lemma only_waiter service name kwargs :
  allowed (EvWaiter service name kwargs) = true ->
  performs_only allowed (waiter_wait service name kwargs : Ms unit).
Proof. apply only_external. Qed.

Lemma only_sleep secs :
  allowed (EvSleep secs) = true -> performs_only allowed (sleep secs : Ms unit).
Proof. apply only_external. Qed.

Lemma only_subprocess cmd input :
  allowed (EvSubprocess cmd) = true ->
  performs_only allowed (do_subprocess cmd input : Ms _).
Proof. apply only_external. Qed.

Lemma only_urlopen url :
  allowed (EvUrlopen url) = true -> performs_only allowed (do_urlopen url : Ms Z).
Proof. apply only_external. Qed.

Lemma only_requests_get url :
  allowed (EvRequestsGet url) = true ->
  performs_only allowed (do_requests_get url : Ms Z).
Proof. apply only_external. Qed.

Lemma only_load_json path :
  allowed (EvReadJson path) = true -> performs_only allowed (load_json path : Ms pyval).
Proof. apply only_external. Qed.

Lemma only_now : performs_only allowed (now : Ms Z).
Proof. apply only_unlogged. Qed.

Lemma only_isfile path : performs_only allowed (isfile path : Ms bool).
Proof. apply only_unlogged. Qed.
End Only.

Section OnlyFrame.
Context {W Self L : Type} (allowed : event -> bool).

Lemma only_call {A} (m : M W Self A) :
  performs_only allowed m -> performs_only allowed (call m : M W (Self * L) A).
Proof.
  intros Hm s. unfold call.
  destruct (Hm (mkState (world s) (fst (self s)) (trace s))) as (more & Htr & Hall).
  destruct (m _) as [o s1]. now exists more.
Qed.

Lemma only_get_local : performs_only allowed (get_local : M W (Self * L) L).
Proof. now apply only_silent_step. Qed.

Lemma only_set_local f : performs_only allowed (set_local f : M W (Self * L) unit).
Proof. now apply only_silent_step. Qed.
End OnlyFrame.

Create HintDb only discriminated.
#[global] Hint Resolve only_ret only_raise only_lift only_get_self only_set_self
  only_unlogged only_silent only_now only_isfile only_get_local only_set_local : only.

Ltac only_step :=
  match goal with
  | |- performs_only _ (bind _ _) => apply only_bind; [|intros ?]
  | |- performs_only _ (try_except _ _) =>
      apply only_try;
      [|let e := fresh "e" in
        let k := fresh "k" in
        let Hk := fresh "Hk" in
        intros e k Hk; destruct e; cbn in Hk;
        repeat match type of Hk with
               | context [if ?b then _ else _] => destruct b
               end;
        try discriminate Hk; inversion Hk; subst k; clear Hk]
  | |- performs_only _ (try_finally _ _) => apply only_finally
  | |- performs_only _ (for_each _ _) => apply only_for_each; intros ?
  | |- performs_only _ (call _) => apply only_call
  | |- performs_only _ (boto _ _ _) => apply only_boto; reflexivity
  | |- performs_only _ (waiter_wait _ _ _) => apply only_waiter; reflexivity
  | |- performs_only _ (sleep _) => apply only_sleep; reflexivity
  | |- performs_only _ (do_subprocess _ _) => apply only_subprocess; reflexivity
  | |- performs_only _ (do_urlopen _) => apply only_urlopen; reflexivity
  | |- performs_only _ (do_requests_get _) => apply only_requests_get; reflexivity
  | |- performs_only _ (load_json _) => apply only_load_json; reflexivity
  | |- performs_only _ (match ?x with _ => _ end) => destruct x
  | |- performs_only _ _ => solve [auto with only]
  end.

Ltac only_auto := repeat only_step.

Section UpdatePipelineOnly.
Context {W : Type} `{Env W}.
Import UpdateAwsDeployment.

Local Abbreviation ok := (performs_only update_pipeline_event).

Lemma only_run {Self} cmd rest :
  cmd = "docker" :: rest -> ok (run cmd : M W Self _).
Proof. intros ->. unfold run. only_auto. Qed.

Lemma only_preflight : ok preflight_check.
Proof.
  unfold preflight_check. only_auto; try (eapply only_run; reflexivity).
Qed.

Lemma only_stage_01 : ok stage_01_read_version.
Proof. unfold stage_01_read_version. only_auto. Qed.

Lemma only_stage_02 : ok stage_02_build_app_container.
Proof.
  unfold stage_02_build_app_container, build_cmd.
  only_auto; try (eapply only_run; reflexivity).
Qed.

Lemma only_stage_03 : ok stage_03_build_db_init_container.
Proof.
  unfold stage_03_build_db_init_container, build_cmd.
  only_auto; try (eapply only_run; reflexivity).
Qed.

Lemma only_stage_04 : ok stage_04_push_to_dockerhub.
Proof.
  unfold stage_04_push_to_dockerhub, push_image, docker_login_cmd.
  only_auto; try (eapply only_run; reflexivity).
Qed.

Lemma only_stage_05 : ok stage_05_ecr_auth.
Proof. unfold stage_05_ecr_auth. only_auto. Qed.

Lemma only_stage_06 : ok stage_06_build_and_push_ecr.
Proof.
  unfold stage_06_build_and_push_ecr, build_cmd.
  only_auto; try (eapply only_run; reflexivity).
Qed.

Lemma only_stage_07 : ok stage_07_update_lambda.
Proof. unfold stage_07_update_lambda, any_exception_is_false. only_auto. Qed.

Lemma only_stage_08 : ok stage_08_verify_api_gateway.
Proof. unfold stage_08_verify_api_gateway, any_exception_is_false. only_auto. Qed.

Lemma only_stage_09 : ok stage_09_invalidate_cloudfront.
Proof. unfold stage_09_invalidate_cloudfront, any_exception_is_false. only_auto. Qed.

Lemma only_stage_10 : ok stage_10_verify_route53.
Proof.
  unfold stage_10_verify_route53, any_exception_is_false, alias_target. only_auto.
Qed.

Lemma only_health_check url n d : ok (health_check url n d).
Proof. unfold health_check, health_attempt, probe_url. only_auto. Qed.

Lemma only_stages :
  Forall (fun stage : string * action (state W deployer) => ok (snd stage)) stages.
Proof.
  unfold stages.
  repeat (apply Forall_cons; [cbn [snd]|]); try apply Forall_nil.
  - apply only_stage_01.
  - apply only_stage_02.
  - apply only_stage_03.
  - apply only_stage_04.
  - apply only_stage_05.
  - apply only_stage_06.
  - apply only_stage_07.
  - apply only_stage_08.
  - apply only_stage_09.
  - apply only_stage_10.
  - apply only_health_check.
  - apply only_health_check.
Qed.
End UpdatePipelineOnly.

Lemma run_stages_only (S0 : Type) (tr : S0 -> list event) (allowed : event -> bool)
    (stages : list (string * action S0)) :
  Forall (fun stage =>
            forall s, exists more,
              tr (snd (snd stage s)) = (more ++ tr s)%list
              /\ forallb allowed more = true) stages ->
  forall calls s,
  exists more,
    tr (snd (run_stages stages calls s)) = (more ++ tr s)%list
    /\ forallb allowed more = true.
Proof.
  induction 1 as [|[label fn] stages Hfn Hrest IH]; intros calls s; cbn [run_stages].
  - now exists [].
  - cbn [snd] in Hfn. destruct (Hfn s) as (more & Htr & Hall).
    destruct (fn s) as [[[|]|e] s1]; cbn [snd] in *.
    + destruct (IH (calls ++ [label])%list s1) as (more' & Htr' & Hall').
      exists (more' ++ more)%list. rewrite Htr', Htr, app_assoc. split; [reflexivity|].
      rewrite forallb_app. now rewrite Hall', Hall.
    + now exists more.
    + now exists more.
Qed.

(** X9.  Whatever happens, a run of the update pipeline (the
    pre-flight check and the stages it reaches) touches the outside
    only through ten boto3 operations, none of which creates or deletes
    an AWS resource other than a CloudFront invalidation, through two
    waiters, [docker] commands, [urlopen] probes, sleeps and the reading
    of [package.json]. *)
Theorem update_pipeline_performs_only :
  forall (W : Type) (E : Env W) (s : state W UpdateAwsDeployment.deployer),
  exists more : list event,
    trace (snd (UpdateAwsDeployment.UpdateDeployer_run s)) = (more ++ trace s)%list
    /\ forallb update_pipeline_event more = true.
Proof.
  intros W E s. unfold UpdateAwsDeployment.UpdateDeployer_run.
  destruct (only_preflight s) as (more & Htr & Hall).
  destruct (UpdateAwsDeployment.preflight_check s) as [[[|]|e] s1]; cbn [snd] in *.
  - destruct (@run_stages_only _ (@trace W UpdateAwsDeployment.deployer)
                update_pipeline_event UpdateAwsDeployment.stages only_stages [] s1)
      as (more' & Htr' & Hall').
    destruct (run_stages UpdateAwsDeployment.stages [] s1) as [[[r|e] calls] s2];
      cbn [snd] in *;
      (exists (more' ++ more)%list; rewrite Htr', Htr, app_assoc; split; [reflexivity|];
       rewrite forallb_app; now rewrite Hall', Hall).
  - now exists more.
  - now exists more.
Qed.

(** ** The Lambda deployer: bucket, repository, image *)

Section LambdaBucket.
Context {W : Type} `{Env W}.
Import DeployToLambda.

Lemma create_s3_bucket_flag (s : state W deployer) :
  exists ok s',
    create_s3_bucket s = (Ret ok, s')
    /\ (s3_bucket_created (self s) = false -> s3_bucket_created (self s') = ok)
    /\ (ok = true -> s3_bucket_created (self s') = true)
    /\ ecr_uri (self s') = ecr_uri (self s)
    /\ image_uri (self s') = image_uri (self s)
    /\ result (self s') = result (self s).
Proof.
  unfold create_s3_bucket, try_except, mark_bucket_created.
  unfold bind at 1, boto at 1, external at 1.
  destruct (boto3_call "s3" "head_bucket" _ (world s)) as [[r|e] w1].
  { eexists; eexists. split; [reflexivity|]. cbn. repeat split; auto. }
  destruct e; try (eexists; eexists; split; [reflexivity|]; cbn; repeat split;
                   auto; discriminate).
  destruct (String.eqb code "404").
  2:{ eexists; eexists. split; [reflexivity|]. cbn. repeat split; auto; discriminate. }
  cbn [String.eqb AWS_REGION Ascii.eqb Bool.eqb].
  unfold bind at 1, boto at 1, external at 1. cbn [world self trace].
  destruct (boto3_call "s3" "create_bucket" _ w1) as [[r2|e2] w2].
  2:{ eexists; eexists. split; [reflexivity|]. cbn. repeat split; auto; discriminate. }
  unfold bind at 1, boto at 1, external at 1. cbn [world self trace].
  destruct (boto3_call "s3" "put_bucket_versioning" _ w2) as [[r3|e3] w3].
  2:{ eexists; eexists. split; [reflexivity|]. cbn. repeat split; auto; discriminate. }
  unfold bind at 1, boto at 1, external at 1. cbn [world self trace].
  destruct (boto3_call "s3" "put_bucket_encryption" _ w3) as [[r4|e4] w4].
  2:{ eexists; eexists. split; [reflexivity|]. cbn. repeat split; auto; discriminate. }
  unfold bind at 1, boto at 1, external at 1. cbn [world self trace].
  destruct (boto3_call "s3" "put_bucket_tagging" _ w4) as [[r5|e5] w5].
  2:{ eexists; eexists. split; [reflexivity|]. cbn. repeat split; auto; discriminate. }
  eexists; eexists. split; [reflexivity|]. cbn. repeat split; auto.
Qed.
End LambdaBucket.




(** X12.  In each of the three provisioning scripts, a successful
    [create_ecr_repository] leaves [image_uri] equal to the repository
    URI held in [ecr_uri], a colon and the script's [IMAGE_TAG];
    [AWSDeployer] and [AppRunnerDeployer] return that [ecr_uri]. *)
Theorem create_ecr_repository_sets_image_uri :
  forall (W : Type) (E : Env W),
    (forall (s s' : state W DeployToLambda.deployer),
       DeployToLambda.create_ecr_repository s = (Ret true, s') ->
       DeployToLambda.image_uri (self s')
       = PStr (py_str (DeployToLambda.ecr_uri (self s')) ++ ":" ++ DeployToLambda.IMAGE_TAG))
    /\ (forall (s s' : state W DeployLambda.deployer) (u : pyval),
          DeployLambda.create_ecr_repository s = (Ret u, s') ->
          u = DeployLambda.ecr_uri (self s')
          /\ DeployLambda.image_uri (self s')
             = PStr (py_str u ++ ":" ++ DeployLambda.IMAGE_TAG))
    /\ (forall (s s' : state W DeployToAppRunner.deployer) (u : pyval),
          DeployToAppRunner.create_ecr_repository s = (Ret u, s') ->
          u = DeployToAppRunner.ecr_uri (self s')
          /\ DeployToAppRunner.image_uri (self s')
             = PStr (py_str u ++ ":" ++ DeployToAppRunner.IMAGE_TAG)).
Proof.
  intros W E. split; [|split].
  - intros s s'. unfold DeployToLambda.create_ecr_repository.
    unfold try_except at 1. unfold bind at 1.
    match goal with
    | |- context [try_except ?m ?h s] => destruct (try_except m h s) as [[u|e] s1]
    end; [|discriminate].
    cbn. intros Heq. inversion Heq; subst. reflexivity.
  - intros s s' u. unfold DeployLambda.create_ecr_repository.
    unfold bind at 1.
    match goal with
    | |- context [try_except ?m ?h s] => destruct (try_except m h s) as [[v|e] s1]
    end; [|discriminate].
    cbn. intros Heq. inversion Heq; subst. split; reflexivity.
  - intros s s' u. unfold DeployToAppRunner.create_ecr_repository.
    unfold bind at 1.
    match goal with
    | |- context [try_except ?m ?h s] => destruct (try_except m h s) as [[v|e] s1]
    end; [|discriminate].
    cbn. intros Heq. inversion Heq; subst. split; reflexivity.
Qed.

Lemma create_ecr_repository_sets_image_uri_witness :
  let s := Scripted.start Scripted.healthy DeployToAppRunner.init in
  DeployToAppRunner.create_ecr_repository s
  = (Ret (PStr "registry/repo"),
     mkState Scripted.healthy
       (DeployToAppRunner.mkDeployer (PStr "registry/repo") (PStr "registry/repo:v1.2")
          PNone PNone (PList []) PNone)
       [EvBoto "ecr" "create_repository"
          (DeployToLambda.create_repository_args DeployToAppRunner.ECR_REPO_NAME)])
  /\ DeployToAppRunner.image_uri (self (snd (DeployToAppRunner.create_ecr_repository s)))
     = PStr ("registry/repo" ++ ":" ++ DeployToAppRunner.IMAGE_TAG).
Proof.
  split; [reflexivity|].
  exact (proj2 (proj2 (proj2 (@create_ecr_repository_sets_image_uri Scripted.sim Scripted.sim_env))
                  (Scripted.start Scripted.healthy DeployToAppRunner.init) _
                  (PStr "registry/repo") eq_refl)).
Defined.

Section LambdaBuild.
Context {W : Type} `{Env W}.
Import DeployToLambda.

(** A [CalledProcessError] that leaves the [try] block of the Docker
    step was raised by one of its commands. *)
Lemma build_commands_raise (s : state W deployer) rc out err msg s' :
  (_ <- do_subprocess
          (Shell ("aws ecr get-login-password --region " ++ AWS_REGION ++ " | " ++
                  "docker login --username AWS --password-stdin " ++
                  (AWS_ACCOUNT ++ ".dkr.ecr." ++ AWS_REGION ++ ".amazonaws.com"))) None ;;
   _ <- do_subprocess
          (Argv ["docker"; "buildx"; "build"; "--platform"; "linux/amd64";
                 "--provenance=false"; "--sbom=false"; "--load";
                 "-t"; ECR_REPO_NAME ++ ":" ++ IMAGE_TAG;
                 "-f"; DOCKER_CONTEXT ++ "/Dockerfile.lambda";
                 DOCKER_CONTEXT]) None ;;
   d <- get_self ;;
   uri <- lift (as_str (image_uri d)) ;;
   _ <- do_subprocess (Argv ["docker"; "tag"; ECR_REPO_NAME ++ ":" ++ IMAGE_TAG; uri]) None ;;
   d <- get_self ;;
   uri <- lift (as_str (image_uri d)) ;;
   _ <- do_subprocess (Argv ["docker"; "push"; uri]) None ;;
   ret true) s
  = (Raise (CalledProcessError rc out err msg), s') ->
  exists cmd w,
    fst (subprocess_run cmd None w) = Raise (CalledProcessError rc out err msg).
Proof.
  unfold bind at 1, do_subprocess at 1, external at 1.
  destruct (subprocess_run (Shell _) None (world s)) as [[o1|e1] w1] eqn:H1.
  2:{ intros Heq. inversion Heq; subst. eexists; eexists. now rewrite H1. }
  unfold bind at 1, do_subprocess at 1, external at 1. cbn [world self trace].
  destruct (subprocess_run (Argv _) None w1) as [[o2|e2] w2] eqn:H2.
  2:{ intros Heq. inversion Heq; subst. eexists; eexists. now rewrite H2. }
  unfold bind at 1, get_self at 1. cbn [world self trace].
  unfold bind at 1, lift at 1.
  destruct (as_str (image_uri (self s))) as [uri|e] eqn:Huri.
  2:{ destruct (image_uri (self s)); cbn in Huri; inversion Huri; subst; discriminate. }
  unfold bind at 1, do_subprocess at 1, external at 1. cbn [world self trace].
  destruct (subprocess_run (Argv _) None w2) as [[o3|e3] w3] eqn:H3.
  2:{ intros Heq. inversion Heq; subst. eexists; eexists. now rewrite H3. }
  unfold bind at 1, get_self at 1. cbn [world self trace].
  unfold bind at 1, lift at 1. rewrite Huri.
  unfold bind at 1, do_subprocess at 1, external at 1. cbn [world self trace].
  destruct (subprocess_run (Argv _) None w3) as [[o4|e4] w4] eqn:H4.
  2:{ intros Heq. inversion Heq; subst. eexists; eexists. now rewrite H4. }
  discriminate.
Qed.
End LambdaBuild.

(** X13.  The Docker step of the Lambda deployer catches every
    exception of its [try] block, but the clause for a failed command
    decodes the error stream of the command before it returns [False].
    The only exception that can leave the step is therefore the one of
    that decoding: some command has exited non-zero with a non-empty
    error stream that [decode] rejects. *)
Theorem lambda_build_raises_only_from_decode :
  forall (W : Type) (E : Env W) (s s' : state W DeployToLambda.deployer) (e : exn),
    DeployToLambda.build_and_push_docker_image s = (Raise e, s') ->
    exists cmd w rc out stderr msg,
      fst (subprocess_run cmd None w) = Raise (CalledProcessError rc out (Some stderr) msg)
      /\ is_empty stderr = false
      /\ bytes_decode stderr = Raise e.
Proof.
  intros W E s s' e. unfold DeployToLambda.build_and_push_docker_image.
  unfold try_except at 1.
  match goal with
  | |- context [bind ?m ?k s] => destruct (bind m k s) as [[b|e0] s1] eqn:Hbody
  end; [discriminate|].
  destruct e0; try discriminate.
  destruct stderr as [b|]; [|discriminate].
  destruct (is_empty b) eqn:Hb; [discriminate|].
  unfold bind, lift. destruct (bytes_decode b) as [txt|e1] eqn:Hdec; [discriminate|].
  intros Heq. inversion Heq; subst.
  destruct (build_commands_raise _ Hbody) as (cmd & w & Hcmd).
  exists cmd, w, returncode, stdout, b, msg. auto.
Qed.

Lemma lambda_build_raises_only_from_decode_witness :
  exists cmd w rc out stderr msg,
    fst (@subprocess_run unit garbled_env cmd None w)
    = Raise (CalledProcessError rc out (Some stderr) msg)
    /\ is_empty stderr = false
    /\ @bytes_decode unit garbled_env stderr = Raise cannot_decode.
Proof.
  exact (@lambda_build_raises_only_from_decode unit garbled_env
           (mkState tt (DeployToLambda.mkDeployer (PStr "registry/repo")
                          (PStr "registry/repo:v1.2") true DeployToLambda.initial_result) [])
           _ cannot_decode eq_refl).
Defined.

(** A computation that keeps an attribute keeps it on every state. *)
Lemma keeps_from_auto {W Self X A} (proj : Self -> X) (m : M W Self A) :
  keeps proj m -> forall s, proj (self (snd (m s))) = proj (self s).
Proof. intros Hk. exact Hk. Qed.

Section LambdaReport.
Context {W : Type} `{Env W}.
Import DeployToLambda.

Local Abbreviation St := (state W deployer).

Lemma build_same_object (s : St) : same_object s (snd (build_and_push_docker_image s)).
Proof.
  repeat split;
    [apply (@keeps_from_auto _ _ _ _ ecr_uri) | apply (@keeps_from_auto _ _ _ _ image_uri)
    | apply (@keeps_from_auto _ _ _ _ s3_bucket_created)
    | apply (@keeps_from_auto _ _ _ _ result)];
    unfold build_and_push_docker_image; keeps_auto.
Qed.

Lemma role_same_object (s : St) : same_object s (snd (create_lambda_execution_role s)).
Proof.
  repeat split;
    [apply (@keeps_from_auto _ _ _ _ ecr_uri) | apply (@keeps_from_auto _ _ _ _ image_uri)
    | apply (@keeps_from_auto _ _ _ _ s3_bucket_created)
    | apply (@keeps_from_auto _ _ _ _ result)];
    unfold create_lambda_execution_role, put_s3_policy; keeps_auto.
Qed.

Lemma function_same_object role_arn (s : St) :
  same_object s (snd (create_or_update_lambda_function role_arn s)).
Proof.
  repeat split;
    [apply (@keeps_from_auto _ _ _ _ ecr_uri) | apply (@keeps_from_auto _ _ _ _ image_uri)
    | apply (@keeps_from_auto _ _ _ _ s3_bucket_created)
    | apply (@keeps_from_auto _ _ _ _ result)];
    unfold create_or_update_lambda_function; keeps_auto.
Qed.

Lemma url_same_object (s : St) : same_object s (snd (create_function_url s)).
Proof.
  repeat split;
    [apply (@keeps_from_auto _ _ _ _ ecr_uri) | apply (@keeps_from_auto _ _ _ _ image_uri)
    | apply (@keeps_from_auto _ _ _ _ s3_bucket_created)
    | apply (@keeps_from_auto _ _ _ _ result)];
    unfold create_function_url, add_public_permission; keeps_auto.
Qed.

Lemma six_steps_report (s0 : St) function_url s6 :
  reached_6 s0 function_url s6 ->
  exists s7,
    deploy_steps s0 = (Ret (result (self s7)), s7)
    /\ success (result (self s7)) = true
    /\ r_s3_bucket (result (self s7)) = PStr S3_BUCKET_NAME
    /\ r_ecr_repository (result (self s7)) = ecr_uri (self s7)
    /\ r_image_uri (result (self s7)) = image_uri (self s7)
    /\ truthy (r_function_arn (result (self s7))) = true
    /\ truthy (r_function_url (result (self s7))) = true
    /\ s3_bucket_created (self s7) = true.
Proof.
  intros (function_arn & s5 & (role_arn & s4 & R4 & H5 & T5) & H6 & T6).
  destruct R4 as (s3 & (s2 & (s1 & H1 & H2) & H3) & H4 & T4).
  unfold reached_1 in H1.
  (* what each step leaves *)
  destruct (create_s3_bucket_flag s0) as (ok & s1' & H1' & _ & Hflag & _).
  rewrite H1 in H1'. inversion H1'; subst ok s1'. specialize (Hflag eq_refl).
  pose proof (keeps_result_ecr
                (mkState (world s1)
                   (mkDeployer (ecr_uri (self s1)) (image_uri (self s1))
                      (s3_bucket_created (self s1))
                      (mkResult (success (result (self s1))) (PStr S3_BUCKET_NAME)
                         (r_ecr_repository (result (self s1)))
                         (r_image_uri (result (self s1)))
                         (r_function_arn (result (self s1)))
                         (r_function_url (result (self s1)))
                         (failed_step (result (self s1))) (error (result (self s1)))))
                   (trace s1))) as K2.
  pose proof (@keeps_from_auto _ _ _ _ s3_bucket_created create_ecr_repository
                ltac:(unfold create_ecr_repository, set_ecr_uri; keeps_auto)
                (mkState (world s1)
                   (mkDeployer (ecr_uri (self s1)) (image_uri (self s1))
                      (s3_bucket_created (self s1))
                      (mkResult (success (result (self s1))) (PStr S3_BUCKET_NAME)
                         (r_ecr_repository (result (self s1)))
                         (r_image_uri (result (self s1)))
                         (r_function_arn (result (self s1)))
                         (r_function_url (result (self s1)))
                         (failed_step (result (self s1))) (error (result (self s1)))))
                   (trace s1))) as F2.
  unfold bind at 1, record_s3_bucket, update_result, set_self in H2.
  cbn [world self trace ecr_uri image_uri s3_bucket_created result] in H2.
  rewrite H2 in K2, F2. cbn [snd self result s3_bucket_created] in K2, F2.
  unfold bind at 1, record_ecr_repository in H3.
  unfold bind at 1, get_self at 1, update_result, set_self in H3.
  cbn [world self trace ecr_uri image_uri s3_bucket_created result] in H3.
  match type of H3 with
  | build_and_push_docker_image ?st = _ =>
      destruct (build_same_object st) as ((E3 & I3 & F3) & K3)
  end.
  rewrite H3 in E3, I3, F3, K3.
  cbn [snd self ecr_uri image_uri s3_bucket_created result] in E3, I3, F3, K3.
  unfold bind at 1, record_image_uri in H4.
  unfold bind at 1, get_self at 1, update_result, set_self in H4.
  cbn [world self trace ecr_uri image_uri s3_bucket_created result] in H4.
  match type of H4 with
  | create_lambda_execution_role ?st = _ =>
      destruct (role_same_object st) as ((E4 & I4 & F4) & K4)
  end.
  rewrite H4 in E4, I4, F4, K4.
  cbn [snd self ecr_uri image_uri s3_bucket_created result] in E4, I4, F4, K4.
  destruct (function_same_object role_arn s4) as ((E5 & I5 & F5) & K5).
  rewrite H5 in E5, I5, F5, K5. cbn [snd] in E5, I5, F5, K5.
  unfold bind at 1, record_function_arn, update_result, set_self in H6.
  cbn [world self trace ecr_uri image_uri s3_bucket_created result] in H6.
  match type of H6 with
  | create_function_url ?st = _ =>
      destruct (url_same_object st) as ((E6 & I6 & F6) & K6)
  end.
  rewrite H6 in E6, I6, F6, K6.
  cbn [snd self ecr_uri image_uri s3_bucket_created result] in E6, I6, F6, K6.
  (* the run *)
  unfold deploy_steps.
  rewrite (bind_ret_eq _ _ _ H1). cbn [negb].
  unfold bind at 1, record_s3_bucket at 1, update_result at 1, set_self at 1.
  cbn [world self trace ecr_uri image_uri s3_bucket_created result].
  rewrite (bind_ret_eq _ _ _ H2). cbn [negb].
  unfold bind at 1, record_ecr_repository at 1.
  unfold bind at 1, get_self at 1, update_result at 1, set_self at 1.
  cbn [world self trace ecr_uri image_uri s3_bucket_created result].
  rewrite (bind_ret_eq _ _ _ H3). cbn [negb].
  unfold bind at 1, record_image_uri at 1.
  unfold bind at 1, get_self at 1, update_result at 1, set_self at 1.
  cbn [world self trace ecr_uri image_uri s3_bucket_created result].
  rewrite (bind_ret_eq _ _ _ H4). rewrite T4. cbn [negb].
  rewrite (bind_ret_eq _ _ _ H5). rewrite T5. cbn [negb].
  unfold bind at 1, record_function_arn at 1, update_result at 1, set_self at 1.
  cbn [world self trace ecr_uri image_uri s3_bucket_created result].
  rewrite (bind_ret_eq _ _ _ H6). rewrite T6. cbn [negb].
  eexists. split; [reflexivity|].
  cbn [self result success r_s3_bucket r_ecr_repository r_image_uri r_function_arn
         r_function_url ecr_uri image_uri s3_bucket_created].
  rewrite K6. cbn [r_s3_bucket r_ecr_repository r_image_uri r_function_arn].
  rewrite K5, K4. cbn [r_s3_bucket r_ecr_repository r_image_uri].
  rewrite K3. cbn [r_s3_bucket r_ecr_repository].
  rewrite K2. cbn [r_s3_bucket].
  rewrite E6, E5, E4, E3, I6, I5, I4, F6, F5, F4, F3, F2.
  repeat split; try assumption; reflexivity.
Qed.
End LambdaReport.

(** X14.  When [LambdaDeployer.deploy] reports [success], every entry
    of the report is filled in: the bucket name, the repository URI and
    the image URI that the deployer holds in [ecr_uri] and [image_uri],
    and a function ARN and a function URL that are true values; no step
    is named as failed, no error is recorded, and the deployer has its
    [s3_bucket_created] flag set. *)
Theorem lambda_deploy_success_report :
  forall (W : Type) (E : Env W) (s s' : state W DeployToLambda.deployer)
         (r : DeployToLambda.deployment_result),
    DeployToLambda.deploy s = (Ret r, s') ->
    DeployToLambda.success r = true ->
    DeployToLambda.r_s3_bucket r = PStr DeployToLambda.S3_BUCKET_NAME
    /\ DeployToLambda.r_ecr_repository r = DeployToLambda.ecr_uri (self s')
    /\ DeployToLambda.r_image_uri r = DeployToLambda.image_uri (self s')
    /\ truthy (DeployToLambda.r_function_arn r) = true
    /\ truthy (DeployToLambda.r_function_url r) = true
    /\ DeployToLambda.failed_step r = None
    /\ DeployToLambda.error r = None
    /\ DeployToLambda.s3_bucket_created (self s') = true.
Proof.
  intros W E s s' r Hrun Hok. rewrite deploy_eq in Hrun.
  destruct (DeployToLambda.deploy_steps (DeployToLambda.at_start s)) as [o s1] eqn:Hsteps.
  pose proof (deploy_steps_course (DeployToLambda.at_start s)
                (at_start_pristine s) Hsteps) as Hcourse.
  destruct o as [r0|e].
  - rewrite (try_ret_eq _ _ _ Hsteps) in Hrun. inversion Hrun; subst r0 s1.
    destruct Hcourse as [(_ & Hf & He & Hsix)|(Hs & _)]; [|congruence].
    destruct Hsix as (function_url & s6 & R6).
    destruct (six_steps_report R6)
      as (s7 & Hrun7 & _ & Hb & Hrepo & Himg & Harn & Hurl & Hflag).
    rewrite Hsteps in Hrun7. inversion Hrun7; subst.
    repeat split; assumption.
  - rewrite (try_caught_eq _ _ _ Hsteps eq_refl) in Hrun.
    cbn in Hrun. inversion Hrun; subst. cbn in Hok.
    destruct Hcourse as (Hs & _). congruence.
Qed.

Lemma lambda_deploy_success_report_witness :
  let run := DeployToLambda.deploy (Scripted.start Scripted.healthy DeployToLambda.init) in
  exists r,
    fst run = Ret r
    /\ DeployToLambda.success r = true
    /\ DeployToLambda.r_s3_bucket r = PStr DeployToLambda.S3_BUCKET_NAME
    /\ DeployToLambda.r_ecr_repository r = PStr "registry/repo"
    /\ DeployToLambda.r_image_uri r = PStr "registry/repo:v1.2".
Proof.
  cbv zeta.
  destruct (DeployToLambda.deploy (Scripted.start Scripted.healthy DeployToLambda.init))
    as [o s'] eqn:Hrun.
  assert (Ho : exists r, o = Ret r /\ DeployToLambda.success r = true
                         /\ DeployToLambda.ecr_uri (self s') = PStr "registry/repo"
                         /\ DeployToLambda.image_uri (self s') = PStr "registry/repo:v1.2").
  { vm_compute in Hrun. inversion Hrun; subst. eexists. repeat split. }
  destruct Ho as (r & -> & Hok & Hecr & Himg).
  destruct (@lambda_deploy_success_report Scripted.sim Scripted.sim_env _ _ _ Hrun Hok)
    as (Hb & Hrepo & Himage & _).
  exists r. rewrite <- Hecr, <- Himg. repeat split; assumption.
Defined.

(** ** Pre- and postconditions: rules *)

Section Triples.
Context {W Self : Type}.

Local Abbreviation Ms := (M W Self).
Local Abbreviation St := (state W Self).

Lemma triple_ret {A} (P : St -> Prop) (a : A) Q R :
  (forall s, P s -> Q a s) -> triple P (ret a : Ms A) Q R.
Proof. intros H s Hs. now apply H. Qed.

Lemma triple_bind {A B} (P : St -> Prop) (m : Ms A) (k : A -> Ms B) Q1 Q R :
  triple P m Q1 R -> (forall a, triple (Q1 a) (k a) Q R) -> triple P (bind m k) Q R.
Proof.
  intros Hm Hk s Hs. unfold bind. specialize (Hm s Hs).
  destruct (m s) as [[a|e] s1]; [now apply Hk|exact Hm].
Qed.

Lemma triple_try {A} (P : St -> Prop) (m : Ms A) h Q R1 R :
  triple P m Q R1 ->
  (forall e k, h e = Some k -> triple (R1 e) k Q R) ->
  (forall e s, h e = None -> R1 e s -> R e s) ->
  triple P (try_except m h) Q R.
Proof.
  intros Hm Hh Hnone s Hs. unfold try_except. specialize (Hm s Hs).
  destruct (m s) as [[a|e] s1]; [exact Hm|].
  destruct (h e) as [k|] eqn:Hhe; [now apply (Hh e k Hhe)|now apply Hnone].
Qed.

Lemma triple_weaken {A} (P P' : St -> Prop) (m : Ms A) (Q Q' : A -> St -> Prop)
    (R R' : exn -> St -> Prop) :
  triple P m Q R ->
  (forall s, P' s -> P s) -> (forall a s, Q a s -> Q' a s) ->
  (forall e s, R e s -> R' e s) ->
  triple P' m Q' R'.
Proof.
  intros Hm HP HQ HR s Hs. specialize (Hm s (HP s Hs)).
  destruct (m s) as [[a|e] s1]; auto.
Qed.

(** A computation that keeps an attribute keeps what holds of it. *)
Lemma triple_keeps {A X} (proj : Self -> X) (I : X -> Prop) (m : Ms A) :
  keeps proj m ->
  triple (fun s => I (proj (self s))) m
    (fun _ s => I (proj (self s))) (fun _ s => I (proj (self s))).
Proof.
  intros Hk s Hs. specialize (Hk s).
  destruct (m s) as [[a|e] s1]; cbn [snd] in Hk; now rewrite Hk.
Qed.
End Triples.

Section FrameKeeps.
Context {W Self L : Type}.

Lemma keeps_call_local {A} (m : M W Self A) : keeps (@snd Self L) (call m).
Proof. intros s. unfold call. now destruct (m _). Qed.

Lemma keeps_call {A X} (proj : Self -> X) (m : M W Self A) :
  keeps proj m -> keeps (fun p : Self * L => proj (fst p)) (call m).
Proof.
  intros Hk s. unfold call.
  specialize (Hk (mkState (world s) (fst (self s)) (trace s))).
  now destruct (m _).
Qed.

Lemma keeps_set_local_object {X} (proj : Self -> X) (f : L -> L) :
  keeps (fun p : Self * L => proj (fst p)) (set_local f : M W (Self * L) unit).
Proof. intros s. reflexivity. Qed.

Lemma keeps_get_local {X} (proj : Self * L -> X) : keeps proj (get_local : M W (Self * L) L).
Proof. intros s. reflexivity. Qed.
End FrameKeeps.

(** ** The App Runner deployer *)

Section AppRunnerKeeps.
Context {W : Type} `{Env W}.
Import DeployToAppRunner.

Lemma keeps_wait_for_running {X} (proj : deployer -> X) n arn :
  keeps proj (wait_for_running n arn).
Proof.
  induction n as [|n IH]; cbn [wait_for_running]; [apply keeps_raise|].
  keeps_auto; try exact IH.
Qed.

Lemma only_wait_for_running n arn :
  performs_only apprunner_deploy_event (wait_for_running n arn).
Proof.
  induction n as [|n IH]; cbn [wait_for_running]; [apply only_raise|].
  only_auto; try exact IH.
Qed.

Lemma keeps_efs_ecr : keeps efs_id create_ecr_repository.
Proof. unfold create_ecr_repository, set_ecr_uri. keeps_auto. Qed.

Lemma keeps_efs_build : keeps efs_id build_and_push_docker_image.
Proof. unfold build_and_push_docker_image. keeps_auto. Qed.

Lemma keeps_efs_vpc : keeps efs_id get_default_vpc_and_subnets.
Proof.
  unfold get_default_vpc_and_subnets, reraise_client_error, set_vpc_id, set_subnet_ids.
  keeps_auto.
Qed.

Lemma keeps_efs_sg : keeps efs_id create_security_group.
Proof.
  unfold create_security_group, reraise_client_error, set_security_group_id.
  keeps_auto.
Qed.

Lemma keeps_efs_access : keeps efs_id create_access_role.
Proof. unfold create_access_role, reuse_role. keeps_auto. Qed.

Lemma keeps_efs_instance : keeps efs_id create_instance_role.
Proof. unfold create_instance_role, reuse_role. keeps_auto. Qed.

Lemma keeps_efs_service a i : keeps efs_id (create_or_update_app_runner_service a i).
Proof.
  unfold create_or_update_app_runner_service.
  keeps_auto; try apply keeps_wait_for_running.
Qed.

Lemma only_ecr : performs_only apprunner_deploy_event create_ecr_repository.
Proof. unfold create_ecr_repository, set_ecr_uri. only_auto. Qed.

Lemma only_build : performs_only apprunner_deploy_event build_and_push_docker_image.
Proof. unfold build_and_push_docker_image. only_auto. Qed.

Lemma only_vpc : performs_only apprunner_deploy_event get_default_vpc_and_subnets.
Proof.
  unfold get_default_vpc_and_subnets, reraise_client_error, set_vpc_id, set_subnet_ids.
  only_auto.
Qed.

Lemma only_sg : performs_only apprunner_deploy_event create_security_group.
Proof.
  unfold create_security_group, reraise_client_error, set_security_group_id.
  only_auto.
Qed.

Lemma only_access : performs_only apprunner_deploy_event create_access_role.
Proof. unfold create_access_role, reuse_role. only_auto. Qed.

Lemma only_instance : performs_only apprunner_deploy_event create_instance_role.
Proof. unfold create_instance_role, reuse_role. only_auto. Qed.

Lemma only_service a i :
  performs_only apprunner_deploy_event (create_or_update_app_runner_service a i).
Proof.
  unfold create_or_update_app_runner_service.
  only_auto; try apply only_wait_for_running.
Qed.
End AppRunnerKeeps.

Section AppRunnerDeploy.
Context {W : Type} `{Env W}.
Import DeployToAppRunner.

Local Abbreviation Sf := (state W (deployer * deployment_result)).

Lemma triple_set_local (I : deployment_result -> Prop) f R :
  (forall r, I r -> I (f r)) ->
  triple (fun s : Sf => I (snd (self s))) (set_local f)
    (fun _ s => I (snd (self s))) R.
Proof. intros Hf s Hs. cbn. now apply Hf. Qed.

Lemma triple_call_local {A} (I : deployment_result -> Prop) (m : M W deployer A) :
  triple (fun s : Sf => I (snd (self s))) (call m)
    (fun _ s => I (snd (self s))) (fun _ s => I (snd (self s))).
Proof. apply (@triple_keeps _ _ _ _ (@snd deployer deployment_result) I), keeps_call_local. Qed.

Lemma apprunner_deploy_eq (s : Sf) :
  deploy s
  = try_except deploy_steps (fun e => Some (record_error e ;; get_local)) (frame_start s).
Proof. reflexivity. Qed.

Lemma apprunner_steps_course :
  triple (fun s : Sf => unreported (snd (self s))) deploy_steps
    (fun r s =>
       r = snd (self s) /\ success r = true /\ errors r = [] /\ r_efs_id r = PNone
       /\ exists u, r_service_url r = PStr ("https://" ++ u))
    (fun _ s => unreported (snd (self s))).
Proof.
  unfold deploy_steps.
  eapply triple_bind; [apply triple_call_local|intros ecr_uri].
  eapply triple_bind;
    [apply triple_set_local; intros r (? & ? & ? & ?); repeat split; assumption|intros ?].
  eapply triple_bind; [apply triple_call_local|intros image_uri].
  eapply triple_bind;
    [apply triple_set_local; intros r (? & ? & ? & ?); repeat split; assumption|intros ?].
  eapply triple_bind; [apply triple_call_local|intros [vpc subnets]].
  eapply triple_bind; [apply triple_call_local|intros sg_id].
  eapply triple_bind; [apply triple_call_local|intros access_role_arn].
  eapply triple_bind; [apply triple_call_local|intros instance_role_arn].
  eapply triple_bind; [apply triple_call_local|intros service_info].
  eapply triple_bind;
    [apply (@triple_keeps _ _ _ _ (@snd deployer deployment_result) unreported), keeps_lift
    |intros u].
  intros s (Hs & He & Hu & Hf). cbn.
  repeat split; try assumption. now exists (py_str u).
Qed.

Lemma apprunner_deploy_course (s : Sf) :
  exists r s',
    deploy s = (Ret r, s')
    /\ snd (self s') = r
    /\ r_efs_id r = PNone
    /\ match fst (deploy_steps (frame_start s)) with
       | Ret _ =>
           success r = true /\ errors r = []
           /\ exists u, r_service_url r = PStr ("https://" ++ u)
       | Raise e =>
           success r = false /\ errors r = [exn_str e] /\ r_service_url r = PNone
       end.
Proof.
  rewrite apprunner_deploy_eq.
  pose proof apprunner_steps_course as Hcourse. unfold triple in Hcourse.
  specialize (Hcourse (frame_start s)).
  unfold try_except.
  destruct (deploy_steps (frame_start s)) as [[r|e] s1]; cbn [fst].
  - destruct Hcourse as (Hr & Hs & He & Hf & Hu); [repeat split|].
    exists r, s1. repeat split; auto.
  - destruct Hcourse as (Hs & He & Hu & Hf); [repeat split|].
    eexists; eexists. split; [reflexivity|]. cbn.
    rewrite He. repeat split; assumption.
Qed.

Lemma efs_calls_allowed more tr :
  forallb apprunner_deploy_event more = true ->
  efs_calls (more ++ tr) = efs_calls tr.
Proof.
  induction more as [|ev more IH]; cbn [forallb app]; [reflexivity|].
  intros Hall. apply andb_true_iff in Hall. destruct Hall as [Hev Hrest].
  specialize (IH Hrest).
  destruct ev; cbn [efs_calls]; try exact IH; try discriminate Hev.
  cbn in Hev.
  destruct (String.eqb service "efs") eqn:Hefs; [|exact IH].
  apply String.eqb_eq in Hefs. subst service. discriminate Hev.
Qed.
End AppRunnerDeploy.

(** X15.  [AppRunnerDeployer.deploy] returns its report from every
    state: no exception leaves it.  When the [try] block completes, the
    report has [success] set, no error, and a service URL that starts
    with [https://]; when the block raises, [success] is unset, the
    service URL is [None] and [errors] holds exactly the text of the
    exception.  The [efs_id] entry is [None] in both cases. *)
Theorem apprunner_deploy_always_returns :
  forall (W : Type) (E : Env W)
         (s : state W (DeployToAppRunner.deployer * DeployToAppRunner.deployment_result)),
  exists r s',
    DeployToAppRunner.deploy s = (Ret r, s')
    /\ snd (self s') = r
    /\ DeployToAppRunner.r_efs_id r = PNone
    /\ match fst (DeployToAppRunner.deploy_steps (frame_start s)) with
       | Ret _ =>
           DeployToAppRunner.success r = true
           /\ DeployToAppRunner.errors r = []
           /\ exists u, DeployToAppRunner.r_service_url r = PStr ("https://" ++ u)
       | Raise e =>
           DeployToAppRunner.success r = false
           /\ DeployToAppRunner.errors r = [exn_str e]
           /\ DeployToAppRunner.r_service_url r = PNone
       end.
Proof. intros W E s. apply apprunner_deploy_course. Qed.

(** X16.  [AppRunnerDeployer.deploy] reaches the outside only through
    the ECR, EC2, IAM and App Runner clients, sub-processes and sleeps.
    It makes no call to EFS (the step that would create the file system
    is commented out) and leaves the attribute [efs_id] as it was. *)
Theorem apprunner_deploy_never_touches_efs :
  forall (W : Type) (E : Env W)
         (s : state W (DeployToAppRunner.deployer * DeployToAppRunner.deployment_result)),
    (exists more,
       trace (snd (DeployToAppRunner.deploy s)) = (more ++ trace s)%list
       /\ forallb apprunner_deploy_event more = true)
    /\ efs_calls (trace (snd (DeployToAppRunner.deploy s))) = efs_calls (trace s)
    /\ DeployToAppRunner.efs_id (fst (self (snd (DeployToAppRunner.deploy s))))
       = DeployToAppRunner.efs_id (fst (self s)).
Proof.
  intros W E s.
  assert (Honly : performs_only apprunner_deploy_event DeployToAppRunner.deploy).
  { unfold DeployToAppRunner.deploy, DeployToAppRunner.deploy_steps,
      DeployToAppRunner.record_error, DeployToAppRunner.record_ecr_repository,
      DeployToAppRunner.record_image_uri, DeployToAppRunner.record_service_url,
      DeployToAppRunner.record_success.
    only_auto;
      first [apply only_ecr | apply only_build | apply only_vpc | apply only_sg
            | apply only_access | apply only_instance | apply only_service]. }
  assert (Hkeeps : keeps (fun p : DeployToAppRunner.deployer
                                * DeployToAppRunner.deployment_result =>
                            DeployToAppRunner.efs_id (fst p)) DeployToAppRunner.deploy).
  { unfold DeployToAppRunner.deploy, DeployToAppRunner.deploy_steps,
      DeployToAppRunner.record_error, DeployToAppRunner.record_ecr_repository,
      DeployToAppRunner.record_image_uri, DeployToAppRunner.record_service_url,
      DeployToAppRunner.record_success.
    repeat first
      [ apply keeps_set_local_object
      | apply keeps_get_local
      | apply (@keeps_call _ _ _ _ _ DeployToAppRunner.efs_id);
        first [apply keeps_efs_ecr | apply keeps_efs_build | apply keeps_efs_vpc
              | apply keeps_efs_sg | apply keeps_efs_access | apply keeps_efs_instance
              | apply keeps_efs_service]
      | keeps_step ]. }
  destruct (Honly s) as (more & Htr & Hall).
  split; [now exists more|]. split; [|apply Hkeeps].
  rewrite Htr. now apply efs_calls_allowed.
Qed.


(** ** The network steps of the App Runner deployer *)

(** Symbolic execution along the equations at hand. *)
Ltac run_with_hyps :=
  unfold try_except, bind, lift, boto, waiter_wait, do_subprocess, external, ret, raise,
    get_self, set_self;
  repeat first
    [ progress cbv beta iota
    | progress cbn [world self trace fst snd]
    | match goal with
      | H : _ = _ |- _ => rewrite H
      end ].


(** X18.  Without a default VPC, [get_default_vpc_and_subnets] raises
    its own exception right after the [describe_vpcs] call: it does not
    ask for subnets and leaves the deployer as it was. *)
Theorem no_default_vpc_raises :
  forall (W : Type) (E : Env W) (s : state W DeployToAppRunner.deployer)
         (vpcs found : pyval) (w1 : W),
    boto3_call "ec2" "describe_vpcs" describe_vpcs_args (world s) = (Ret vpcs, w1) ->
    getitem vpcs "Vpcs" = Ret found ->
    truthy found = false ->
    DeployToAppRunner.get_default_vpc_and_subnets s
    = (Raise DeployToAppRunner.no_default_vpc,
       mkState w1 (self s) (EvBoto "ec2" "describe_vpcs" describe_vpcs_args :: trace s)).
Proof.
  intros W E s vpcs found w1 Hcall Hget Hnone.
  unfold DeployToAppRunner.get_default_vpc_and_subnets, try_except.
  unfold bind at 1, boto at 1, external at 1.
  fold describe_vpcs_args. rewrite Hcall.
  unfold bind at 1, lift at 1. rewrite Hget. rewrite Hnone. reflexivity.
Qed.

Lemma no_default_vpc_raises_witness :
  let w := Scripted.with_boto no_vpc Scripted.healthy in
  DeployToAppRunner.get_default_vpc_and_subnets (Scripted.start w DeployToAppRunner.init)
  = (Raise DeployToAppRunner.no_default_vpc,
     mkState w DeployToAppRunner.init [EvBoto "ec2" "describe_vpcs" describe_vpcs_args]).
Proof.
  exact (@no_default_vpc_raises Scripted.sim Scripted.sim_env
           (Scripted.start (Scripted.with_boto no_vpc Scripted.healthy) DeployToAppRunner.init)
           _ (PList []) _ eq_refl eq_refl eq_refl).
Defined.

(** X19.  [create_security_group] looks the group up by name in the
    deployer's VPC first.  When the lookup finds groups it adopts the
    first one and makes no other call; when it finds none it creates the
    group in that VPC and opens the created group to NFS (TCP port 2049)
    from any address. *)
Theorem security_group_found_or_created :
  forall (W : Type) (E : Env W) (s : state W DeployToAppRunner.deployer)
         (existing_sgs found : pyval) (w1 : W),
    let vpc := DeployToAppRunner.vpc_id (self s) in
    let lookup := EvBoto "ec2" "describe_security_groups" (describe_security_groups_args vpc) in
    let adopting gid :=
      DeployToAppRunner.mkDeployer
        (DeployToAppRunner.ecr_uri (self s)) (DeployToAppRunner.image_uri (self s))
        (DeployToAppRunner.efs_id (self s)) vpc (DeployToAppRunner.subnet_ids (self s)) gid in
    boto3_call "ec2" "describe_security_groups" (describe_security_groups_args vpc) (world s)
    = (Ret existing_sgs, w1) ->
    getitem existing_sgs "SecurityGroups" = Ret found ->
    (forall g others gid,
       found = PList (g :: others) ->
       getitem g "GroupId" = Ret gid ->
       DeployToAppRunner.create_security_group s
       = (Ret gid, mkState w1 (adopting gid) (lookup :: trace s)))
    /\ (forall response gid w2 answer w3,
          truthy found = false ->
          boto3_call "ec2" "create_security_group" (create_security_group_args vpc) w1
          = (Ret response, w2) ->
          getitem response "GroupId" = Ret gid ->
          boto3_call "ec2" "authorize_security_group_ingress" (authorize_ingress_args gid) w2
          = (Ret answer, w3) ->
          DeployToAppRunner.create_security_group s
          = (Ret gid,
             mkState w3 (adopting gid)
               (EvBoto "ec2" "authorize_security_group_ingress" (authorize_ingress_args gid)
                :: EvBoto "ec2" "create_security_group" (create_security_group_args vpc)
                :: lookup :: trace s))).
Proof.
  intros W E s existing_sgs found w1 vpc lookup adopting Hcall Hfound.
  subst vpc lookup adopting.
  unfold describe_security_groups_args, create_security_group_args,
    authorize_ingress_args in *.
  split.
  - intros g others gid -> Hgid.
    unfold DeployToAppRunner.create_security_group,
      DeployToAppRunner.set_security_group_id.
    run_with_hyps. cbn [truthy getitem0]. run_with_hyps. reflexivity.
  - intros response gid w2 answer w3 Hnone Hcreate Hgid Hauth.
    unfold DeployToAppRunner.create_security_group,
      DeployToAppRunner.set_security_group_id.
    run_with_hyps.
    cbn [DeployToAppRunner.security_group_id]. run_with_hyps. reflexivity.
Qed.

Lemma security_group_found_or_created_witness :
  (let w := Scripted.with_boto one_vpc Scripted.healthy in
   DeployToAppRunner.create_security_group (Scripted.start w with_network)
   = (Ret (PStr "sg-1"),
      mkState w with_network
        [EvBoto "ec2" "describe_security_groups"
           (describe_security_groups_args (PStr "vpc-1"))]))
  /\ (let w := Scripted.with_boto fresh_region Scripted.healthy in
      fst (DeployToAppRunner.create_security_group (Scripted.start w with_network))
      = Ret (PStr "sg-new")).
Proof.
  split.
  - exact (proj1 (@security_group_found_or_created Scripted.sim Scripted.sim_env
                    (Scripted.start (Scripted.with_boto one_vpc Scripted.healthy) with_network)
                    _ _ _ eq_refl eq_refl)
             _ [] (PStr "sg-1") eq_refl eq_refl).
  - exact (f_equal fst
             (proj2 (@security_group_found_or_created Scripted.sim Scripted.sim_env
                       (Scripted.start (Scripted.with_boto fresh_region Scripted.healthy)
                          with_network)
                       _ _ _ eq_refl eq_refl)
                _ (PStr "sg-new") _ _ _ eq_refl eq_refl eq_refl eq_refl)).
Defined.

(** ** The file system of the App Runner deployer *)

Section FileSystem.
Context {W : Type} `{Env W}.
Import DeployToAppRunner.

Lemma skip_other_file_systems (before : list pyval) rest (s : state W deployer) :
  forallb other_file_system before = true ->
  for_each (before ++ rest) existing_file_system s = for_each rest existing_file_system s.
Proof.
  induction before as [|fs before IH]; cbn [app forallb]; [reflexivity|].
  intros Hall. apply andb_true_iff in Hall. destruct Hall as [Hfs Hrest].
  cbn [for_each]. unfold bind at 1, existing_file_system at 1.
  unfold bind at 1, lift at 1. unfold other_file_system in Hfs.
  destruct (dict_get fs "Name" PNone) as [name|e]; [|discriminate].
  apply negb_true_iff in Hfs. rewrite Hfs. unfold ret at 1. now apply IH.
Qed.

Lemma mount_in_settled subnet (s : state W deployer) :
  (forall kwargs w, mount_settled (fst (boto3_call "efs" "create_mount_target" kwargs w)) = true) ->
  exists w',
    mount_in subnet s
    = (Ret None,
       mkState w' (self s)
         (EvBoto "efs" "create_mount_target"
            (kw [("FileSystemId", efs_id (self s));
                 ("SubnetId", subnet);
                 ("SecurityGroups", PList [security_group_id (self s)])])
          :: trace s)).
Proof.
  intros Hall. unfold mount_in, try_except.
  unfold bind at 1, get_self at 1.
  unfold bind at 1, boto at 1, external at 1.
  match goal with
  | |- context [boto3_call "efs" "create_mount_target" ?k ?w] =>
      specialize (Hall k w); destruct (boto3_call "efs" "create_mount_target" k w) as [[r|e] w1]
  end; cbn [fst] in Hall.
  - now exists w1.
  - destruct e; try discriminate Hall. cbn in Hall. rewrite Hall. now exists w1.
Qed.

Lemma mount_everywhere (subnets : list pyval) :
  (forall kwargs w, mount_settled (fst (boto3_call "efs" "create_mount_target" kwargs w)) = true) ->
  forall s : state W deployer,
  exists s',
    for_each subnets mount_in s = (Ret None, s')
    /\ self s' = self s
    /\ boto_calls "efs" "create_mount_target" (trace s')
       = (length subnets + boto_calls "efs" "create_mount_target" (trace s))%nat
    /\ boto_calls "efs" "create_file_system" (trace s')
       = boto_calls "efs" "create_file_system" (trace s).
Proof.
  intros Hall. induction subnets as [|subnet subnets IH]; intros s; cbn [for_each].
  - now exists s.
  - destruct (mount_in_settled subnet s Hall) as (w' & Hrun).
    rewrite (bind_ret_eq _ _ _ Hrun).
    match goal with
    | |- context [for_each subnets mount_in ?s1] =>
        destruct (IH s1) as (s' & Hrest & Hself & Hn & Hc)
    end.
    exists s'. split; [exact Hrest|]. split; [exact Hself|].
    rewrite Hn, Hc. cbn. split; [lia|reflexivity].
Qed.
End FileSystem.

(** X20.  [create_efs_file_system] creates nothing when a file system
    with the script's name is listed already: it adopts the first such
    file system of the answer, stores and returns its identifier, and
    [describe_file_systems] is its only call. *)
Theorem existing_file_system_is_adopted :
  forall (W : Type) (E : Env W) (s : state W DeployToAppRunner.deployer)
         (file_systems fs id : pyval) (before after : list pyval) (w1 : W),
    boto3_call "efs" "describe_file_systems" (kw []) (world s) = (Ret file_systems, w1) ->
    getitem file_systems "FileSystems" = Ret (PList (before ++ fs :: after)) ->
    forallb other_file_system before = true ->
    named_file_system fs id ->
    DeployToAppRunner.create_efs_file_system s
    = (Ret id,
       mkState w1
         (DeployToAppRunner.mkDeployer
            (DeployToAppRunner.ecr_uri (self s)) (DeployToAppRunner.image_uri (self s)) id
            (DeployToAppRunner.vpc_id (self s)) (DeployToAppRunner.subnet_ids (self s))
            (DeployToAppRunner.security_group_id (self s)))
         (EvBoto "efs" "describe_file_systems" (kw []) :: trace s)).
Proof.
  intros W E s file_systems fs id before after w1 Hcall Hlist Hbefore
    ((name & Hname & Heq) & Hid).
  unfold DeployToAppRunner.create_efs_file_system, try_except.
  unfold bind at 1, boto at 1, external at 1. rewrite Hcall.
  unfold bind at 1, lift at 1. rewrite Hlist.
  unfold bind at 1, lift at 1. cbn [py_iter].
  unfold bind at 1. rewrite (skip_other_file_systems before _ _ Hbefore).
  cbn [for_each]. unfold bind at 1, DeployToAppRunner.existing_file_system at 1.
  unfold bind at 1, lift at 1. rewrite Hname, Heq.
  unfold bind at 1, lift at 1. rewrite Hid.
  reflexivity.
Qed.

Lemma existing_file_system_is_adopted_witness :
  let w := Scripted.with_boto one_vpc Scripted.healthy in
  DeployToAppRunner.create_efs_file_system (Scripted.start w with_network)
  = (Ret (PStr "fs-1"),
     mkState w
       (DeployToAppRunner.mkDeployer PNone PNone (PStr "fs-1") (PStr "vpc-1")
          (PList [PStr "subnet-a"; PStr "subnet-b"]) (PStr "sg-1"))
       [EvBoto "efs" "describe_file_systems" (kw [])]).
Proof.
  apply (@existing_file_system_is_adopted Scripted.sim Scripted.sim_env
           (Scripted.start (Scripted.with_boto one_vpc Scripted.healthy) with_network)
           _ (PDict [("Name", PStr DeployToAppRunner.EFS_NAME); ("FileSystemId", PStr "fs-1")])
           (PStr "fs-1")
           [PDict [("Name", PStr "other"); ("FileSystemId", PStr "fs-0")]] [] _
           eq_refl eq_refl eq_refl).
  split; [|reflexivity]. exists (PStr DeployToAppRunner.EFS_NAME). split; reflexivity.
Defined.



(** ** The App Runner service *)

Section ServicePoll.
Context {W : Type} `{Env W}.
Import DeployToAppRunner.

Lemma wait_for_running_course (n : nat) arn :
  forall (s : state W deployer) o s',
    wait_for_running n arn s = (o, s') ->
    (boto_calls "apprunner" "describe_service" (trace s')
     <= n + boto_calls "apprunner" "describe_service" (trace s))%nat
    /\ forall svc, o = Ret svc ->
         exists status, getitem svc "Status" = Ret status /\ eq_str status "RUNNING" = true.
Proof.
  induction n as [|n IH]; intros s o s'; cbn [wait_for_running].
  - intros Heq. inversion Heq; subst. split; [lia|]. intros svc Hsvc. discriminate Hsvc.
  - unfold bind at 1, boto at 1, external at 1.
    destruct (boto3_call "apprunner" "describe_service" _ (world s)) as [[info|e] w1].
    2:{ intros Heq. inversion Heq; subst. split; [cbn; lia|].
        intros svc Hsvc. discriminate Hsvc. }
    unfold bind at 1, lift at 1.
    destruct (getitem info "Service") as [svc0|e] eqn:Hsvc0.
    2:{ intros Heq. inversion Heq; subst. split; [cbn; lia|].
        intros svc Hsvc. discriminate Hsvc. }
    unfold bind at 1, lift at 1.
    destruct (getitem svc0 "Status") as [status|e] eqn:Hstatus.
    2:{ intros Heq. inversion Heq; subst. split; [cbn; lia|].
        intros svc Hsvc. discriminate Hsvc. }
    destruct (eq_str status "RUNNING") eqn:Hrun.
    { unfold lift. intros Heq. inversion Heq; subst. split; [cbn; lia|].
      intros svc Hsvc. inversion Hsvc; subst. now exists status. }
    destruct (eq_str status "CREATE_FAILED" || eq_str status "UPDATE_FAILED"
              || eq_str status "DELETE_FAILED").
    { intros Heq. inversion Heq; subst. split; [cbn; lia|].
      intros svc Hsvc. discriminate Hsvc. }
    unfold bind at 1, sleep, external_total, external. cbn [world self trace].
    intros Hrest. destruct (IH _ _ _ Hrest) as [Hcount Hret].
    split; [|exact Hret]. cbn in Hcount |- *. lia.
Qed.
End ServicePoll.

Ltac poll_stops :=
  let Heq := fresh "Heq" in
  intros Heq;
  try match type of Heq with
      | context [match ?e with ClientError _ _ => _ | _ => _ end] => destruct e
      end;
  inversion Heq; subst;
  (split; [lia|let svc := fresh in let Hsvc := fresh in intros svc Hsvc; discriminate Hsvc]).

(** X22.  [create_or_update_app_runner_service] returns only a service
    whose [Status] is [RUNNING]; every other course ends in an
    exception.  Whatever its outcome, it asks for the state of the
    service at most 61 times: once to look the service up and at most
    [max_attempts = 60] times while it polls. *)
Theorem app_runner_service_returns_running :
  forall (W : Type) (E : Env W) (access_role_arn instance_role_arn : pyval)
         (s s' : state W DeployToAppRunner.deployer) (o : outcome pyval),
    DeployToAppRunner.create_or_update_app_runner_service access_role_arn instance_role_arn s
    = (o, s') ->
    (boto_calls "apprunner" "describe_service" (trace s')
     <= 61 + boto_calls "apprunner" "describe_service" (trace s))%nat
    /\ forall svc, o = Ret svc ->
         exists status, getitem svc "Status" = Ret status /\ eq_str status "RUNNING" = true.
Proof.
  intros W E a i s s' o.
  unfold DeployToAppRunner.create_or_update_app_runner_service.
  unfold bind at 1, get_self at 1. unfold try_except at 1. unfold bind at 1.
  match goal with
  | |- context [try_except ?m ?h s] =>
      assert (Hfirst :
                (boto_calls "apprunner" "describe_service"
                   (trace (snd (try_except m h s)))
                 <= 1 + boto_calls "apprunner" "describe_service" (trace s))%nat);
      [|destruct (try_except m h s) as [[response|e] s1]; cbn [snd] in Hfirst]
  end.
  { unfold try_except, bind, boto, external, lift, raise.
    repeat (match goal with
            | |- context [boto3_call ?a ?b ?c ?w] =>
                destruct (boto3_call a b c w) as [[?|?] ?]
            | |- context [getitem ?a ?b] => destruct (getitem a b)
            | |- context [match ?e with ClientError _ _ => _ | _ => _ end] => destruct e
            | |- context [if ?c then _ else _] => destruct c
            end; cbn [world self trace snd fst]);
      cbn; lia. }
  2:{ poll_stops. }
  unfold bind at 1, lift at 1.
  destruct (getitem response "Service") as [svc0|e].
  2:{ poll_stops. }
  unfold bind at 1, lift at 1.
  destruct (getitem svc0 "ServiceArn") as [arn|e].
  2:{ poll_stops. }
  unfold bind at 1, lift at 1.
  unfold bind at 1, lift at 1.
  destruct (getitem svc0 "ServiceId") as [sid|e].
  2:{ poll_stops. }
  change (Z.to_nat (DeployToAppRunner.max_attempts - 0)) with 60%nat.
  destruct (DeployToAppRunner.wait_for_running 60 arn s1) as [o1 s2] eqn:Hpoll.
  destruct (wait_for_running_course _ _ _ Hpoll) as [Hcount Hret].
  destruct o1 as [svc|e].
  - intros Heq; inversion Heq; subst. split; [lia|exact Hret].
  - poll_stops.
Qed.

Lemma app_runner_service_returns_running_witness :
  let s := Scripted.start running_world DeployToAppRunner.init in
  fst (DeployToAppRunner.create_or_update_app_runner_service
         (PStr "arn:access") (PStr "arn:instance") s)
  = Ret running_service
  /\ exists status,
       getitem running_service "Status" = Ret status /\ eq_str status "RUNNING" = true.
Proof.
  split; [reflexivity|].
  exact (proj2 (@app_runner_service_returns_running Scripted.sim Scripted.sim_env
                  (PStr "arn:access") (PStr "arn:instance")
                  (Scripted.start running_world DeployToAppRunner.init) _ _ eq_refl)
           running_service eq_refl).
Defined.

(** ** deploy_lambda.py: the ignore files of the Docker build *)

Section MoreTriples.
Context {W Self : Type}.

Lemma triple_finally {A} (P P1 : state W Self -> Prop) (m : M W Self A) fin
    (Q : A -> state W Self -> Prop) (Qf : state W Self -> Prop) R :
  triple P m (fun _ => P1) (fun _ => P1) ->
  (forall s, P1 s -> exists s', fin s = (Ret tt, s') /\ Qf s') ->
  (forall a s, Qf s -> Q a s) -> (forall e s, Qf s -> R e s) ->
  triple P (try_finally m fin) Q R.
Proof.
  intros Hm Hfin HQ HR s Hs. unfold try_finally. specialize (Hm s Hs).
  destruct (m s) as [[a|e] s1]; destruct (Hfin s1 Hm) as (s2 & -> & Hq); auto.
Qed.

Lemma triple_pure {A} (fact : Prop) (P : state W Self -> Prop) (m : M W Self A) Q R :
  (fact -> triple P m Q R) -> triple (fun s => fact /\ P s) m Q R.
Proof. intros Hm s [Hfact Hs]. now apply Hm. Qed.
End MoreTriples.

Section IgnoreFiles.
Context {W : Type} `{Env W} `{Files W}.
Variable content : W -> string -> option string.
Hypothesis disk : faithful_disk content.
Import DeployLambda.

Local Abbreviation St := (state W deployer).
Local Abbreviation files := (@ignore_files W content deployer).

Lemma ignore_paths_differ :
  dockerignore <> dockerignore_backup_path
  /\ dockerignore_lambda <> dockerignore_backup_path
  /\ dockerignore_lambda <> dockerignore
  /\ dockerignore_backup_path <> dockerignore.
Proof.
  repeat split; intros Heq; apply String.eqb_eq in Heq; vm_compute in Heq; discriminate Heq.
Qed.

(** Cloud calls, commands and pure steps leave the three files alone,
    whatever their outcome. *)
Lemma files_boto di lam bk service op kwargs :
  triple (files di lam bk) (boto service op kwargs)
    (fun _ => files di lam bk) (fun _ => files di lam bk).
Proof.
  intros s (Hd & Hl & Hb). unfold boto, external.
  pose proof (calls_keep_files disk service op kwargs (world s)) as Hkeep.
  destruct (boto3_call service op kwargs (world s)) as [[r|e] w1]; cbn [snd] in Hkeep;
    (repeat split; cbn [world]; rewrite Hkeep; assumption).
Qed.

Lemma files_subprocess di lam bk cmd input :
  triple (files di lam bk) (do_subprocess cmd input)
    (fun _ => files di lam bk) (fun _ => files di lam bk).
Proof.
  intros s (Hd & Hl & Hb). unfold do_subprocess, external.
  pose proof (commands_keep_files disk cmd input (world s)) as Hkeep.
  destruct (subprocess_run cmd input (world s)) as [[r|e] w1]; cbn [snd] in Hkeep;
    (repeat split; cbn [world]; rewrite Hkeep; assumption).
Qed.

Lemma files_get_self di lam bk :
  triple (files di lam bk) get_self (fun _ => files di lam bk) (fun _ => files di lam bk).
Proof. intros s Hs. exact Hs. Qed.

Lemma files_lift {A} di lam bk (o : outcome A) :
  triple (files di lam bk) (lift o) (fun _ => files di lam bk) (fun _ => files di lam bk).
Proof. intros s Hs. unfold lift. now destruct o. Qed.

Lemma files_exists di lam bk path expected R :
  (forall s : St, files di lam bk s -> content (world s) path = expected) ->
  triple (files di lam bk) (path_exists path)
    (fun found s =>
       found = match expected with Some _ => true | None => false end
       /\ files di lam bk s) R.
Proof.
  intros Hexp s Hs. unfold path_exists, unlogged.
  destruct (exists_reads disk path (world s)) as [Hfound Hkeep].
  destruct (os_path_exists path (world s)) as [found w1]. cbn [fst snd] in *.
  rewrite Hfound, (Hexp s Hs). split; [reflexivity|].
  destruct Hs as (Hd & Hl & Hb). repeat split; cbn [world]; rewrite Hkeep; assumption.
Qed.

(** The tail of the function, once the build is over: tag and push. *)
Lemma files_tag_and_push di lam bk :
  triple (files di lam bk)
    (d <- get_self ;;
     uri <- lift (as_str (image_uri d)) ;;
     _ <- do_subprocess (Argv (tag_cmd uri)) None ;;
     d <- get_self ;;
     uri <- lift (as_str (image_uri d)) ;;
     _ <- do_subprocess (Argv (push_cmd uri)) None ;;
     d <- get_self ;;
     ret (Done (image_uri d)))
    (fun _ => files di lam bk) (fun _ => files di lam bk).
Proof.
  eapply triple_bind; [apply files_get_self|intros d].
  eapply triple_bind; [apply files_lift|intros uri].
  eapply triple_bind; [apply files_subprocess|intros ?].
  eapply triple_bind; [apply files_get_self|intros d'].
  eapply triple_bind; [apply files_lift|intros uri'].
  eapply triple_bind; [apply files_subprocess|intros ?].
  eapply triple_bind; [apply files_get_self|intros d''].
  apply triple_ret. auto.
Qed.

(** Copying an ignore file that exists cannot fail. *)
Lemma files_backup_copy c lam bk R :
  triple (files (Some c) lam bk) (copy_file dockerignore dockerignore_backup_path)
    (fun _ => files (Some c) lam (Some c)) R.
Proof.
  intros s (Hd & Hl & Hb).
  destruct ignore_paths_differ as (Hdb & Hlb & Hld & Hbd).
  unfold copy_file, silent.
  destruct (copy_writes disk dockerignore dockerignore_backup_path (world s) Hd)
    as (w1 & -> & Hb1 & Hkeep1).
  repeat split; cbn [world].
  - rewrite (Hkeep1 _ Hdb). exact Hd.
  - rewrite (Hkeep1 _ Hlb). exact Hl.
  - exact Hb1.
Qed.

Lemma files_lambda_copy di l bk R :
  triple (files di (Some l) bk) (copy_file dockerignore_lambda dockerignore)
    (fun _ => files (Some l) (Some l) bk) R.
Proof.
  intros s (Hd & Hl & Hb).
  destruct ignore_paths_differ as (Hdb & Hlb & Hld & Hbd).
  unfold copy_file, silent.
  destruct (copy_writes disk dockerignore_lambda dockerignore (world s) Hl)
    as (w1 & -> & Hd1 & Hkeep1).
  repeat split; cbn [world].
  - exact Hd1.
  - rewrite (Hkeep1 _ Hld). exact Hl.
  - rewrite (Hkeep1 _ Hbd). exact Hb.
Qed.

(** The restoring [finally] clause. *)
Lemma restore_from_backup di lam c (s : St) :
  files di lam (Some c) s ->
  exists s',
    restore_dockerignore (Some dockerignore_backup_path) s = (Ret tt, s')
    /\ files (Some c) lam None s'.
Proof.
  intros (Hd & Hl & Hb).
  destruct ignore_paths_differ as (Hdb & Hlb & Hld & Hbd).
  unfold restore_dockerignore, bind, copy_file, remove_file, silent.
  destruct (copy_writes disk dockerignore_backup_path dockerignore (world s) Hb)
    as (w1 & -> & Hd1 & Hkeep1). cbn [world self trace].
  assert (Hb1 : content w1 dockerignore_backup_path = Some c)
    by (rewrite (Hkeep1 _ Hbd); exact Hb).
  destruct (remove_deletes disk dockerignore_backup_path w1 Hb1)
    as (w2 & -> & Hb2 & Hkeep2).
  eexists. split; [reflexivity|]. repeat split; cbn [world].
  - rewrite (Hkeep2 _ Hdb). exact Hd1.
  - rewrite (Hkeep2 _ Hlb), (Hkeep1 _ Hld). exact Hl.
  - exact Hb2.
Qed.
End IgnoreFiles.

Section IgnoreFilesCourse.
Context {W : Type} `{Env W} `{Files W}.
Variable content : W -> string -> option string.
Hypothesis disk : faithful_disk content.
Import DeployLambda.

Local Abbreviation St := (state W deployer).
Local Abbreviation files := (@ignore_files W content deployer).
Local Abbreviation built := (@after_build W content deployer).

(** The function from its first [os.path.exists] on. *)
Lemma swap_build_restore di lam bk :
  triple (files di lam bk)
    (found <- path_exists dockerignore ;;
     dockerignore_backup <-
       (if found then
          copy_file dockerignore dockerignore_backup_path ;;
          ret (Some dockerignore_backup_path)
        else ret None) ;;
     found_lambda <- path_exists dockerignore_lambda ;;
     (if found_lambda then copy_file dockerignore_lambda dockerignore else ret tt) ;;
     _ <- try_finally
            (do_subprocess (Argv build_cmd) None)
            (restore_dockerignore dockerignore_backup) ;;
     d <- get_self ;;
     uri <- lift (as_str (image_uri d)) ;;
     _ <- do_subprocess (Argv (tag_cmd uri)) None ;;
     d <- get_self ;;
     uri <- lift (as_str (image_uri d)) ;;
     _ <- do_subprocess (Argv (push_cmd uri)) None ;;
     d <- get_self ;;
     ret (Done (image_uri d)))
    (fun _ => built di lam bk) (fun _ => built di lam bk).
Proof.
  eapply triple_bind;
    [eapply (@files_exists _ _ _ content disk); intros s (Hd & _); exact Hd|].
  intros found. apply triple_pure. intros ->.
  destruct di as [c|]; cbv iota.
  - (* a .dockerignore exists: it is backed up *)
    eapply triple_bind;
      [eapply triple_bind; [apply (files_backup_copy disk)|];
       intros ?; apply triple_ret with
         (Q := fun b s => b = Some dockerignore_backup_path
                          /\ files (Some c) lam (Some c) s); auto|].
    intros backup. apply triple_pure. intros ->.
    eapply triple_bind;
      [eapply (@files_exists _ _ _ content disk); intros s (_ & Hl & _); exact Hl|].
    intros found_lambda. apply triple_pure. intros ->.
    eapply triple_bind with
      (Q1 := fun _ s => exists di', files di' lam (Some c) s).
    { destruct lam as [l|]; cbv iota.
      - eapply triple_weaken;
          [apply (@files_lambda_copy _ _ _ content disk) with
             (R := fun _ => built (Some c) (Some l) bk)
          |intros s Hs; exact Hs|intros a s Hs; eexists; exact Hs
          |intros e s Hs; exact Hs].
      - apply triple_ret. eauto. }
    intros _. eapply triple_bind with (Q1 := fun _ => files (Some c) lam None).
    { intros s [di' Hs]. revert s Hs.
      change (triple (files di' lam (Some c))
                (try_finally (do_subprocess (Argv build_cmd) None)
                   (restore_dockerignore (Some dockerignore_backup_path)))
                (fun _ => files (Some c) lam None)
                (fun _ => built (Some c) lam bk)).
      eapply triple_finally with (Qf := files (Some c) lam None);
        [apply (files_subprocess disk)| |auto|auto].
      intros s Hs. apply (restore_from_backup disk Hs). }
    intros _. apply (files_tag_and_push disk).
  - (* no .dockerignore: nothing to restore *)
    eapply triple_bind;
      [apply triple_ret with (Q := fun b s => b = None /\ files None lam bk s); auto|].
    intros backup. apply triple_pure. intros ->.
    eapply triple_bind;
      [eapply (@files_exists _ _ _ content disk); intros s (_ & Hl & _); exact Hl|].
    intros found_lambda. apply triple_pure. intros ->.
    eapply triple_bind with (Q1 := fun _ => files lam lam bk).
    { destruct lam as [l|]; cbv iota.
      - apply (files_lambda_copy disk).
      - apply triple_ret. auto. }
    intros _. eapply triple_bind with (Q1 := fun _ => files lam lam bk).
    { eapply triple_finally with (Qf := files lam lam bk);
        [apply (files_subprocess disk)| |auto|auto].
      intros s Hs. eexists. split; [reflexivity|exact Hs]. }
    intros _. apply (files_tag_and_push disk).
Qed.

(** The whole function: it stops before the build with the files as
    they were, or the build is over. *)
Lemma ignore_files_course di lam bk :
  triple (files di lam bk) build_and_push_docker_image
    (fun _ s => files di lam bk s \/ built di lam bk s)
    (fun _ s => files di lam bk s \/ built di lam bk s).
Proof.
  unfold build_and_push_docker_image.
  eapply triple_try with (R1 := fun _ s => files di lam bk s \/ built di lam bk s).
  - eapply triple_bind with (Q1 := fun _ => files di lam bk).
    { eapply triple_weaken;
        [apply (files_boto disk)|intros s Hs; exact Hs|intros ? s Hs; exact Hs
        |intros ? s Hs; left; exact Hs]. }
    intros ?. eapply triple_bind with (Q1 := fun _ => files di lam bk).
    { eapply triple_weaken;
        [apply (files_subprocess disk)|intros s Hs; exact Hs|intros ? s Hs; exact Hs
        |intros ? s Hs; left; exact Hs]. }
    intros ?. eapply triple_weaken;
      [apply swap_build_restore|intros s Hs; exact Hs|intros ? s Hs; right; exact Hs
      |intros ? s Hs; right; exact Hs].
  - intros e k Hk. destruct e; inversion Hk; subst. apply triple_ret. auto.
  - auto.
Qed.
End IgnoreFilesCourse.


Lemma triple_any {W Self A} (P : state W Self -> Prop) (m : M W Self A) :
  triple P m (fun _ _ => True) (fun _ _ => True).
Proof. intros s _. now destruct (m s) as [[a|e] s1]. Qed.

(** The disk of the witnesses obeys the laws. *)
Lemma disk_is_faithful :
  @faithful_disk Disk.disk Disk.disk_env Disk.disk_files (fun w path => w path).
Proof.
  split.
  - intros path w. split; reflexivity.
  - intros src dst w c Hsrc. exists (Disk.write dst c w). cbn. rewrite Hsrc.
    split; [reflexivity|]. unfold Disk.write. split.
    + now rewrite String.eqb_refl.
    + intros other Hne. apply String.eqb_neq in Hne. now rewrite Hne.
  - intros path w c Hpath. exists (Disk.delete path w). cbn. rewrite Hpath.
    split; [reflexivity|]. unfold Disk.delete. split.
    + now rewrite String.eqb_refl.
    + intros other Hne. apply String.eqb_neq in Hne. now rewrite Hne.
  - reflexivity.
  - reflexivity.
Qed.

Section LambdaImage.
Context {W : Type} `{Env W} `{Files W}.
Import DeployLambda.

Local Abbreviation St := (state W deployer).

(** X23 (deploy_lambda.py, [build_and_push_docker_image]): on a file
    system that behaves, a [.dockerignore] that exists before the call
    holds the same content after it, whether the call returns, leaves
    the interpreter or raises, and whether or not the build succeeded;
    [.dockerignore.lambda] is as it was, and no backup file is left
    unless one was there before and the call stopped before the build. *)
Theorem dockerignore_is_restored (content : W -> string -> option string) (s : St) c :
  faithful_disk content ->
  content (world s) dockerignore = Some c ->
  let s' := snd (build_and_push_docker_image s) in
  content (world s') dockerignore = Some c
  /\ content (world s') dockerignore_lambda = content (world s) dockerignore_lambda
  /\ (content (world s') dockerignore_backup_path = None
      \/ content (world s') dockerignore_backup_path
         = content (world s) dockerignore_backup_path).
Proof.
  intros Hdisk Hd s'.
  pose proof (@ignore_files_course _ _ _ content Hdisk (Some c)
                (content (world s) dockerignore_lambda)
                (content (world s) dockerignore_backup_path)) as Hcourse.
  unfold triple in Hcourse. specialize (Hcourse s).
  assert (Hend : ignore_files content (Some c) (content (world s) dockerignore_lambda)
                   (content (world s) dockerignore_backup_path) s'
                 \/ after_build content (Some c) (content (world s) dockerignore_lambda)
                      (content (world s) dockerignore_backup_path) s').
  { subst s'. destruct (build_and_push_docker_image s) as [[a|e] s1];
      apply Hcourse; repeat split; auto. }
  destruct Hend as [(Hd' & Hl' & Hb')|(Hd' & Hl' & Hb')]; auto.
Qed.

(** X24 (deploy_lambda.py, [build_and_push_docker_image]): when there
    is no [.dockerignore] but a [.dockerignore.lambda], and the call
    gets as far as the build, the Lambda ignore file is copied to
    [.dockerignore] and stays there after the call: nothing removes it,
    whatever the build, the tag and the push do. *)
Theorem lambda_ignore_file_is_left_behind
    (content : W -> string -> option string) (s : St) l :
  faithful_disk content ->
  content (world s) dockerignore = None ->
  content (world s) dockerignore_lambda = Some l ->
  (exists token w1 out w2,
      boto3_call "ecr" "get_authorization_token" (kw []) (world s) = (Ret token, w1)
      /\ subprocess_run (Shell login_cmd) None w1 = (Ret out, w2)) ->
  content (world (snd (build_and_push_docker_image s))) dockerignore = Some l.
Proof.
  intros Hdisk Hd Hl (token & w1 & out & w2 & Hauth & Hlogin).
  pose proof (calls_keep_files Hdisk "ecr" "get_authorization_token" (kw []) (world s))
    as Hkeep1.
  rewrite Hauth in Hkeep1. cbn [snd] in Hkeep1.
  pose proof (commands_keep_files Hdisk (Shell login_cmd) None w1) as Hkeep2.
  rewrite Hlogin in Hkeep2. cbn [snd] in Hkeep2.
  unfold build_and_push_docker_image, try_except.
  erewrite bind_ret_eq; cycle 1.
  { unfold boto, external. rewrite Hauth. reflexivity. }
  erewrite bind_ret_eq; cycle 1.
  { unfold do_subprocess, external. cbn [world self trace]. rewrite Hlogin. reflexivity. }
  match goal with
  | |- context [bind (path_exists dockerignore) ?k ?s2] =>
      pose proof (@swap_build_restore _ _ _ content Hdisk None (Some l)
                    (content (world s) dockerignore_backup_path) s2) as Hcourse;
      cbv beta in Hcourse;
      destruct (bind (path_exists dockerignore) k s2) as [[a|e] s3]
  end.
  - apply Hcourse. repeat split; cbn [world]; rewrite Hkeep2, Hkeep1; auto.
  - assert (Hs3 : after_build content None (Some l)
                    (content (world s) dockerignore_backup_path) s3).
    { apply Hcourse. repeat split; cbn [world]; rewrite Hkeep2, Hkeep1; auto. }
    destruct e; cbn [snd]; apply Hs3.
Qed.

Lemma build_ends_with_status_1 (s : St) code s' :
  build_and_push_docker_image s = (Ret (Exit code), s') -> code = 1.
Proof.
  unfold build_and_push_docker_image.
  match goal with
  | |- try_except ?body ?h s = _ -> _ =>
      assert (Hbody : triple (fun _ : St => True) body
                        (fun c _ => exists image, c = Done image) (fun _ _ => True))
  end.
  { repeat (eapply triple_bind; [apply triple_any|intros ?]).
    apply triple_ret. eauto. }
  unfold try_except. specialize (Hbody s I).
  match type of Hbody with
  | match ?t with _ => _ end => destruct t as [[c|e] s1]
  end.
  - destruct Hbody as [image ->]. discriminate.
  - destruct e; intros Heq; inversion Heq; reflexivity.
Qed.

End LambdaImage.

Lemma dockerignore_is_restored_witness :
  let s := mkState Disk.both_ignore_files Disk.with_image [] in
  let s' := snd (@DeployLambda.build_and_push_docker_image _ Disk.disk_env Disk.disk_files s) in
  fst (@DeployLambda.build_and_push_docker_image _ Disk.disk_env Disk.disk_files s)
  = Ret (Exit 1)
  /\ world s' DeployLambda.dockerignore = Some "node_modules"
  /\ world s' DeployLambda.dockerignore_lambda = Some "tests"
  /\ world s' DeployLambda.dockerignore_backup_path = None.
Proof.
  pose proof (@dockerignore_is_restored _ Disk.disk_env Disk.disk_files
                (fun w path => w path)
                (mkState Disk.both_ignore_files Disk.with_image []) "node_modules"
                disk_is_faithful eq_refl) as (Hd & Hl & _).
  intros s s'. split; [vm_compute; reflexivity|].
  split; [exact Hd|]. split; [exact Hl|vm_compute; reflexivity].
Defined.

Lemma lambda_ignore_file_is_left_behind_witness :
  let s := mkState Disk.lambda_ignore_only Disk.with_image [] in
  world (snd (@DeployLambda.build_and_push_docker_image _ Disk.disk_env Disk.disk_files s))
    DeployLambda.dockerignore = Some "tests".
Proof.
  intros s.
  apply (@lambda_ignore_file_is_left_behind _ Disk.disk_env Disk.disk_files
           (fun w path => w path)
           (mkState Disk.lambda_ignore_only Disk.with_image []) "tests"
           disk_is_faithful eq_refl eq_refl).
  do 4 eexists. split; reflexivity.
Defined.


(** ** aws_route53_cloudfront_deploy.py: the course of the verifier *)

Section VerifierCourse.
Context {W Self : Type} `{Env W}.
Import Route53CloudfrontDeploy.

Local Abbreviation St := (state W Self).

(** One attempt, by the answer of the request. *)
Lemma verify_attempt_cases domain N d i (s : St) :
  let url := "https://" ++ domain in
  let s1 := after_requests_get url s in
  let failed := (Ret None, if i <? N then after_sleep d s1 else s1) in
  verify_attempt domain N d i s
  = match fst (requests_get url (world s)) with
    | Ret status => if status =? 200 then (Ret (Some true), s1) else failed
    | Raise (RequestException _) => failed
    | Raise e => (Raise e, s1)
    end.
Proof.
  unfold verify_attempt, probe_domain, try_except, bind, do_requests_get, external,
    after_requests_get, after_sleep, sleep, external_total, external, ret.
  destruct (requests_get ("https://" ++ domain) (world s)) as [[status|e] w1].
  - cbn [fst snd]. destruct (status =? 200); [reflexivity|].
    destruct (i <? N); reflexivity.
  - cbn [fst snd]. destruct e; try reflexivity. destruct (i <? N); reflexivity.
Qed.

Lemma verify_attempts_trace domain N d :
  forall (n : nat) (i : Z) (s : St),
    i + Z.of_nat n = N + 1 ->
    exists k o s',
      for_each (py_range i (N + 1)) (verify_attempt domain N d) s = (o, s')
      /\ trace s'
         = (attempts_events (EvRequestsGet ("https://" ++ domain)) d k ++ trace s)%list
      /\ self s' = self s
      /\ (k <= n)%nat
      /\ match o with
         | Ret (Some b) => b = true /\ (1 <= k)%nat
         | Ret None => k = n
         | Raise e => (1 <= k)%nat /\ not_a_request_exception e
         end.
Proof.
  induction n as [|n IH]; intros i s Hi.
  - replace i with (N + 1) by lia. unfold py_range. rewrite Z.sub_diag. cbn.
    exists 0%nat, (Ret None), s. repeat split; reflexivity.
  - rewrite (@py_range_cons i (N + 1)) by lia. cbn [for_each].
    assert (Hfailed :
      exists k o s',
        for_each (py_range (i + 1) (N + 1)) (verify_attempt domain N d)
          (if i <? N then after_sleep d (after_requests_get ("https://" ++ domain) s)
           else after_requests_get ("https://" ++ domain) s) = (o, s')
        /\ trace s'
           = (attempts_events (EvRequestsGet ("https://" ++ domain)) d k ++ trace s)%list
        /\ self s' = self s
        /\ (k <= S n)%nat
        /\ match o with
           | Ret (Some b) => b = true /\ (1 <= k)%nat
           | Ret None => k = S n
           | Raise e => (1 <= k)%nat /\ not_a_request_exception e
           end).
    { destruct (i <? N) eqn:Hlt.
      - apply Z.ltb_lt in Hlt.
        destruct (IH (i + 1)
                    (after_sleep d (after_requests_get ("https://" ++ domain) s))
                    ltac:(lia))
          as (k & o & s' & Hrun & Htr & Hself & Hk & Hres).
        assert (Hpos : (1 <= k)%nat)
          by (destruct o as [[b|]|e]; [tauto|lia|tauto]).
        destruct k as [|k]; [lia|].
        exists (S (S k)), o, s'. split; [exact Hrun|]. split.
        { rewrite Htr. cbn [after_sleep after_requests_get trace].
          apply attempts_events_snoc. }
        split; [exact Hself|]. split; [lia|].
        destruct o as [[b|]|e]; [split; [tauto|lia]|lia|split; [lia|tauto]].
      - apply Z.ltb_ge in Hlt.
        destruct (IH (i + 1) (after_requests_get ("https://" ++ domain) s) ltac:(lia))
          as (k & o & s' & Hrun & Htr & Hself & Hk & Hres).
        assert (k = 0%nat) by lia. subst k.
        destruct o as [[b|]|e]; [lia| |lia].
        exists 1%nat, (Ret None), s'. split; [exact Hrun|]. split; [exact Htr|].
        split; [exact Hself|]. split; lia. }
    unfold bind at 1. rewrite verify_attempt_cases. cbv zeta.
    destruct (fst (requests_get ("https://" ++ domain) (world s))) as [status|e].
    + destruct (status =? 200); [|exact Hfailed].
      exists 1%nat, (Ret (Some true)), (after_requests_get ("https://" ++ domain) s).
      repeat split; try reflexivity; lia.
    + destruct e; try exact Hfailed;
        (eexists 1%nat, _, (after_requests_get ("https://" ++ domain) s);
         split; [reflexivity|]; repeat split; try reflexivity; try lia;
         unfold not_a_request_exception; intros ?; discriminate).
Qed.

(** X26 (aws_route53_cloudfront_deploy.py, [verify_deployment]): the
    verifier makes at most [max_retries] requests, with a pause of
    [delay] seconds between two consecutive ones and neither before the
    first nor after the last.  It returns [True] only after a request,
    [False] only after exactly [max_retries] requests (none at all when
    [max_retries] is not positive), and, unlike the health checks of the
    updater, it lets through an exception of a request that is not a
    [RequestException], without any further request or pause. *)
Theorem verify_deployment_course (domain : string) (max_retries delay : Z) (s : St) :
  exists (k : nat),
    verifier_course domain max_retries delay k s
      (fst (verify_deployment domain max_retries delay s))
      (snd (verify_deployment domain max_retries delay s)).
Proof.
  unfold verify_deployment, verifier_course.
  destruct (Z_le_gt_dec 0 max_retries) as [Hpos|Hneg].
  - destruct (verify_attempts_trace domain max_retries delay
                (Z.to_nat max_retries) 1 s ltac:(lia))
      as (k & o & s' & Hrun & Htr & Hself & Hk & Hres).
    exists k. unfold bind. rewrite Hrun.
    destruct o as [[b|]|e]; cbn [fst snd ret].
    + destruct Hres as [-> Hone]. auto.
    + auto.
    + auto.
  - unfold py_range. replace (Z.to_nat (max_retries + 1 - 1)) with 0%nat by lia. cbn.
    exists 0%nat. repeat split; try reflexivity; lia.
Qed.
End VerifierCourse.

(** ** deploy_to_aws.py: the four commands of the image build *)

Section CdkImage.
Context {W Self : Type} `{Env W}.
Import DeployToAws.

(** X27 (deploy_to_aws.py, [build_and_push_docker_image]): the function
    runs the login, the build, the tag and the push in this order and
    stops at the first command that fails, whose exception it raises
    unchanged.  It returns the full image name, and only after all four
    commands have run. *)
Theorem cdk_image_commands_in_order (account_id region : string) (s : state W Self) :
  exists (k : nat) (o : outcome string) (s' : state W Self),
    build_and_push_docker_image account_id region s = (o, s')
    /\ trace s'
       = (rev (firstn k (map EvSubprocess (commands account_id region))) ++ trace s)%list
    /\ self s' = self s
    /\ (1 <= k <= 4)%nat
    /\ match o with
       | Ret name => name = full_image_name account_id region /\ k = 4%nat
       | Raise e =>
           exists cmd w,
             nth_error (commands account_id region) (k - 1) = Some cmd
             /\ fst (subprocess_run cmd None w) = Raise e
       end.
Proof.
  unfold build_and_push_docker_image, try_except.
  unfold bind at 1, do_subprocess at 1, external at 1.
  destruct (subprocess_run (Shell (login_cmd account_id region)) None (world s))
    as [[r1|e1] w1] eqn:E1.
  2:{ exists 1%nat, (Raise e1). eexists. split; [destruct e1; reflexivity|].
      repeat split; try lia.
      eexists; exists (world s); split; [reflexivity|]; rewrite E1; reflexivity. }
  unfold bind at 1, do_subprocess at 1, external at 1. cbn [world self trace].
  destruct (subprocess_run (Argv build_cmd) None w1) as [[r2|e2] w2] eqn:E2.
  2:{ exists 2%nat, (Raise e2). eexists. split; [destruct e2; reflexivity|].
      repeat split; try lia.
      eexists; exists w1; split; [reflexivity|]; rewrite E2; reflexivity. }
  unfold bind at 1, do_subprocess at 1, external at 1. cbn [world self trace].
  destruct (subprocess_run (Argv (tag_cmd account_id region)) None w2)
    as [[r3|e3] w3] eqn:E3.
  2:{ exists 3%nat, (Raise e3). eexists. split; [destruct e3; reflexivity|].
      repeat split; try lia.
      eexists; exists w2; split; [reflexivity|]; rewrite E3; reflexivity. }
  unfold bind at 1, do_subprocess at 1, external at 1. cbn [world self trace].
  destruct (subprocess_run (Argv (push_cmd account_id region)) None w3)
    as [[r4|e4] w4] eqn:E4.
  2:{ exists 4%nat, (Raise e4). eexists. split; [destruct e4; reflexivity|].
      repeat split; try lia.
      eexists; exists w3; split; [reflexivity|]; rewrite E4; reflexivity. }
  exists 4%nat. eexists. eexists. split; [reflexivity|]. repeat split; lia.
Qed.
End CdkImage.


(** ** update_aws_deployment.py: the commands of stage 6 *)

Section Stage06.
Context {W : Type} `{Env W}.
Import UpdateAwsDeployment.

Lemma run_course {Self} (cmd : list string) (s : state W Self) :
  exists o,
    run cmd s
    = (o, mkState (snd (subprocess_run (Argv cmd) None (world s))) (self s)
            (EvSubprocess (Argv cmd) :: trace s))
    /\ match o with
       | Ret (true, _, _) => True
       | Ret (false, _, _) => exits_with_error cmd
       | Raise e => cannot_run cmd e
       end.
Proof.
  unfold run, try_except, bind, do_subprocess, external.
  destruct (subprocess_run (Argv cmd) None (world s)) as [[[out err]|e] w1] eqn:Hrun.
  - eexists. split; [reflexivity|]. exact I.
  - destruct e;
      try (eexists; split; [reflexivity|]; split;
           [exists (world s); rewrite Hrun; reflexivity|intros; discriminate]).
    eexists. split; [reflexivity|]. cbv beta iota.
    exists (world s). do 4 eexists. rewrite Hrun. reflexivity.
Qed.

Ltac stage_06_step n :=
  match goal with
  | |- context [bind (run ?cmd) _ ?st] =>
      let o := fresh "o" in
      let Hrun := fresh "Hrun" in
      let Ho := fresh "Ho" in
      destruct (run_course cmd st) as (o & Hrun & Ho);
      unfold bind at 1; rewrite Hrun; clear Hrun;
      destruct o as [[[[|] ?] ?]|?]; cbn [negb world self trace];
      [ clear Ho
      | exists n, (Ret false); eexists; split; [reflexivity|];
        split; [reflexivity|]; split; [reflexivity|]; split; [lia|];
        eexists; split; [reflexivity|exact Ho]
      | eexists n, (Raise _), _; split; [reflexivity|];
        split; [reflexivity|]; split; [reflexivity|]; split; [lia|];
        eexists; split; [reflexivity|exact Ho] ]
  end.

(** X28 (update_aws_deployment.py, [stage_06_build_and_push_ecr]):
    stage 6 runs the build, the two tags and the two pushes in this
    order and stops at the first command that does not succeed: nothing
    is pushed unless the build and both tags succeeded, and the
    [latest] tag is pushed only after the versioned one.  It returns
    [True] only after all five commands, [False] when a command exits
    with an error, and raises when a command cannot be run at all.  In
    every case [ecr_image_uri] is set to the versioned registry tag. *)
Theorem stage_06_command_order (s : state W deployer) :
  exists (k : nat) (o : outcome bool) (s' : state W deployer),
    stage_06_build_and_push_ecr s = (o, s')
    /\ trace s'
       = (rev (firstn k (map (fun cmd => EvSubprocess (Argv cmd))
                           (stage_06_commands (image_tag (self s)))))
          ++ trace s)%list
    /\ self s'
       = mkDeployer (version (self s)) (image_tag (self s))
           (ECR_FULL_URI ++ ":" ++ image_tag (self s))
    /\ (1 <= k <= 5)%nat
    /\ match o with
       | Ret true => k = 5%nat
       | Ret false =>
           exists cmd,
             nth_error (stage_06_commands (image_tag (self s))) (k - 1) = Some cmd
             /\ exits_with_error cmd
       | Raise e =>
           exists cmd,
             nth_error (stage_06_commands (image_tag (self s))) (k - 1) = Some cmd
             /\ cannot_run cmd e
       end.
Proof.
  unfold stage_06_build_and_push_ecr.
  unfold bind at 1, get_self at 1. unfold bind at 1, set_self at 1.
  cbn [world self trace image_tag version].
  stage_06_step 1%nat. stage_06_step 2%nat. stage_06_step 3%nat.
  stage_06_step 4%nat. stage_06_step 5%nat.
  exists 5%nat, (Ret true). eexists. split; [reflexivity|].
  split; [reflexivity|]. split; [reflexivity|]. split; [lia|reflexivity].
Qed.
End Stage06.
